(** * PyHelp: fixed-format report parsers, CWEEDS reader and HELP writer

    A shallow embedding of [pyhelp/processing.py] and
    [pyhelp/weather_reader.py], with the properties of their data model
    proved over it.

    Conventions of the embedding.
    - A text file is the list of rows [csv.reader] yields for it; a row is
      the list of its fields, and a blank line is the empty row.
    - A Python exception is a value [Raise e] of the error monad [result].
    - Python's builtins [int] and [float], the numpy string and float32
      casts and [xlrd]'s date conversion are parameters of the sections
      that use them: the theorems hold whatever those functions accept. *)

From Stdlib Require Import ZArith Lia List String Ascii Bool.
From Stdlib Require Import Decimal DecimalString DecimalZ.
From stdpp Require Import base option list strings gmap sorting.
Import ListNotations.
Local Open Scope Z_scope.

(** ** Exceptions *)

Inductive exn : Type :=
  | IndexError
  | ValueError
  | KeyError
  | UnboundLocalError
  | AssertionError
  | FileNotFoundError.

Inductive result (A : Type) : Type :=
  | Ok (a : A)
  | Raise (e : exn).
Arguments Ok {A} a.
Arguments Raise {A} e.

Definition rbind {A B} (m : result A) (k : A -> result B) : result B :=
  match m with
  | Ok a => k a
  | Raise e => Raise e
  end.

Notation "'do' x <- m ; k" := (rbind m (fun x => k))
  (at level 10, x name, m at level 100, k at level 200).

Definition is_ok {A} (m : result A) : bool :=
  match m with Ok _ => true | Raise _ => false end.

Definition of_option {A} (e : exn) (o : option A) : result A :=
  match o with Some a => Ok a | None => Raise e end.

(** [x is None] *)
Definition is_None {A} (o : option A) : bool :=
  match o with None => true | Some _ => false end.

(** [mapM f l]: convert every element, the first failure wins. *)
Fixpoint mapM {A B} (f : A -> result B) (l : list A) : result (list B) :=
  match l with
  | [] => Ok []
  | a :: l' => do b <- f a; do bs <- mapM f l'; Ok (b :: bs)
  end.

(** ** Python strings and sequences *)

Module Py.

(** [needle in hay] *)
Fixpoint contains (needle hay : string) : bool :=
  String.prefix needle hay ||
  match hay with
  | EmptyString => false
  | String _ hay' => contains needle hay'
  end.

(** Characters [str.split()] and [str.strip()] treat as blanks. *)
Definition is_space (c : ascii) : bool :=
  let n := nat_of_ascii c in
  ((9 <=? n)%nat && (n <=? 13)%nat) || ((28 <=? n)%nat && (n <=? 32)%nat).

(** [s.split()]: maximal runs of non-blank characters.  [cur] is the
    token being read, reversed. *)
Definition flush (cur : list ascii) (acc : list string) : list string :=
  match cur with
  | [] => acc
  | _ => string_of_list_ascii (rev cur) :: acc
  end.

Fixpoint split_aux (s : string) (cur : list ascii) : list string :=
  match s with
  | EmptyString => flush cur []
  | String c s' =>
      if is_space c then flush cur (split_aux s' [])
      else split_aux s' (c :: cur)
  end.

Definition split (s : string) : list string := split_aux s [].

(** [l[-n:]] for a positive [n] *)
Definition last_n {A} (n : nat) (l : list A) : list A :=
  skipn (length l - n) l.

(** [l[-1]] *)
Definition last_item {A} (l : list A) : result A :=
  of_option IndexError (last l).

(** [s[a:b]] with [0 <= a <= b]: out-of-range bounds are clipped. *)
Definition slice (a b : nat) (s : string) : string :=
  String.substring a (Nat.min b (String.length s) - a) s.

(** [s[a:]] *)
Definition slice_from (a : nat) (s : string) : string :=
  String.substring a (String.length s - a) s.

(** [s[-n:]] for a positive [n] *)
Definition slice_last (n : nat) (s : string) : string :=
  slice_from (String.length s - n) s.

(** [s[:n]] *)
Definition slice_to (n : nat) (s : string) : string :=
  String.substring 0 (Nat.min n (String.length s)) s.

(** [calendar.isleap] *)
Definition isleap (year : Z) : bool :=
  (year mod 4 =? 0) && (negb (year mod 100 =? 0) || (year mod 400 =? 0)).

(** [366 if calendar.isleap(year) else 365] *)
Definition days_in_year (year : Z) : Z :=
  if isleap year then 366 else 365.

(** [astype('uint16')] on an integer. *)
Definition uint16 (n : Z) : Z := n mod 65536.

(** [str(n)] for an integer. *)
Definition str_of_int (n : Z) : string := NilZero.string_of_int (Z.to_int n).

Definition spaces (n : nat) : string := string_of_list_ascii (repeat " "%char n).

(** ['{0:>w}'.format(s)]: right-aligned in a field of at least [w]. *)
Definition rjust (w : nat) (s : string) : string :=
  (spaces (w - String.length s) ++ s)%string.

(** ['{0:<w}'.format(s)]: left-aligned in a field of at least [w]. *)
Definition ljust (w : nat) (s : string) : string :=
  (s ++ spaces (w - String.length s))%string.

(** ['{0:>w}'.format(n)] for an integer. *)
Definition format_int (w : nat) (n : Z) : string := rjust w (str_of_int n).

(** [s.rfind(c)], as the number of characters before the last [c]. *)
Fixpoint rfind (c : ascii) (s : string) : option nat :=
  match s with
  | EmptyString => None
  | String a s' =>
      match rfind c s' with
      | Some i => Some (S i)
      | None => if Ascii.eqb a c then Some 0%nat else None
      end
  end.

(** Is some character of [s[a:b]] not a dot? *)
Definition has_non_dot (a b : nat) (s : string) : bool :=
  existsb (fun c => negb (Ascii.eqb c "."%char))
          (list_ascii_of_string (String.substring a (b - a) s)).

(** [os.path.splitext] (its extension part), for [/]-separated paths:
    the extension starts at the last dot of the last component, unless
    only dots come before it there. *)
Definition splitext_ext (p : string) : string :=
  let start := match rfind "/"%char p with Some i => S i | None => 0%nat end in
  match rfind "."%char p with
  | Some d =>
      if (start <=? d)%nat && has_non_dot start d p
      then String.substring d (String.length p - d) p
      else ""
  | None => ""
  end.

End Py.

(** ** Builtins of Python, numpy and xlrd

    [int(s)], [float(s)] and the numpy casts are not code of this
    repository: the development is parametric in them, and in the type
    [float] of the floating-point numbers.  A failed conversion raises
    [ValueError]. *)

Class Builtins (float : Type) : Type := {
  (** [int(s)] *)
  py_int : string -> option Z;
  (** [float(s)] *)
  py_float : string -> option float;
  (** [np.array(x).astype('float32')] on one float *)
  f32 : float -> float;
  (** [np.array(s).astype('float32')] on one string *)
  str_f32 : string -> option float;
  (** [0.0] and [nan] *)
  fzero : float;
  fnan : float;
  (** [x / 1000] *)
  fdiv1000 : float -> float;
  (** [np.sum] along a row *)
  np_sum : list float -> float;
  (** [xldate_from_datetime_tuple((year, month, day, hour, 0, 0), 0)];
      [None] when xlrd rejects the date.  Time stamps are kept as exact
      numbers (hours since the spreadsheet epoch): comparing them is all
      the code does with them. *)
  xldate : Z -> Z -> Z -> Z -> option Z;
  (** ['{0:>w.pf}'.format(x)] *)
  format_f : nat -> nat -> float -> string
}.

(** ** The file system and the simulator

    A file is the list of rows [csv.reader] reads from it and
    [csv.writer] writes to it.  The world also logs every call of the
    simulator, with its arguments. *)

Definition row : Type := list string.

Record world : Type := {
  files : gmap string (list row);
  sim_log : list (list string)
}.

(** [HELP3O.run_simulation], applied to the tuple [outparam]: the compiled simulator, which
    reads and writes files. *)
Class Simulator : Type := {
  run_simulation : list string -> gmap string (list row) -> result (gmap string (list row))
}.

(** Code with effects on the world: the world after, and the value or
    the exception. *)
Definition io (A : Type) : Type := world -> world * result A.

Definition io_ret {A} (a : A) : io A := fun w => (w, Ok a).
Definition io_raise {A} (e : exn) : io A := fun w => (w, Raise e).
Definition io_lift {A} (m : result A) : io A := fun w => (w, m).

Definition io_bind {A B} (m : io A) (k : A -> io B) : io B :=
  fun w => match m w with
           | (w', Ok a) => k a w'
           | (w', Raise e) => (w', Raise e)
           end.

Notation "'run' x <- m ; k" := (io_bind m (fun x => k))
  (at level 10, x name, m at level 100, k at level 200).

(** [osp.exists(path)] *)
Definition path_exists (path : string) : io bool :=
  fun w => (w, Ok (bool_decide (is_Some (files w !! path)))).

(** [list(csv.reader(open(path)))] *)
Definition read_rows (path : string) : io (list row) :=
  fun w => (w, of_option FileNotFoundError (files w !! path)).

(** [os.remove(path)] *)
Definition os_remove (path : string) : io unit :=
  fun w => match files w !! path with
           | None => (w, Raise FileNotFoundError)
           | Some _ => ({| files := delete path (files w); sim_log := sim_log w |}, Ok tt)
           end.

(** [save_content_to_csv(fname, fcontent)] *)
Definition save_content_to_csv (fname : string) (fcontent : list row) : io unit :=
  fun w => ({| files := <[fname := fcontent]> (files w); sim_log := sim_log w |}, Ok tt).

(** [HELP3O.run_simulation], applied to the tuple [outparam] *)
Definition call_simulator `{Simulator} (outparam : list string) : io unit :=
  fun w =>
    let log := sim_log w ++ [outparam] in
    match run_simulation outparam (files w) with
    | Ok fs => ({| files := fs; sim_log := log |}, Ok tt)
    | Raise e => ({| files := files w; sim_log := log |}, Raise e)
    end.

(** ** processing.py *)

Module Processing.

Section Parsers.
Context {float : Type} {B : Builtins float}.

Definition int_of (s : string) : result Z := of_option ValueError (py_int s).
Definition float_of (s : string) : result float := of_option ValueError (py_float s).

(** *** read_monthly_help_output *)

(** The locals a year block assigns.  [precip], [runoff], [evapo] and
    [rechg] are unbound until first assigned ([None] here) and keep their
    value from one block to the next; [subrunoff] and [percol] are reset
    to Python's [None] when a block starts. *)
Record locals : Type := {
  precip : option (list string);
  runoff : option (list string);
  evapo : option (list string);
  subrunoff : option (list string);
  percol : option (list string);
  rechg : option (list string)
}.

(** The lists the parser appends to. *)
Record mstate : Type := {
  arr_years : list Z;
  vstack_precip : list (list float);
  vstack_runoff : list (list float);
  vstack_evapo : list (list float);
  vstack_subrunoff : list (list float);
  vstack_percol : list (list float);
  vstack_rechg : list (list float)
}.

(** The table [read_monthly_help_output] returns: [years] and six
    two-dimensional arrays, each a list of rows. *)
Record monthly : Type := {
  m_years : list Z;
  m_rain : list (list float);
  m_runoff : list (list float);
  m_evapo : list (list float);
  m_sub_runoff : list (list float);
  m_percolation : list (list float);
  m_recharge : list (list float)
}.

(** [line.split()[-6:] + nline.split()[-6:]] *)
Definition pair_tokens (line nline : string) : list string :=
  Py.last_n 6 (Py.split line) ++ Py.last_n 6 (Py.split nline).

(** The [if]/[elif] chain on the first line of a pair. *)
Definition update_locals (loc : locals) (line nline : string) : locals :=
  let v := pair_tokens line nline in
  if Py.contains "PRECIPITATION" line then
    {| precip := Some v; runoff := runoff loc; evapo := evapo loc;
       subrunoff := subrunoff loc; percol := percol loc; rechg := rechg loc |}
  else if Py.contains "RUNOFF" line then
    {| precip := precip loc; runoff := Some v; evapo := evapo loc;
       subrunoff := subrunoff loc; percol := percol loc; rechg := rechg loc |}
  else if Py.contains "EVAPOTRANSPIRATION" line then
    {| precip := precip loc; runoff := runoff loc; evapo := Some v;
       subrunoff := subrunoff loc; percol := percol loc; rechg := rechg loc |}
  else if Py.contains "LATERAL DRAINAGE" line && is_None (subrunoff loc) then
    {| precip := precip loc; runoff := runoff loc; evapo := evapo loc;
       subrunoff := Some v; percol := percol loc; rechg := rechg loc |}
  else if Py.contains "PERCOLATION" line then
    {| precip := precip loc; runoff := runoff loc; evapo := evapo loc;
       subrunoff := subrunoff loc;
       percol := match percol loc with None => Some v | Some p => Some p end;
       rechg := Some v |}
  else loc.

(** [np.array(x).astype('float32')] for a local that must be bound. *)
Definition astype_f32 (x : option (list string)) : result (list float) :=
  match x with
  | None => Raise UnboundLocalError
  | Some toks => mapM (fun s => of_option ValueError (str_f32 s)) toks
  end.

(** The same for [percol], which may be Python's [None]: numpy casts it
    to a zero-dimensional [nan], which [np.vstack] reads as a 1 x 1 row. *)
Definition astype_f32_percol (x : option (list string)) : result (list float) :=
  match x with
  | None => Ok [fnan]
  | Some toks => mapM (fun s => of_option ValueError (str_f32 s)) toks
  end.

(** [np.zeros(12).astype('float32')] *)
Definition zeros12 : list float := repeat fzero 12.

(** The appends that follow the inner loop. *)
Definition close_block (st : mstate) (loc : locals) : result mstate :=
  do p <- astype_f32 (precip loc);
  do r <- astype_f32 (runoff loc);
  do e <- astype_f32 (evapo loc);
  do g <- astype_f32 (rechg loc);
  do c <- astype_f32_percol (percol loc);
  do s <- match subrunoff loc with
          | None => Ok zeros12
          | Some toks => astype_f32 (Some toks)
          end;
  Ok {| arr_years := arr_years st;
        vstack_precip := vstack_precip st ++ [p];
        vstack_runoff := vstack_runoff st ++ [r];
        vstack_evapo := vstack_evapo st ++ [e];
        vstack_subrunoff := vstack_subrunoff st ++ [s];
        vstack_percol := vstack_percol st ++ [c];
        vstack_rechg := vstack_rechg st ++ [g] |}.

(** Entering a block: [arr_years.append(year)], [subrunoff = None],
    [percol = None]. *)
Definition open_block_state (st : mstate) (year : Z) : mstate :=
  {| arr_years := arr_years st ++ [year];
     vstack_precip := vstack_precip st;
     vstack_runoff := vstack_runoff st;
     vstack_evapo := vstack_evapo st;
     vstack_subrunoff := vstack_subrunoff st;
     vstack_percol := vstack_percol st;
     vstack_rechg := vstack_rechg st |}.

Definition open_block_locals (loc : locals) : locals :=
  {| precip := precip loc; runoff := runoff loc; evapo := evapo loc;
     subrunoff := None; percol := None; rechg := rechg loc |}.

(** The two nested [while True] loops.  The argument [rows] is
    [csvread[i:]]: each iteration of either loop moves [i] one row on.
    [outer_loop] is the outer loop at its test [i+1 >= len(csvread)];
    [inner_loop] is the inner loop at its [i += 1], with [rows] starting
    at the row that increment reaches. *)
Fixpoint outer_loop (st : mstate) (loc : locals) (rows : list row)
  {struct rows} : result mstate :=
  match rows with
  | [] => Ok st
  | r :: rest =>
      match rest with
      | [] => Ok st
      | _ :: _ =>
          match r with
          | [] => outer_loop st loc rest
          | line :: _ =>
              if Py.contains "MONTHLY TOTALS" line then
                do tok <- Py.last_item (Py.split line);
                do year <- int_of tok;
                inner_loop (open_block_state st year) (open_block_locals loc) rest
              else if Py.contains "FINAL WATER STORAGE" line then Ok st
              else outer_loop st loc rest
          end
      end
  end
with inner_loop (st : mstate) (loc : locals) (rows : list row)
  {struct rows} : result mstate :=
  match rows with
  | [] => Raise IndexError
  | r :: rest =>
      match r with
      | [] => inner_loop st loc rest
      | line :: _ =>
          if Py.contains "**********" line then
            do st' <- close_block st loc;
            outer_loop st' loc rest
          else
            match rest with
            | [] => Raise IndexError
            | [] :: _ => inner_loop st loc rest
            | (nline :: _) :: _ => inner_loop st (update_locals loc line nline) rest
            end
      end
  end.

(** [np.vstack]: at least one row, all of one length. *)
Definition np_vstack (rows : list (list float)) : result (list (list float)) :=
  match rows with
  | [] => Raise ValueError
  | r :: rs =>
      if forallb (fun x => Nat.eqb (length x) (length r)) rs then Ok rows
      else Raise ValueError
  end.

Definition init_mstate : mstate :=
  {| arr_years := []; vstack_precip := []; vstack_runoff := [];
     vstack_evapo := []; vstack_subrunoff := []; vstack_percol := [];
     vstack_rechg := [] |}.

Definition init_locals : locals :=
  {| precip := None; runoff := None; evapo := None;
     subrunoff := None; percol := None; rechg := None |}.

Definition monthly_table (st : mstate) : result monthly :=
  do rain <- np_vstack (vstack_precip st);
  do ru <- np_vstack (vstack_runoff st);
  do ev <- np_vstack (vstack_evapo st);
  do sub <- np_vstack (vstack_subrunoff st);
  do per <- np_vstack (vstack_percol st);
  do rec <- np_vstack (vstack_rechg st);
  Ok {| m_years := map Py.uint16 (arr_years st);
        m_rain := rain; m_runoff := ru; m_evapo := ev;
        m_sub_runoff := sub; m_percolation := per; m_recharge := rec |}.

Definition read_monthly_help_output (csvread : list row) : result monthly :=
  do st <- outer_loop init_mstate init_locals csvread;
  monthly_table st.

(** *** read_daily_help_output *)

(** The locals and the lists of the daily parser. *)
Record dstate : Type := {
  nlay : option Z;
  nsub : option Z;
  year : option Z;
  days_in_year : option Z;
  arr_dyears : list Z;
  arr_days : list Z;
  arr_rain : list float;
  arr_ru : list float;
  arr_et : list float;
  arr_ezone : list float;
  arr_headfirst : list float;
  arr_drainfirst : list float;
  arr_leakfirst : list float;
  arr_leaklast : list float
}.

(** The table [read_daily_help_output] returns. *)
Record daily : Type := {
  d_years : list Z;
  d_days : list Z;
  d_rain : list float;
  d_runoff : list float;
  d_et : list float;
  d_ezone : list float;
  d_head_first : list float;
  d_drain_first : list float;
  d_leak_first : list float;
  d_leak_last : list float
}.

(** The values of one data row. *)
Record day_row : Type := {
  r_day : Z;
  r_rain : float;
  r_ru : float;
  r_et : float;
  r_ezone : float;
  r_headfirst : float;
  r_drainfirst : float;
  r_leakfirst : float;
  r_leaklast : float
}.

(** The body of the [try]: [None] when a conversion raises
    [ValueError], which the [except] clause swallows. *)
Definition parse_day_row (line : string) : option day_row :=
  day ← py_int (Py.slice 2 5 line);
  rain ← py_float (Py.slice 13 19 line);
  ru ← py_float (Py.slice 19 26 line);
  et ← py_float (Py.slice 26 33 line);
  ezone ← py_float (Py.slice 33 41 line);
  headfirst ← py_float (Py.slice 41 51 line);
  drainfirst ← py_float (Py.slice 51 61 line);
  leakfirst ← py_float (Py.slice 61 71 line);
  leaklast ← py_float (Py.slice_last 10 line);
  Some {| r_day := day; r_rain := rain; r_ru := ru; r_et := et;
          r_ezone := ezone; r_headfirst := headfirst;
          r_drainfirst := drainfirst; r_leakfirst := leakfirst;
          r_leaklast := leaklast |}.

(** [nlay = int(line.split()[-1])] and its [elif]. *)
Definition read_counts (st : dstate) (line : string) : result dstate :=
  if Py.contains "TOTAL NUMBER OF LAYERS" line then
    do tok <- Py.last_item (Py.split line);
    do n <- int_of tok;
    Ok {| nlay := Some n; nsub := nsub st; year := year st;
          days_in_year := days_in_year st;
          arr_dyears := arr_dyears st; arr_days := arr_days st;
          arr_rain := arr_rain st; arr_ru := arr_ru st; arr_et := arr_et st;
          arr_ezone := arr_ezone st; arr_headfirst := arr_headfirst st;
          arr_drainfirst := arr_drainfirst st;
          arr_leakfirst := arr_leakfirst st; arr_leaklast := arr_leaklast st |}
  else if Py.contains "TOTAL NUMBER OF SUBPROFILES" line then
    do tok <- Py.last_item (Py.split line);
    do n <- int_of tok;
    Ok {| nlay := nlay st; nsub := Some n; year := year st;
          days_in_year := days_in_year st;
          arr_dyears := arr_dyears st; arr_days := arr_days st;
          arr_rain := arr_rain st; arr_ru := arr_ru st; arr_et := arr_et st;
          arr_ezone := arr_ezone st; arr_headfirst := arr_headfirst st;
          arr_drainfirst := arr_drainfirst st;
          arr_leakfirst := arr_leakfirst st; arr_leaklast := arr_leaklast st |}
  else Ok st.

(** [year = int(line.split()[-1])] and [days_in_year]. *)
Definition set_year (st : dstate) (y : Z) : dstate :=
  {| nlay := nlay st; nsub := nsub st; year := Some y;
     days_in_year := Some (Py.days_in_year y);
     arr_dyears := arr_dyears st; arr_days := arr_days st;
     arr_rain := arr_rain st; arr_ru := arr_ru st; arr_et := arr_et st;
     arr_ezone := arr_ezone st; arr_headfirst := arr_headfirst st;
     arr_drainfirst := arr_drainfirst st;
     arr_leakfirst := arr_leakfirst st; arr_leaklast := arr_leaklast st |}.

(** The [else] of the [try]: the ten appends, then [year = None] when
    the day closes the year ([yr'] is the year context afterwards). *)
Definition append_row (st : dstate) (y : Z) (d : day_row) (yr' : option Z)
  : dstate :=
  {| nlay := nlay st; nsub := nsub st; year := yr';
     days_in_year := days_in_year st;
     arr_dyears := arr_dyears st ++ [y];
     arr_days := arr_days st ++ [r_day d];
     arr_rain := arr_rain st ++ [r_rain d];
     arr_ru := arr_ru st ++ [r_ru d];
     arr_et := arr_et st ++ [r_et d];
     arr_ezone := arr_ezone st ++ [r_ezone d];
     arr_headfirst := arr_headfirst st ++ [r_headfirst d];
     arr_drainfirst := arr_drainfirst st ++ [r_drainfirst d];
     arr_leakfirst := arr_leakfirst st ++ [r_leakfirst d];
     arr_leaklast := arr_leaklast st ++ [r_leaklast d] |}.

(** The body of the [for] loop on one row. *)
Definition daily_step (st : dstate) (r : row) : result dstate :=
  match r with
  | [] => Ok st
  | line :: _ =>
      do st1 <- read_counts st line;
      if Py.contains "DAILY OUTPUT FOR YEAR" line then
        do tok <- Py.last_item (Py.split line);
        do y <- int_of tok;
        Ok (set_year st1 y)
      else
        match year st1 with
        | None => Ok st1
        | Some y =>
            match parse_day_row line with
            | None => Ok st1
            | Some d =>
                do diy <- of_option UnboundLocalError (days_in_year st1);
                Ok (append_row st1 y d
                      (if r_day d =? diy then None else Some y))
            end
        end
  end.

Fixpoint daily_loop (st : dstate) (rows : list row) : result dstate :=
  match rows with
  | [] => Ok st
  | r :: rest => do st' <- daily_step st r; daily_loop st' rest
  end.

Definition init_dstate : dstate :=
  {| nlay := None; nsub := None; year := None; days_in_year := None;
     arr_dyears := []; arr_days := []; arr_rain := []; arr_ru := [];
     arr_et := []; arr_ezone := []; arr_headfirst := [];
     arr_drainfirst := []; arr_leakfirst := []; arr_leaklast := [] |}.

Definition daily_table (st : dstate) : daily :=
  {| d_years := map Py.uint16 (arr_dyears st);
     d_days := map Py.uint16 (arr_days st);
     d_rain := map f32 (arr_rain st);
     d_runoff := map f32 (arr_ru st);
     d_et := map f32 (arr_et st);
     d_ezone := map f32 (arr_ezone st);
     d_head_first := map f32 (arr_headfirst st);
     d_drain_first := map f32 (arr_drainfirst st);
     d_leak_first := map f32 (arr_leakfirst st);
     d_leak_last := map f32 (arr_leaklast st) |}.

Definition read_daily_help_output (csvread : list row) : result daily :=
  do st <- daily_loop init_dstate csvread;
  Ok (daily_table st).

End Parsers.

Arguments mstate : clear implicits.
Arguments monthly : clear implicits.
Arguments dstate : clear implicits.
Arguments daily : clear implicits.
Arguments day_row : clear implicits.

(** *** run_help_singlecell and run_help_allcells *)

(** A cell: its name and the tuple of simulator arguments, whose
    element 5 is the path of the output file. *)
Abbreviation item := (string * list string)%type.

Section Batch.
Context {float : Type} {B : Builtins float} {S : Simulator}.

Definition run_help_singlecell (it : item) : io (string * monthly float) :=
  let '(cellname, outparam) := it in
  run out <- io_lift (of_option IndexError (outparam !! 5%nat));
  run there <- path_exists out;
  run _ <- (if there then io_ret tt else call_simulator outparam);
  run csvread <- read_rows out;
  run results <- io_lift (read_monthly_help_output csvread);
  run _ <- os_remove out;
  io_ret (cellname, results).

(** The pool.  Each worker process runs [run_help_singlecell] on one
    item; the file system is what the processes share, so a task is cut
    at each of its accesses to it.  [pc] is where a task stands. *)
Inductive pc : Type :=
  | PStart                      (* before [osp.exists] *)
  | PSim                        (* before [run_simulation] *)
  | PRead                       (* before [read_monthly_help_output] *)
  | PRemove (r : monthly float)       (* before [os.remove] *)
  | PReturn (r : monthly float)       (* returned, not yet taken by the parent *)
  | PDone                       (* [output[cell[0]] = cell[1]] done *)
  | PRaised (e : exn).

(** One access of a worker: [None] when the worker has nothing left to
    do. *)
Definition task_step (outparam : list string) (p : pc) (w : world)
  : option (pc * world) :=
  match p with
  | PStart =>
      match outparam !! 5%nat with
      | None => Some (PRaised IndexError, w)
      | Some out =>
          if bool_decide (is_Some (files w !! out)) then Some (PRead, w)
          else Some (PSim, w)
      end
  | PSim =>
      match call_simulator outparam w with
      | (w', Ok _) => Some (PRead, w')
      | (w', Raise e) => Some (PRaised e, w')
      end
  | PRead =>
      match outparam !! 5%nat with
      | None => Some (PRaised IndexError, w)
      | Some out =>
          match files w !! out with
          | None => Some (PRaised FileNotFoundError, w)
          | Some csvread =>
              match read_monthly_help_output csvread with
              | Ok r => Some (PRemove r, w)
              | Raise e => Some (PRaised e, w)
              end
          end
      end
  | PRemove r =>
      match outparam !! 5%nat with
      | None => Some (PRaised IndexError, w)
      | Some out =>
          match os_remove out w with
          | (w', Ok _) => Some (PReturn r, w')
          | (w', Raise e) => Some (PRaised e, w')
          end
      end
  | PReturn _ | PDone | PRaised _ => None
  end.

Record task : Type := {
  t_cell : string;
  t_param : list string;
  t_pc : pc
}.

Record pool : Type := {
  p_world : world;
  p_tasks : list task;
  p_output : gmap string (monthly float)
}.

(** The pool moves when a worker makes one access, or when the parent
    takes a returned result ([imap_unordered]: in any order). *)
Inductive pool_step : pool -> pool -> Prop :=
  | step_worker i t p' w' P :
      p_tasks P !! i = Some t ->
      task_step (t_param t) (t_pc t) (p_world P) = Some (p', w') ->
      pool_step P {| p_world := w';
                     p_tasks := <[i := {| t_cell := t_cell t; t_param := t_param t; t_pc := p' |}]> (p_tasks P);
                     p_output := p_output P |}
  | step_collect i t r P :
      p_tasks P !! i = Some t ->
      t_pc t = PReturn r ->
      pool_step P {| p_world := p_world P;
                     p_tasks := <[i := {| t_cell := t_cell t; t_param := t_param t; t_pc := PDone |}]> (p_tasks P);
                     p_output := <[t_cell t := r]> (p_output P) |}.

Inductive pool_steps : pool -> pool -> Prop :=
  | steps_refl P : pool_steps P P
  | steps_step P Q R : pool_steps P Q -> pool_step Q R -> pool_steps P R.

(** [run_help_allcells(cellparams)]: one task per item of the dict. *)
Definition initial_pool (cellparams : gmap string (list string)) (w : world) : pool :=
  {| p_world := w;
     p_tasks := (fun it : item => {| t_cell := it.1; t_param := it.2; t_pc := PStart |})
                <$> map_to_list cellparams;
     p_output := ∅ |}.

(** The batch has returned [output] when the parent has taken the
    result of every task. *)
Definition all_done (P : pool) : Prop :=
  Forall (fun t => t_pc t = PDone) (p_tasks P).

(** No task can move and no result waits for the parent. *)
Definition finished (P : pool) : Prop :=
  Forall (fun t => t_pc t = PDone \/ exists e, t_pc t = PRaised e) (p_tasks P).

End Batch.

Arguments pc : clear implicits.
Arguments task : clear implicits.
Arguments pool : clear implicits.

End Processing.

(** ** weather_reader.py *)

Module Weather.

Section Cweeds.
Context {float : Type} {B : Builtins float}.

(** *** numpy on one-dimensional arrays *)

(** [np.unique]: the sorted distinct values. *)
Fixpoint insert_unique (x : Z) (l : list Z) : list Z :=
  match l with
  | [] => [x]
  | y :: l' =>
      if x <? y then x :: l
      else if x =? y then l
      else y :: insert_unique x l'
  end.

Definition np_unique (l : list Z) : list Z := fold_right insert_unique [] l.

(** [np.sort] *)
Fixpoint insert_sorted (x : Z) (l : list Z) : list Z :=
  match l with
  | [] => [x]
  | y :: l' => if x <=? y then x :: l else y :: insert_sorted x l'
  end.

Definition np_sort (l : list Z) : list Z := fold_right insert_sorted [] l.

(** [np.digitize(x, bins, right=True)] on increasing [bins]: the index
    [i] with [bins[i-1] < x <= bins[i]]. *)
Fixpoint digitize_right (x : Z) (bins : list Z) : nat :=
  match bins with
  | [] => 0%nat
  | b :: bins' => if b <? x then S (digitize_right x bins') else 0%nat
  end.

(** [arr[i] = v] *)
Definition set_item {A} (arr : list A) (i : nat) (v : A) : result (list A) :=
  if (i <? length arr)%nat then Ok (<[i := v]> arr) else Raise IndexError.

(** [arr[indexes] = values] with [values] as long as [indexes]: the
    assignments are made in order, so the last one to an index stays. *)
Fixpoint scatter_loop {A} (arr : list A) (indexes : list nat) (values : list A)
  : result (list A) :=
  match indexes, values with
  | i :: indexes', v :: values' =>
      do arr' <- set_item arr i v;
      scatter_loop arr' indexes' values'
  | _, _ => Ok arr
  end.

(** [arr[indexes] = values]: a one-element [values] is broadcast, any
    other length than that of [indexes] is refused. *)
Definition scatter {A} (arr : list A) (indexes : list nat) (values : list A)
  : result (list A) :=
  if (length values =? length indexes)%nat then scatter_loop arr indexes values
  else match values with
       | [v] => scatter_loop arr indexes (repeat v (length indexes))
       | _ => Raise ValueError
       end.

(** [a.reshape((n, ncol))], as the list of its [n] rows. *)
Fixpoint reshape {A} (n ncol : nat) (a : list A) : list (list A) :=
  match n with
  | O => []
  | S n' => take ncol a :: reshape n' ncol (drop ncol a)
  end.

(** [m[:, 0]] *)
Definition column0 {A} (m : list (list A)) : list A :=
  flat_map (take 1) m.

(** *** read_cweeds_file *)

(** The header of a WY3 file. *)
Record header : Type := {
  horz_version : string;
  location : string;
  province : string;
  country : string;
  station_id : string;
  latitude : float;
  longitude : float;
  time_zone : float;
  elevation : float
}.

(** The dict [read_cweeds_file] returns.  [hdr] is [None] when the dict
    has no header keys. *)
Record dataset : Type := {
  Years : list Z;
  Months : list Z;
  Days : list Z;
  Hours : list Z;
  Time : list Z;
  Irradiance : list float;
  hdr : option header;
  time_format : string;
  cweeds_format : string
}.

(** [header_list[k]] *)
Definition field (header_list : row) (k : nat) : result string :=
  of_option IndexError (header_list !! k).

Definition float_of (s : string) : result float :=
  of_option ValueError (py_float s).
Definition int_of (s : string) : result Z :=
  of_option ValueError (py_int s).

Definition read_header (header_list : row) : result header :=
  do f0 <- field header_list 0;
  do f1 <- field header_list 1;
  do f2 <- field header_list 2;
  do f3 <- field header_list 3;
  do f4 <- field header_list 4;
  do s5 <- field header_list 5; do f5 <- float_of s5;
  do s6 <- field header_list 6; do f6 <- float_of s6;
  do s7 <- field header_list 7; do f7 <- float_of s7;
  do s8 <- field header_list 8; do f8 <- float_of s8;
  Ok {| horz_version := f0; location := f1; province := f2; country := f3;
        station_id := f4; latitude := f5; longitude := f6; time_zone := f7;
        elevation := f8 |}.

(** The values of one hourly row. *)
Record hour_row : Type := {
  h_year : Z;
  h_month : Z;
  h_day : Z;
  h_hour : Z;
  h_irradiance : float;
  h_time : Z
}.

(** The body of the loop over the data rows. *)
Definition read_hour (char_offset : nat) (line : row) : result hour_row :=
  do l0 <- of_option IndexError (line !! 0%nat);
  let s := Py.slice_from char_offset l0 in
  do year <- int_of (Py.slice 6 10 s);
  do month <- int_of (Py.slice 10 12 s);
  do day <- int_of (Py.slice 12 14 s);
  do hour1 <- int_of (Py.slice 14 16 s);
  let hour := hour1 - 1 in
  do irr <- float_of (Py.slice 20 24 s);
  do t <- of_option ValueError (xldate year month day hour);
  Ok {| h_year := year; h_month := month; h_day := day; h_hour := hour;
        h_irradiance := fdiv1000 irr; h_time := t |}.

(** The conversion of the hourly arrays to daily ones. *)
Definition to_daily (hours : list hour_row) (h : option header) (ext : string)
  : result dataset :=
  let irr := map h_irradiance hours in
  if (length irr mod 24 =? 0)%nat then
    let n := (length irr / 24)%nat in
    let daily_irr := map np_sum (reshape n 24 irr) in
    Ok {| Years := column0 (reshape n 24 (map h_year hours));
          Months := column0 (reshape n 24 (map h_month hours));
          Days := column0 (reshape n 24 (map h_day hours));
          Hours := repeat 0 (length daily_irr);
          Time := column0 (reshape n 24 (map h_time hours));
          Irradiance := daily_irr;
          hdr := h;
          time_format := "daily";
          cweeds_format := ext |}
  else Raise AssertionError.

(** [read_cweeds_file(filename, format_to_daily)], on the rows [reader]
    of the file. *)
Definition read_cweeds_file (filename : string) (reader : list row)
  (format_to_daily : bool) : result dataset :=
  let ext := Py.slice_from 1 (Py.splitext_ext filename) in
  if negb (String.eqb ext "WY2" || String.eqb ext "WY3") then Raise ValueError
  else
    do hr <- (if String.eqb ext "WY3" then
                match reader with
                | [] => Raise IndexError
                | header_list :: reader' =>
                    do h <- read_header header_list; Ok (Some h, reader')
                end
              else Ok (None, reader));
    let char_offset := if String.eqb ext "WY2" then 0%nat else 2%nat in
    do hours <- mapM (read_hour char_offset) hr.2;
    if format_to_daily then to_daily hours hr.1 ext
    else Ok {| Years := map h_year hours;
               Months := map h_month hours;
               Days := map h_day hours;
               Hours := map h_hour hours;
               Time := map h_time hours;
               Irradiance := map h_irradiance hours;
               hdr := hr.1;
               time_format := "hourly";
               cweeds_format := ext |}.

(** *** join_daily_cweeds_wy2_and_wy3 *)

(** [np.empty(n)]: an array whose contents are whatever the memory
    held, here [junk], which the merge takes for each of its arrays. *)
Definition np_empty {A} (junk : nat -> A) (n : nat) : list A :=
  map junk (seq 0 n).

(** The five arrays the merge fills. *)
Record columns : Type := {
  c_years : list Z;
  c_months : list Z;
  c_days : list Z;
  c_hours : list Z;
  c_irradiance : list float
}.

(** One turn of [for dataset in [wy2_df, wy3_df]]. *)
Definition scatter_dataset (time_wy23 : list Z) (cols : columns) (ds : dataset)
  : result columns :=
  let indexes := map (fun t => digitize_right t time_wy23) (Time ds) in
  do ys <- scatter (c_years cols) indexes (Years ds);
  do ms <- scatter (c_months cols) indexes (Months ds);
  do dd <- scatter (c_days cols) indexes (Days ds);
  do hs <- scatter (c_hours cols) indexes (Hours ds);
  do ir <- scatter (c_irradiance cols) indexes (Irradiance ds);
  Ok {| c_years := ys; c_months := ms; c_days := dd; c_hours := hs;
        c_irradiance := ir |}.

Definition join_daily_cweeds_wy2_and_wy3
  (junk : string -> nat -> Z) (fjunk : nat -> float) (wy2_df wy3_df : dataset)
  : result dataset :=
  if negb (String.eqb (cweeds_format wy2_df) "WY2") then Raise AssertionError
  else if negb (String.eqb (cweeds_format wy3_df) "WY3") then Raise AssertionError
  else if negb (String.eqb (time_format wy2_df) (time_format wy3_df))
  then Raise AssertionError
  else
    let time_wy23 := np_sort (np_unique (Time wy2_df ++ Time wy3_df)) in
    do h <- of_option KeyError (hdr wy3_df);
    let n := length time_wy23 in
    let cols0 := {| c_years := np_empty (junk "Years") n;
                    c_months := np_empty (junk "Months") n;
                    c_days := np_empty (junk "Days") n;
                    c_hours := np_empty (junk "Hours") n;
                    c_irradiance := np_empty fjunk n |} in
    do cols1 <- scatter_dataset time_wy23 cols0 wy2_df;
    do cols2 <- scatter_dataset time_wy23 cols1 wy3_df;
    Ok {| Years := c_years cols2; Months := c_months cols2;
          Days := c_days cols2; Hours := c_hours cols2;
          Time := time_wy23; Irradiance := c_irradiance cols2;
          hdr := Some h;
          time_format := time_format wy3_df;
          cweeds_format := "WY2+WY3" |}.

End Cweeds.

Arguments header : clear implicits.
Arguments dataset : clear implicits.
Arguments hour_row : clear implicits.
Arguments columns : clear implicits.

(** *** Export to the HELP format *)

Section Help.
Context {float : Type} {B : Builtins float}.

(** The two format strings of a file kind: ['{0:>yw}'] for the year and
    ['{0:>dw.dpf}'] for a value. *)
Record formats : Type := {
  year_width : nat;
  data_width : nat;
  data_prec : nat
}.

(** [np.where(years == year)[0]] *)
Fixpoint where_eq (year : Z) (years : list Z) (i : nat) : list nat :=
  match years with
  | [] => []
  | y :: years' =>
      if y =? year then i :: where_eq year years' (S i)
      else where_eq year years' (S i)
  end.

(** [data[indexes]] *)
Definition take_indexes (data : list float) (indexes : list nat)
  : result (list float) :=
  mapM (fun i => of_option IndexError (data !! i)) indexes.

(** [a.reshape(37, 10)] *)
Definition reshape_37_10 (a : list float) : result (list (list float)) :=
  if (length a =? 370)%nat then Ok (reshape 37 10 a) else Raise ValueError.

(** One line of the data block: the year, then the values of the row
    (ten, as the grid is 37 x 10). *)
Definition format_line (fmt : formats) (year : Z) (line_data : list float)
  : row :=
  [fold_left (fun acc x => (acc +:+ format_f (data_width fmt) (data_prec fmt) x))
             line_data
             (Py.format_int (year_width fmt) year)].

(** The body of [for year in np.unique(years)]. *)
Definition format_year (fmt : formats) (years : list Z) (data : list float)
  (year : Z) : result (list row) :=
  let indexes := where_eq year years 0 in
  if negb (Z.of_nat (length indexes) =? Py.days_in_year year)
  then Raise AssertionError
  else
    do year_data <- take_indexes data indexes;
    let padded := year_data ++ repeat fzero (10 - length year_data mod 10) in
    do grid <- reshape_37_10 padded;
    Ok (map (format_line fmt year) grid).

(** The loop over the years, appending to [fdata]. *)
Fixpoint format_years (fmt : formats) (years : list Z) (data : list float)
  (todo : list Z) (fdata : list row) : result (list row) :=
  match todo with
  | [] => Ok fdata
  | year :: todo' =>
      do lines <- format_year fmt years data year;
      format_years fmt years data todo' (fdata ++ lines)
  end.

Definition format_timeseries_for_HELP (years : list Z) (data : list float)
  (fmt : formats) : result (list row) :=
  format_years fmt years data (np_unique years) [].

(** [format_weather_header_for_HELP(itype, iunits, city, lat)] *)
Definition format_weather_header_for_HELP (itype iunits : Z) (city : string)
  (lat : option float) : list row :=
  [[Py.format_int 2 itype];
   [Py.format_int 2 iunits];
   [Py.ljust 40 (Py.slice_to 40 city)]]
  ++ [match lat with
      | Some l => [format_f 6 2 l]
      | None => []
      end].

Definition D4_formats : formats :=
  {| year_width := 10; data_width := 5; data_prec := 1 |}.
Definition D7_formats : formats :=
  {| year_width := 5; data_width := 6; data_prec := 1 |}.
Definition D13_formats : formats :=
  {| year_width := 5; data_width := 6; data_prec := 2 |}.

(** [filename if ext == e else filename + e] *)
Definition with_ext (filename e : string) : string :=
  if String.eqb (Py.splitext_ext filename) e then filename
  else (filename +:+ e).

Definition save_precip_to_HELP (filename : string) (years : list Z)
  (precip : list float) (city : string) : io unit :=
  let filename := with_ext filename ".D4" in
  let fheader := format_weather_header_for_HELP 3 2 city None in
  run fdata <- io_lift (format_timeseries_for_HELP years precip D4_formats);
  save_content_to_csv filename (fheader ++ fdata).

Definition save_airtemp_to_HELP (filename : string) (years : list Z)
  (precip : list float) (city : string) : io unit :=
  let filename := with_ext filename ".D7" in
  let fheader := format_weather_header_for_HELP 3 2 city None in
  run fdata <- io_lift (format_timeseries_for_HELP years precip D7_formats);
  save_content_to_csv filename (fheader ++ fdata).

Definition save_solrad_to_HELP (filename : string) (years : list Z)
  (precip : list float) (city : string) (lat : float) : io unit :=
  let filename := with_ext filename ".D13" in
  let fheader := format_weather_header_for_HELP 3 2 city (Some lat) in
  run fdata <- io_lift (format_timeseries_for_HELP years precip D13_formats);
  save_content_to_csv filename (fheader ++ fdata).

(** The choice of the formats by the extension, with the check of
    [lat]. *)
Definition formats_of_ext (ext : string) (lat : option float) : result formats :=
  if String.eqb ext "D4" then Ok D4_formats
  else if String.eqb ext "D7" then Ok D7_formats
  else if String.eqb ext "D13" then
    match lat with
    | None => Raise ValueError
    | Some _ => Ok D13_formats
    end
  else Raise ValueError.

(** The header lines [save_data_to_HELP_format] builds itself. *)
Definition help_header (ext city : string) (lat : option float) : list row :=
  [[Py.format_int 2 3];
   [Py.format_int 2 2];
   [Py.ljust 40 (Py.slice_to 40 city)]]
  ++ [if String.eqb ext "D13" then
        match lat with
        | Some l => [format_f 6 2 l]
        | None => []
        end
      else []].

Definition save_data_to_HELP_format (filename : string) (years : list Z)
  (data : list float) (city : string) (lat : option float) : io unit :=
  let ext := Py.slice_from 1 (Py.splitext_ext filename) in
  run fmt <- io_lift (formats_of_ext ext lat);
  let fcontent := help_header ext city lat in
  run fcontent' <- io_lift (format_years fmt years data (np_unique years) fcontent);
  save_content_to_csv filename fcontent'.

(** Modelled from the spec: the reading of the data block of a HELP
    input file back into year/value pairs, which this repository has no
    code for (the simulator reads these files).  Each line holds the
    year field, of the width of the year format, and ten value fields,
    of the width of the value format; a year takes 37 lines, and its
    values are the first 365, or 366 in a leap year, of their 370
    fields, the rest being the zeros that fill the last line. *)
Definition read_HELP_line (fmt : formats) (r : row) : result (Z * list float) :=
  match r with
  | [line] =>
      do year <- int_of (Py.slice 0 (year_width fmt) line);
      do values <- mapM (fun k =>
                     float_of (Py.slice (year_width fmt + k * data_width fmt)
                                        (year_width fmt + k * data_width fmt
                                         + data_width fmt) line))
                     (seq 0 10);
      Ok (year, values)
  | _ => Raise ValueError
  end.

Fixpoint read_HELP_years (fmt : formats) (n : nat) (rows : list row)
  : result (list (Z * list float)) :=
  match n with
  | O => Ok []
  | Datatypes.S n' =>
      do lines <- mapM (read_HELP_line fmt) (take 37 rows);
      do year <- of_option ValueError (head (map fst lines));
      let values := concat (map snd lines) in
      do rest <- read_HELP_years fmt n' (drop 37 rows);
      Ok ((year, take (Z.to_nat (Py.days_in_year year)) values) :: rest)
  end.

Definition read_HELP_data_block (fmt : formats) (rows : list row)
  : result (list (Z * list float)) :=
  read_HELP_years fmt (length rows / 37) rows.

End Help.

(** *** Monthly and yearly values from daily values *)

Section Downscaling.
Context {float : Type} {B : Builtins float}.

(** [np.mean] on a one-dimensional array, the comparison [x < y] of two
    floats, [np.isnan(x)] and [calendar.monthrange(year, month)[1]],
    which raises for the years and months [calendar] refuses: functions
    of numpy and of the standard library, which the definitions take as
    parameters, as they take the builtins. *)
Variable np_mean : list float -> float.
Variable flt : float -> float -> bool.
Variable isnan : float -> bool.
Variable monthrange : Z -> Z -> result Z.

(** [a == v] on an integer array. *)
Definition eq_mask (v : Z) (a : list Z) : list bool :=
  map (fun x => x =? v) a.

(** [a & b] on boolean arrays: element by element when the lengths are
    the same; an array of one element is broadcast; other lengths are
    refused. *)
Definition np_and (a b : list bool) : result (list bool) :=
  if (length a =? length b)%nat then Ok (zip_with andb a b)
  else match a, b with
       | [x], _ => Ok (map (andb x) b)
       | _, [y] => Ok (map (fun x => andb x y) a)
       | _, _ => Raise ValueError
       end.

(** [np.where(mask)[0]] *)
Fixpoint where_true (mask : list bool) (i : nat) : list nat :=
  match mask with
  | [] => []
  | b :: mask' =>
      if b then i :: where_true mask' (Datatypes.S i)
      else where_true mask' (Datatypes.S i)
  end.

(** The months of a year: [range(1, 13)]. *)
Definition months12 : list Z := map Z.of_nat (seq 1 12).

(** The body of the loop of [calc_monthly], for [yy_mly[i]] and
    [mm_mly[i]]. *)
Definition month_value (yy_dly mm_dly : list Z) (x_dly : list float)
  (func : list float -> float) (ym : Z * Z) : result float :=
  do mask <- np_and (eq_mask ym.1 yy_dly) (eq_mask ym.2 mm_dly);
  let indx := where_true mask 0 in
  do ndays <- monthrange ym.1 ym.2;
  if Z.of_nat (length indx) <? ndays then Ok fnan
  else do vals <- take_indexes x_dly indx; Ok (func vals).

(** [calc_monthly(yy_dly, mm_dly, x_dly, func)]: [np.repeat] gives each
    year twelve times, [np.tile] the twelve months once per year. *)
Definition calc_monthly (yy_dly mm_dly : list Z) (x_dly : list float)
  (func : list float -> float) : result (list Z * list Z * list float) :=
  let yy := np_unique yy_dly in
  let mm := months12 in
  let yy_mly := flat_map (fun y => repeat y (length mm)) yy in
  let mm_mly := concat (repeat mm (length yy)) in
  do x_mly <- mapM (month_value yy_dly mm_dly x_dly func) (zip yy_mly mm_mly);
  Ok (yy_mly, mm_mly, x_mly).

Definition calc_monthly_sum (yy_dly mm_dly : list Z) (x_dly : list float)
  : result (list Z * list Z * list float) :=
  calc_monthly yy_dly mm_dly x_dly np_sum.

Definition calc_monthly_mean (yy_dly mm_dly : list Z) (x_dly : list float)
  : result (list Z * list Z * list float) :=
  calc_monthly yy_dly mm_dly x_dly np_mean.

(** [x[mask] = v] with a boolean mask, which must be as long as [x]. *)
Definition set_where (x : list float) (mask : list bool) (v : float)
  : result (list float) :=
  if (length mask =? length x)%nat
  then Ok (zip_with (fun (b : bool) a => if b then v else a) mask x)
  else Raise IndexError.

(** [np.min] and [np.max], which refuse an empty array. *)
Definition np_min (a : list Z) : result Z :=
  match a with
  | [] => Raise ValueError
  | x :: a' => Ok (fold_left Z.min a' x)
  end.

Definition np_max (a : list Z) : result Z :=
  match a with
  | [] => Raise ValueError
  | x :: a' => Ok (fold_left Z.max a' x)
  end.

(** The body of the loop of [calcul_monthly_normals], for the month
    [mm]. *)
Definition month_normal (months : list Z) (x_mly : list float) (mm : Z)
  : result float :=
  do mask <- np_and (eq_mask mm months) (map (fun v => negb (isnan v)) x_mly);
  let indx := where_true mask 0 in
  if (0 <? length indx)%nat
  then do vals <- take_indexes x_mly indx; Ok (np_mean vals)
  else Ok fnan.

(** [calcul_monthly_normals(years, months, x_mly, yearmin, yearmax)].
    The first test is Python's chained comparison: it holds when
    [len(years) != len(months)] and [len(months) != len(x_mly)]. *)
Definition calcul_monthly_normals (years months : list Z) (x_mly : list float)
  (yearmin yearmax : option Z) : result (list float) :=
  if negb (length years =? length months)%nat
     && negb (length months =? length x_mly)%nat
  then Raise ValueError
  else
    do lo <- np_min months;
    do outside <- (if lo <? 1 then Ok true
                   else do hi <- np_max months; Ok (12 <? hi));
    if outside then Raise ValueError
    else
      do x1 <- match yearmin with
               | None => Ok x_mly
               | Some y => set_where x_mly (map (fun v => v <? y) years) fnan
               end;
      do x2 <- match yearmax with
               | None => Ok x1
               | Some y => set_where x1 (map (fun v => y <? v) years) fnan
               end;
      mapM (month_normal months x2) months12.

(** [calc_yearly(yy_dly, x_dly, func)] *)
Definition calc_yearly (yy_dly : list Z) (x_dly : list float)
  (func : list float -> float) : result (list Z * list float) :=
  let yy_yrly := np_unique yy_dly in
  do x_yrly <- mapM (fun year =>
                       do vals <- take_indexes x_dly (where_eq year yy_dly 0);
                       Ok (func vals))
                    yy_yrly;
  Ok (yy_yrly, x_yrly).

Definition calc_yearly_sum (yy_dly : list Z) (x_dly : list float)
  : result (list Z * list float) :=
  calc_yearly yy_dly x_dly np_sum.

Definition calc_yearly_mean (yy_dly : list Z) (x_dly : list float)
  : result (list Z * list float) :=
  calc_yearly yy_dly x_dly np_mean.

(** [np.where(Tavg < Tcrit)[0]] *)
Fixpoint where_lt (a : list float) (c : float) (i : nat) : list nat :=
  match a with
  | [] => []
  | x :: a' =>
      if flt x c then i :: where_lt a' c (Datatypes.S i)
      else where_lt a' c (Datatypes.S i)
  end.

(** [calcul_rain_from_ptot(Tavg, Ptot, Tcrit)]: the copy of [Ptot] with
    zero at the positions where [Tavg < Tcrit].  ([Tcrit] is 0 when it
    is not given.) *)
Definition calcul_rain_from_ptot (Tavg Ptot : list float) (Tcrit : float)
  : result (list float) :=
  let indexes := where_lt Tavg Tcrit 0 in
  scatter_loop Ptot indexes (repeat fzero (length indexes)).

End Downscaling.

End Weather.

(** ** The builtins on decimal numerals

    An instance of [Builtins] that computes, for the examples.  A float
    is an exact fraction or [nan]; [int] and [float] read plain decimal
    numerals between blanks; a float is printed by rounding its exact
    value half to even, as Python prints one; sums are exact and the
    float32 cast keeps the value. *)

Module Concrete.

Inductive xfloat : Type :=
  | Fin (num : Z) (den : positive)
  | NaN.

Fixpoint lstrip (s : list ascii) : list ascii :=
  match s with
  | c :: s' => if Py.is_space c then lstrip s' else s
  | [] => []
  end.

(** [s.strip()] *)
Definition strip (s : list ascii) : list ascii := rev (lstrip (rev (lstrip s))).

Definition digit_of (c : ascii) : option Z :=
  let n := nat_of_ascii c in
  if (48 <=? n)%nat && (n <=? 57)%nat then Some (Z.of_nat (n - 48)) else None.

Fixpoint digits_val (acc : Z) (s : list ascii) : option Z :=
  match s with
  | [] => Some acc
  | c :: s' =>
      match digit_of c with
      | Some d => digits_val (10 * acc + d) s'
      | None => None
      end
  end.

Definition unsigned_int (s : list ascii) : option Z :=
  match s with
  | [] => None
  | _ => digits_val 0 s
  end.

(** The sign of a numeral and what follows it. *)
Definition split_sign (s : list ascii) : bool * list ascii :=
  match s with
  | c :: r =>
      if Ascii.eqb c "-" then (true, r)
      else if Ascii.eqb c "+" then (false, r)
      else (false, s)
  | [] => (false, [])
  end.

(** [int(s)] on a decimal numeral. *)
Definition ascii_int (s : string) : option Z :=
  let '(neg, r) := split_sign (strip (list_ascii_of_string s)) in
  match unsigned_int r with
  | Some n => Some (if neg then - n else n)
  | None => None
  end.

(** The digits before the first dot, and those after it if there is
    one. *)
Fixpoint split_dot (s : list ascii) : list ascii * option (list ascii) :=
  match s with
  | [] => ([], None)
  | c :: s' =>
      if Ascii.eqb c "." then ([], Some s')
      else let '(a, b) := split_dot s' in (c :: a, b)
  end.

Definition unsigned_dec (s : list ascii) : option (Z * positive) :=
  match split_dot s with
  | (ip, None) =>
      match unsigned_int ip with
      | Some n => Some (n, 1%positive)
      | None => None
      end
  | (ip, Some fp) =>
      match ip, fp with
      | [], [] => None
      | _, _ =>
          match digits_val 0 ip, digits_val 0 fp with
          | Some i, Some f =>
              let scale := Z.to_pos (10 ^ Z.of_nat (length fp)) in
              Some (i * Z.pos scale + f, scale)
          | _, _ => None
          end
      end
  end.

(** [float(s)] on a decimal numeral. *)
Definition ascii_float (s : string) : option xfloat :=
  let '(neg, r) := split_sign (strip (list_ascii_of_string s)) in
  match unsigned_dec r with
  | Some (n, d) => Some (Fin (if neg then - n else n) d)
  | None => None
  end.

(** Rounding [n / d] to an integer, half to even, for [0 <= n]. *)
Definition round_half_even (n : Z) (d : positive) : Z :=
  let k := n / Z.pos d in
  let r := n mod Z.pos d in
  if 2 * r <? Z.pos d then k
  else if Z.pos d <? 2 * r then k + 1
  else if Z.even k then k else k + 1.

(** The digits of [n], with zeros in front up to [p] digits. *)
Definition zero_fill (p : nat) (n : Z) : string :=
  let s := Py.str_of_int n in
  (string_of_list_ascii (repeat "0"%char (p - String.length s)) +:+ s).

(** ['{0:.pf}'.format(x)] *)
Definition format_fixed (p : nat) (x : xfloat) : string :=
  match x with
  | NaN => "nan"
  | Fin n d =>
      let scale := 10 ^ Z.of_nat p in
      let m := round_half_even (Z.abs n * scale) d in
      (if n <? 0 then "-" else "") +:+ Py.str_of_int (m / scale) +:+
      (if (p =? 0)%nat then "" else "." +:+ zero_fill p (m mod scale))
  end.

Definition xadd (x y : xfloat) : xfloat :=
  match x, y with
  | Fin a b, Fin c d => Fin (a * Z.pos d + c * Z.pos b) (b * d)
  | _, _ => NaN
  end.

Definition xdiv1000 (x : xfloat) : xfloat :=
  match x with
  | Fin a b => Fin a (b * 1000)
  | NaN => NaN
  end.

(** The day number of xlrd for a date of the 1900 system, from its
    Julian day number; [None] for what xlrd refuses. *)
Definition days_in_month (year month : Z) : Z :=
  if month =? 2 then (if Py.isleap year then 29 else 28)
  else if (month =? 4) || (month =? 6) || (month =? 9) || (month =? 11) then 30
  else 31.

Definition xl_hours (year month day hour : Z) : option Z :=
  if (1900 <=? year) && (year <=? 9999) && (1 <=? month) && (month <=? 12)
     && (1 <=? day) && (day <=? days_in_month year month)
     && (0 <=? hour) && (hour <? 24)
  then
    let Yp := if month <=? 2 then year + 4715 else year + 4716 in
    let Mp := if month <=? 2 then month + 9 else month - 3 in
    let jdn := 1461 * Yp / 4 + (979 * Mp + 16) / 32 + day - 1364
               - ((Yp + 184) / 100 * 3) / 4 in
    let xldays := jdn - 2415019 in
    if xldays <? 61 then None else Some (24 * xldays + hour)
  else None.

(** What a value reads as after it is printed with ['{0:>w.pf}']. *)
Definition reread (w p : nat) (x : xfloat) : xfloat :=
  match ascii_float (Py.rjust w (format_fixed p x)) with
  | Some y => y
  | None => x
  end.

(** The value is printed on [w] characters and reads back. *)
Definition fits (w p : nat) (x : xfloat) : bool :=
  Nat.eqb (String.length (Py.rjust w (format_fixed p x))) w
  && match ascii_float (Py.rjust w (format_fixed p x)) with
     | Some _ => true
     | None => false
     end.

#[export] Instance builtins : Builtins xfloat := {|
  py_int := ascii_int;
  py_float := ascii_float;
  f32 := fun x => x;
  str_f32 := ascii_float;
  fzero := Fin 0 1;
  fnan := NaN;
  fdiv1000 := xdiv1000;
  np_sum := fun l => fold_left xadd l (Fin 0 1);
  xldate := xl_hours;
  format_f := fun w p x => Py.rjust w (format_fixed p x)
|}.

(** A simulator that writes nothing. *)
#[export] Instance idle_simulator : Simulator := {|
  run_simulation := fun _ fs => Ok fs
|}.

(** [np.mean], [x < y], [np.isnan] and [calendar.monthrange] (its
    number of days) on these numbers.  [calendar] takes the years 1 to
    9999 and the months 1 to 12. *)
Definition xmean (l : list xfloat) : xfloat :=
  match l with
  | [] => NaN
  | _ :: _ =>
      match fold_left xadd l (Fin 0 1) with
      | Fin a b => Fin a (b * Pos.of_nat (length l))
      | NaN => NaN
      end
  end.

Definition xlt (x y : xfloat) : bool :=
  match x, y with
  | Fin a b, Fin c d => a * Z.pos d <? c * Z.pos b
  | _, _ => false
  end.

Definition xisnan (x : xfloat) : bool :=
  match x with
  | NaN => true
  | Fin _ _ => false
  end.

Definition monthrange (year month : Z) : result Z :=
  if (1 <=? year) && (year <=? 9999) && (1 <=? month) && (month <=? 12)
  then Ok (days_in_month year month)
  else Raise ValueError.

End Concrete.


(** ** Sample files *)

Module Samples.

(** The title row of a monthly year block. *)
Definition monthly_title : row := ["  MONTHLY TOTALS (IN INCHES) FOR YEAR 2001"].

(** The rows of the block after its title, up to the row of asterisks:
    two "LATERAL DRAINAGE" pairs and two "PERCOLATION" pairs. *)
Definition monthly_body : list row := [
  [" ------------------------------------------------------------"];
  [];
  ["                   JAN/JUL FEB/AUG MAR/SEP APR/OCT MAY/NOV JUN/DEC"];
  [];
  [" PRECIPITATION       1.5   2.5   3.5   4.5   5.5   6.5"];
  ["                     7.5   8.5   9.5  10.5  11.5  12.5"];
  [];
  [" RUNOFF              0.1   0.2   0.3   0.4   0.5   0.6"];
  ["                     0.7   0.8   0.9   1.0   1.1   1.2"];
  [];
  [" EVAPOTRANSPIRATION  1.0   1.0   1.0   1.0   1.0   1.0"];
  ["                     2.0   2.0   2.0   2.0   2.0   2.0"];
  [];
  [" LATERAL DRAINAGE COLLECTED  0.01 0.02 0.03 0.04 0.05 0.06"];
  ["   FROM LAYER  2             0.07 0.08 0.09 0.10 0.11 0.12"];
  [];
  [" PERCOLATION/LEAKAGE THROUGH 0.5 0.5 0.5 0.5 0.5 0.5"];
  ["   LAYER  3                  0.6 0.6 0.6 0.6 0.6 0.6"];
  [];
  [" LATERAL DRAINAGE COLLECTED  9.01 9.02 9.03 9.04 9.05 9.06"];
  ["   FROM LAYER  4             9.07 9.08 9.09 9.10 9.11 9.12"];
  [];
  [" PERCOLATION/LEAKAGE THROUGH 0.25 0.25 0.25 0.25 0.25 0.25"];
  ["   LAYER  5                  0.75 0.75 0.75 0.75 0.75 0.75"];
  []
].

Definition monthly_separator : row :=
  [" *******************************************************************"].

Definition monthly_tail : list row := [
  [];
  [" FINAL WATER STORAGE AT END OF YEAR 2001"];
  []
].

(** A monthly report of one year. *)
Definition monthly_file : list row :=
  monthly_title :: monthly_body ++ monthly_separator :: monthly_tail.

(** The table of that report: [sub-runoff] from the first "LATERAL
    DRAINAGE" pair, [percolation] from the first "PERCOLATION" pair and
    [recharge] from the last one. *)
Definition tenths (l : list Z) : list Concrete.xfloat :=
  map (fun n => Concrete.Fin n 10) l.
Definition hundredths (l : list Z) : list Concrete.xfloat :=
  map (fun n => Concrete.Fin n 100) l.

Definition monthly_expected : Processing.monthly Concrete.xfloat :=
  {| Processing.m_years := [2001];
     Processing.m_rain := [tenths [15; 25; 35; 45; 55; 65; 75; 85; 95; 105; 115; 125]];
     Processing.m_runoff := [tenths [1; 2; 3; 4; 5; 6; 7; 8; 9; 10; 11; 12]];
     Processing.m_evapo := [tenths [10; 10; 10; 10; 10; 10; 20; 20; 20; 20; 20; 20]];
     Processing.m_sub_runoff := [hundredths [1; 2; 3; 4; 5; 6; 7; 8; 9; 10; 11; 12]];
     Processing.m_percolation := [tenths [5; 5; 5; 5; 5; 5; 6; 6; 6; 6; 6; 6]];
     Processing.m_recharge := [hundredths [25; 25; 25; 25; 25; 25; 75; 75; 75; 75; 75; 75]] |}.

(** A data row of the daily report for the day [k], in the fixed
    columns of the parser. *)
Definition daily_line (k : nat) : row :=
  ["  " +:+ Py.rjust 3 (Py.str_of_int (Z.of_nat k)) +:+ Py.spaces 8 +:+
   Py.rjust 6 "0.10" +:+ Py.rjust 7 "0.000" +:+ Py.rjust 7 "0.022" +:+
   Py.rjust 8 "0.2133" +:+ Py.rjust 10 "0.0000" +:+ Py.rjust 10 "0.0100" +:+
   Py.rjust 10 "0.0020" +:+ Py.rjust 10 "0.0030"].

Definition daily_head : list row := [
  [" TOTAL NUMBER OF LAYERS = 3"];
  [" TOTAL NUMBER OF SUBPROFILES = 1"];
  []
].

Definition daily_marker : row := ["          DAILY OUTPUT FOR YEAR 2001"].

Definition daily_data : list row := map daily_line (seq 1 365).

(** What follows the year: a header, and a row in the layout of a data
    row. *)
Definition daily_trailing : list row := [
  [];
  [" MONTHLY TOTALS (IN INCHES) FOR YEAR 2001"];
  daily_line 7;
  []
].

Definition daily_file : list row :=
  daily_head ++ daily_marker :: daily_data ++ daily_trailing.

(** The values of the data row of the day [k]. *)
Definition daily_values (k : nat) : Processing.day_row Concrete.xfloat :=
  @Processing.Build_day_row Concrete.xfloat (Z.of_nat k)
    (Concrete.Fin 10 100) (Concrete.Fin 0 1000) (Concrete.Fin 22 1000)
    (Concrete.Fin 2133 10000) (Concrete.Fin 0 10000) (Concrete.Fin 100 10000)
    (Concrete.Fin 20 10000) (Concrete.Fin 30 10000).

(** The table of the daily report: the 365 rows of 2001. *)
Definition daily_expected : Processing.daily Concrete.xfloat :=
  let ds := map daily_values (seq 1 365) in
  {| Processing.d_years := repeat 2001 365;
     Processing.d_days := map Processing.r_day ds;
     Processing.d_rain := map Processing.r_rain ds;
     Processing.d_runoff := map Processing.r_ru ds;
     Processing.d_et := map Processing.r_et ds;
     Processing.d_ezone := map Processing.r_ezone ds;
     Processing.d_head_first := map Processing.r_headfirst ds;
     Processing.d_drain_first := map Processing.r_drainfirst ds;
     Processing.d_leak_first := map Processing.r_leakfirst ds;
     Processing.d_leak_last := map Processing.r_leaklast ds |}.

(** Two cells whose output files are there. *)
Definition outparam_a : list string :=
  ["a.D10"; "a.D11"; "a.D4"; "a.D7"; "a.D13"; "out/a.OUT"; "30"; "1"].
Definition outparam_b : list string :=
  ["b.D10"; "b.D11"; "b.D4"; "b.D7"; "b.D13"; "out/b.OUT"; "30"; "1"].

Definition cellparams : gmap string (list string) :=
  <["cell_a" := outparam_a]> (<["cell_b" := outparam_b]> ∅).

Definition world0 : world :=
  {| files := <["out/a.OUT" := monthly_file]> (<["out/b.OUT" := monthly_file]> ∅);
     sim_log := [] |}.

(** The row of a WY2 file for the hour [h] (1 to 24) of 2001-06-15,
    with [100 * h] kJ/m2 of irradiance in the columns 20 to 23. *)
Definition cweeds_line (h : nat) : row :=
  ["717000" +:+ "2001" +:+ "06" +:+ "15" +:+ Concrete.zero_fill 2 (Z.of_nat h) +:+
   "9999" +:+ Concrete.zero_fill 4 (Z.of_nat (100 * h)) +:+ "  " +:+ "0000"].

(** One day of hourly rows. *)
Definition cweeds_day : list row := map cweeds_line (seq 1 24).

(** The hourly dict read from that day. *)
Definition cweeds_hourly : Weather.dataset Concrete.xfloat :=
  {| Weather.Years := repeat 2001 24;
     Weather.Months := repeat 6 24;
     Weather.Days := repeat 15 24;
     Weather.Hours := map Z.of_nat (seq 0 24);
     Weather.Time := map (fun h => 24 * 37057 + Z.of_nat h) (seq 0 24);
     Weather.Irradiance :=
       map (fun h => Concrete.Fin (Z.of_nat (100 * h)) 1000) (seq 1 24);
     Weather.hdr := None;
     Weather.time_format := "hourly";
     Weather.cweeds_format := "WY2" |}.

(** Two daily datasets that share the days 20 and 30. *)
Definition header0 : Weather.header Concrete.xfloat :=
  {| Weather.horz_version := "CWEEDS2011";
     Weather.location := "MONTREAL INTL A";
     Weather.province := "QC";
     Weather.country := "CAN";
     Weather.station_id := "7025250";
     Weather.latitude := Concrete.Fin 4547 100;
     Weather.longitude := Concrete.Fin (-7375) 100;
     Weather.time_zone := Concrete.Fin (-5) 1;
     Weather.elevation := Concrete.Fin 36 1 |}.

Definition wy2_df : Weather.dataset Concrete.xfloat :=
  {| Weather.Years := [1998; 1998; 1998];
     Weather.Months := [1; 1; 1];
     Weather.Days := [10; 20; 30];
     Weather.Hours := [0; 0; 0];
     Weather.Time := [35805; 35815; 35825];
     Weather.Irradiance := [Concrete.Fin 1 1; Concrete.Fin 2 1; Concrete.Fin 3 1];
     Weather.hdr := None;
     Weather.time_format := "daily";
     Weather.cweeds_format := "WY2" |}.

Definition wy3_df : Weather.dataset Concrete.xfloat :=
  {| Weather.Years := [1998; 1998; 1998];
     Weather.Months := [1; 1; 2];
     Weather.Days := [20; 30; 9];
     Weather.Hours := [0; 0; 0];
     Weather.Time := [35815; 35825; 35835];
     Weather.Irradiance := [Concrete.Fin 20 1; Concrete.Fin 30 1; Concrete.Fin 40 1];
     Weather.hdr := Some header0;
     Weather.time_format := "daily";
     Weather.cweeds_format := "WY3" |}.

(** What [np.empty] finds in memory. *)
Definition junk : string -> nat -> Z := fun _ _ => (-1).
Definition fjunk : nat -> Concrete.xfloat := fun _ => Concrete.NaN.

(** A year of daily values, from 0.0 to 36.4, and a year with a value
    of four digits. *)
Definition year_2001 : list Z := repeat 2001 365.
Definition tenths_of_year : list Concrete.xfloat :=
  map (fun k => Concrete.Fin (Z.of_nat k) 10) (seq 0 365).
Definition wet_year : list Concrete.xfloat :=
  Concrete.Fin 1000 1 :: repeat (Concrete.Fin 0 1) 364.

(** The rows of a monthly year block without its "PRECIPITATION"
    pair. *)
Definition monthly_body_dry : list row := drop 6 monthly_body.

(** A year of a daily report: a blank row, a row of column titles and
    the 365 data rows. *)
Definition daily_titles : row := ["  DAY  A  O  RAIN  RUNOFF  ET"].

Definition daily_year_rows : list row := [] :: daily_titles :: daily_data.

(** A cell whose output file is not there. *)
Definition outparam_c : list string :=
  ["c.D10"; "c.D11"; "c.D4"; "c.D7"; "c.D13"; "out/c.OUT"; "30"; "1"].

(** A WY3 file of the same day: the row of the header, and the hourly
    rows two characters to the right. *)
Definition cweeds_wy3_header : row :=
  ["CWEEDS2011"; "MONTREAL INTL A"; "QC"; "CAN"; "7025250";
   "45.47"; "-73.75"; "-5"; "36"].

Definition cweeds_wy3_file : list row :=
  cweeds_wy3_header
  :: map (fun r : row => map (fun l => "  " +:+ l) r) cweeds_day.

Definition cweeds_hourly_wy3 : Weather.dataset Concrete.xfloat :=
  {| Weather.Years := Weather.Years cweeds_hourly;
     Weather.Months := Weather.Months cweeds_hourly;
     Weather.Days := Weather.Days cweeds_hourly;
     Weather.Hours := Weather.Hours cweeds_hourly;
     Weather.Time := Weather.Time cweeds_hourly;
     Weather.Irradiance := Weather.Irradiance cweeds_hourly;
     Weather.hdr := Some header0;
     Weather.time_format := "hourly";
     Weather.cweeds_format := "WY3" |}.

(** The merge of the two daily datasets. *)
Definition wy23_df : Weather.dataset Concrete.xfloat :=
  {| Weather.Years := [1998; 1998; 1998; 1998];
     Weather.Months := [1; 1; 1; 2];
     Weather.Days := [10; 20; 30; 9];
     Weather.Hours := [0; 0; 0; 0];
     Weather.Time := [35805; 35815; 35825; 35835];
     Weather.Irradiance :=
       [Concrete.Fin 1 1; Concrete.Fin 20 1; Concrete.Fin 30 1; Concrete.Fin 40 1];
     Weather.hdr := Some header0;
     Weather.time_format := "daily";
     Weather.cweeds_format := "WY2+WY3" |}.

(** Daily values of January and of 27 days of February 2001, one unit a
    day. *)
Definition winter_years : list Z := repeat 2001 58.
Definition winter_months : list Z := repeat 1 31 ++ repeat 2 27.
Definition winter_values : list Concrete.xfloat := repeat (Concrete.Fin 1 1) 58.

(** Four days, the first and the third below zero. *)
Definition tavg : list Concrete.xfloat :=
  [Concrete.Fin (-5) 1; Concrete.Fin 3 1; Concrete.Fin (-1) 2; Concrete.Fin 0 1].
Definition ptot : list Concrete.xfloat :=
  [Concrete.Fin 2 1; Concrete.Fin 4 1; Concrete.Fin 1 1; Concrete.Fin 7 1;
   Concrete.Fin 9 1].

(** Monthly values of two months of three years, one of them missing. *)
Definition normal_years : list Z := [2000; 2000; 2001; 2001; 2002; 2002].
Definition normal_months : list Z := [1; 2; 1; 2; 1; 2].
Definition normal_values : list Concrete.xfloat :=
  [Concrete.Fin 10 1; Concrete.NaN; Concrete.Fin 30 1; Concrete.Fin 40 1;
   Concrete.Fin 50 1; Concrete.Fin 60 1].

(** The block with its last "PERCOLATION" pair labelled as going to a
    runoff pond. *)
Definition monthly_body_pond : list row :=
  take 22 monthly_body ++ [
  [" PERCOLATION TO RUNOFF POND  0.25 0.25 0.25 0.25 0.25 0.25"];
  ["   FROM LAYER  5             0.75 0.75 0.75 0.75 0.75 0.75"];
  []
].

(** The block with a blank row after its first "LATERAL DRAINAGE"
    line. *)
Definition monthly_body_gap : list row :=
  take 13 monthly_body ++ [
  [" LATERAL DRAINAGE COLLECTED  0.01 0.02 0.03 0.04 0.05 0.06"];
  [];
  ["   FROM LAYER  2             0.07 0.08 0.09 0.10 0.11 0.12"]
] ++ drop 15 monthly_body.

(** The block with one "LATERAL DRAINAGE" pair, labelled as going to
    the runoff. *)
Definition monthly_body_drain : list row :=
  take 13 monthly_body ++ [
  [" LATERAL DRAINAGE TO RUNOFF  0.01 0.02 0.03 0.04 0.05 0.06"];
  ["   FROM LAYER  2             0.07 0.08 0.09 0.10 0.11 0.12"]
] ++ drop 15 (take 19 monthly_body).

(** The tables of the three reports: the pair of the pond is read as
    [runoff], the "LATERAL DRAINAGE" line before a blank row is passed
    over, and the pair that goes to the runoff is read as [runoff]. *)
Definition monthly_table_pond : Processing.monthly Concrete.xfloat :=
  {| Processing.m_years := [2001];
     Processing.m_rain := Processing.m_rain monthly_expected;
     Processing.m_runoff := [hundredths [25; 25; 25; 25; 25; 25; 75; 75; 75; 75; 75; 75]];
     Processing.m_evapo := Processing.m_evapo monthly_expected;
     Processing.m_sub_runoff := Processing.m_sub_runoff monthly_expected;
     Processing.m_percolation := [tenths [5; 5; 5; 5; 5; 5; 6; 6; 6; 6; 6; 6]];
     Processing.m_recharge := [tenths [5; 5; 5; 5; 5; 5; 6; 6; 6; 6; 6; 6]] |}.

Definition monthly_table_gap : Processing.monthly Concrete.xfloat :=
  {| Processing.m_years := [2001];
     Processing.m_rain := Processing.m_rain monthly_expected;
     Processing.m_runoff := Processing.m_runoff monthly_expected;
     Processing.m_evapo := Processing.m_evapo monthly_expected;
     Processing.m_sub_runoff :=
       [hundredths [901; 902; 903; 904; 905; 906; 907; 908; 909; 910; 911; 912]];
     Processing.m_percolation := Processing.m_percolation monthly_expected;
     Processing.m_recharge := Processing.m_recharge monthly_expected |}.

Definition monthly_table_drain : Processing.monthly Concrete.xfloat :=
  {| Processing.m_years := [2001];
     Processing.m_rain := Processing.m_rain monthly_expected;
     Processing.m_runoff := [hundredths [1; 2; 3; 4; 5; 6; 7; 8; 9; 10; 11; 12]];
     Processing.m_evapo := Processing.m_evapo monthly_expected;
     Processing.m_sub_runoff := [repeat (Concrete.Fin 0 1) 12];
     Processing.m_percolation := [tenths [5; 5; 5; 5; 5; 5; 6; 6; 6; 6; 6; 6]];
     Processing.m_recharge := [tenths [5; 5; 5; 5; 5; 5; 6; 6; 6; 6; 6; 6]] |}.

(** The same report for the leap year 2004: 366 data rows. *)
Definition daily_marker_leap : row := ["          DAILY OUTPUT FOR YEAR 2004"].

Definition daily_data_leap : list row := map daily_line (seq 1 366).

Definition daily_file_leap : list row :=
  daily_head ++ daily_marker_leap :: daily_data_leap ++ daily_trailing.

End Samples.

(** * Properties *)

(** ** The error monad *)

Lemma rbind_Ok {A B} (m : result A) (k : A -> result B) (b : B) :
  rbind m k = Ok b -> exists a, m = Ok a /\ k a = Ok b.
Proof. destruct m as [a|e]; simpl; [eauto | discriminate]. Qed.

Lemma of_option_Ok {A} (e : exn) (o : option A) (a : A) :
  of_option e o = Ok a -> o = Some a.
Proof. destruct o; simpl; congruence. Qed.

Lemma mapM_length {A B} (f : A -> result B) (l : list A) (l' : list B) :
  mapM f l = Ok l' -> length l' = length l.
Proof.
  revert l'. induction l as [|a l IH]; simpl; intros l' H.
  - injection H as <-. reflexivity.
  - apply rbind_Ok in H as (b & _ & H).
    apply rbind_Ok in H as (bs & Hbs & H).
    injection H as <-. simpl. f_equal. auto.
Qed.

(** Take a chain of [do] apart in a hypothesis that it returned. *)
Ltac unbind H :=
  repeat
    (let a := fresh "a" in
     let Ha := fresh "Ha" in
     apply rbind_Ok in H as (a & Ha & H)).

(** Decide a [Forall] over a list that computes, element by element. *)
Ltac forall_compute :=
  repeat first
    [ apply List.Forall_nil
    | apply List.Forall_cons;
      [ first [ exact I
              | vm_compute; first [ reflexivity | exact I | repeat split; reflexivity ] ]
      | ] ].

Module ProcessingFacts.
Import Processing.

Section Monthly.
Context {float : Type} {B : Builtins float}.

Local Abbreviation mstate := (Processing.mstate float).
Local Abbreviation monthly := (Processing.monthly float).
Local Abbreviation dstate := (Processing.dstate float).
Local Abbreviation daily := (Processing.daily float).
Local Abbreviation day_row := (Processing.day_row float).

(** *** The lists of the monthly parser grow together *)

(** Between two year blocks every list is as long as [arr_years]. *)
Definition aligned (st : mstate) : Prop :=
  let n := length (arr_years st) in
  length (vstack_precip st) = n /\ length (vstack_runoff st) = n /\
  length (vstack_evapo st) = n /\ length (vstack_subrunoff st) = n /\
  length (vstack_percol st) = n /\ length (vstack_rechg st) = n.

(** Inside a block the year is appended and its rows are not yet. *)
Definition one_behind (st : mstate) : Prop :=
  let n := length (arr_years st) in
  S (length (vstack_precip st)) = n /\ S (length (vstack_runoff st)) = n /\
  S (length (vstack_evapo st)) = n /\ S (length (vstack_subrunoff st)) = n /\
  S (length (vstack_percol st)) = n /\ S (length (vstack_rechg st)) = n.

Lemma open_block_one_behind st y :
  aligned st -> one_behind (open_block_state st y).
Proof.
  unfold aligned, one_behind. simpl. rewrite length_app. simpl. lia.
Qed.

Lemma close_block_aligned st loc st' :
  one_behind st -> close_block st loc = Ok st' -> aligned st'.
Proof.
  unfold close_block. intros Hb H. unbind H. injection H as <-.
  unfold aligned, one_behind in *. simpl.
  rewrite !length_app. simpl. lia.
Qed.

Lemma loops_aligned (rows : list row) :
  (forall st loc st', aligned st -> outer_loop st loc rows = Ok st' -> aligned st')
  /\ (forall st loc st', one_behind st -> inner_loop st loc rows = Ok st' -> aligned st').
Proof.
  induction rows as [|r rest [IHo IHi]].
  - split; intros st loc st' Hst H; simpl in H.
    + congruence.
    + discriminate.
  - split; intros st loc st' Hst H.
    + simpl in H. destruct rest as [|r' rest']; [congruence|].
      destruct r as [|line fields]; [eauto|].
      destruct (Py.contains "MONTHLY TOTALS" line).
      * unbind H. eapply IHi; [|exact H]. by apply open_block_one_behind.
      * destruct (Py.contains "FINAL WATER STORAGE" line); [congruence | eauto].
    + simpl in H. destruct r as [|line fields]; [eauto|].
      destruct (Py.contains "**********" line).
      * unbind H. eapply IHo; [|exact H]. eapply close_block_aligned; eauto.
      * destruct rest as [|[|nline nfields] rest']; [discriminate | eauto | eauto].
Qed.

Lemma np_vstack_Ok (rows rows' : list (list float)) :
  np_vstack rows = Ok rows' -> rows' = rows /\ rows <> [].
Proof.
  unfold np_vstack. destruct rows as [|r rs]; [discriminate|].
  destruct (forallb _ rs); [|discriminate]. intros [= <-]. done.
Qed.

Lemma monthly_table_lengths st t :
  aligned st -> monthly_table st = Ok t ->
  let n := length (m_years t) in
  length (m_rain t) = n /\ length (m_runoff t) = n /\ length (m_evapo t) = n /\
  length (m_sub_runoff t) = n /\ length (m_percolation t) = n /\
  length (m_recharge t) = n.
Proof.
  unfold monthly_table. intros Hal H. unbind H. injection H as <-. simpl.
  repeat match goal with
         | E : np_vstack _ = Ok _ |- _ => apply np_vstack_Ok in E as [-> _]
         end.
  rewrite length_map. exact Hal.
Qed.

Lemma read_monthly_lengths (csvread : list row) (t : monthly) :
  read_monthly_help_output csvread = Ok t ->
  let n := length (m_years t) in
  length (m_rain t) = n /\ length (m_runoff t) = n /\ length (m_evapo t) = n /\
  length (m_sub_runoff t) = n /\ length (m_percolation t) = n /\
  length (m_recharge t) = n.
Proof.
  unfold read_monthly_help_output. intros H.
  apply rbind_Ok in H as (a & Ha & H).
  apply monthly_table_lengths with (st := a); [|exact H].
  destruct (loops_aligned csvread) as [Ho _].
  eapply Ho; [|exact Ha]. unfold aligned. simpl. tauto.
Qed.

(** *** A year block

    A year block is the row of the "MONTHLY TOTALS" title, the rows
    [body] up to the next row of asterisks, and that row. *)

(** A row that does not end the block. *)
Definition not_separator (r : row) : Prop :=
  match r with
  | [] => True
  | line :: _ => Py.contains "**********" line = false
  end.

(** The pairs of lines the inner loop passes to its [if]/[elif] chain:
    each non-blank row of the body that a non-blank row follows, with
    that row.  [next] is the row after the body. *)
Fixpoint block_pairs (body : list row) (next : row) : list (string * string) :=
  match body with
  | [] => []
  | r :: rest =>
      match r, match rest with [] => next | n :: _ => n end with
      | line :: _, nline :: _ => (line, nline) :: block_pairs rest next
      | _, _ => block_pairs rest next
      end
  end.

Definition update_pair (loc : locals) (p : string * string) : locals :=
  update_locals loc p.1 p.2.

(** The locals when the inner loop leaves the block. *)
Definition block_locals (loc : locals) (body : list row) (sep : row) : locals :=
  fold_left update_pair (block_pairs body sep) (open_block_locals loc).

Lemma inner_loop_cons st loc r rest :
  inner_loop st loc (r :: rest) =
  match r with
  | [] => inner_loop st loc rest
  | line :: _ =>
      if Py.contains "**********" line then
        do st' <- close_block st loc; outer_loop st' loc rest
      else
        match rest with
        | [] => Raise IndexError
        | [] :: _ => inner_loop st loc rest
        | (nline :: _) :: _ => inner_loop st (update_locals loc line nline) rest
        end
  end.
Proof. reflexivity. Qed.

Lemma inner_loop_body st loc body sline sfields rest :
  Forall not_separator body ->
  Py.contains "**********" sline = true ->
  inner_loop st loc (body ++ (sline :: sfields) :: rest) =
  let loc' := fold_left update_pair (block_pairs body (sline :: sfields)) loc in
  do st' <- close_block st loc'; outer_loop st' loc' rest.
Proof.
  intros Hbody Hsep. revert loc.
  induction Hbody as [|r body Hr Hbody IH]; intros loc.
  - cbn [app]. rewrite inner_loop_cons, Hsep. reflexivity.
  - cbn [app]. rewrite inner_loop_cons. destruct r as [|line fields].
    + rewrite IH. destruct body; reflexivity.
    + cbn in Hr. rewrite Hr.
      destruct body as [|[|nline nfields] body']; cbn [app] in *;
        rewrite IH; reflexivity.
Qed.

(** The title row of a block whose last word reads as [year]. *)
Definition title_of (line : string) (year : Z) : Prop :=
  Py.contains "MONTHLY TOTALS" line = true /\
  (do tok <- Py.last_item (Py.split line); int_of tok) = Ok year.

Lemma outer_loop_block st loc title tfields year body sline sfields rest :
  title_of title year ->
  Forall not_separator body ->
  Py.contains "**********" sline = true ->
  outer_loop st loc ((title :: tfields) :: body ++ (sline :: sfields) :: rest) =
  let loc' := block_locals loc body (sline :: sfields) in
  do st' <- close_block (open_block_state st year) loc';
  outer_loop st' loc' rest.
Proof.
  intros [Ht Hy] Hbody Hsep.
  change (outer_loop st loc ((title :: tfields) :: body ++ (sline :: sfields) :: rest))
    with (match body ++ (sline :: sfields) :: rest with
          | [] => Ok st
          | _ :: _ =>
              if Py.contains "MONTHLY TOTALS" title then
                do tok <- Py.last_item (Py.split title);
                do year <- int_of tok;
                inner_loop (open_block_state st year) (open_block_locals loc)
                           (body ++ (sline :: sfields) :: rest)
              else if Py.contains "FINAL WATER STORAGE" title then Ok st
              else outer_loop st loc (body ++ (sline :: sfields) :: rest)
          end).
  destruct (body ++ (sline :: sfields) :: rest) eqn:E.
  { destruct body; discriminate. }
  rewrite <- E. clear E. rewrite Ht.
  destruct (Py.last_item (Py.split title)) as [tok|e]; [|discriminate].
  simpl in Hy. simpl. rewrite Hy. simpl.
  rewrite inner_loop_body by assumption. reflexivity.
Qed.

(** *** Which pair sets which local *)

(** A line with one of the labels the chain tests first. *)
Definition earlier_label (line : string) : bool :=
  Py.contains "PRECIPITATION" line || Py.contains "RUNOFF" line
  || Py.contains "EVAPOTRANSPIRATION" line.

(** A line that reaches the test of "LATERAL DRAINAGE" and has that
    label. *)
Definition lateral_label (line : string) : bool :=
  negb (earlier_label line) && Py.contains "LATERAL DRAINAGE" line.

(** A line that has the label "PERCOLATION" and none of the three
    labels tested first. *)
Definition percolation_label (line : string) : bool :=
  negb (earlier_label line) && Py.contains "PERCOLATION" line.

(** The pairs whose first line [label] holds of. *)
Definition labelled_pairs (label : string -> bool)
  (pairs : list (string * string)) : list (string * string) :=
  List.filter (fun p => label p.1) pairs.

(** The pairs without the first one whose first line [label] holds
    of. *)
Fixpoint without_first (label : string -> bool)
  (pairs : list (string * string)) : list (string * string) :=
  match pairs with
  | [] => []
  | p :: rest => if label p.1 then rest else p :: without_first label rest
  end.

(** The last six words of a line, or all of them when there are
    fewer. *)
Definition last_six (line : string) : list string :=
  let words := Py.split line in
  skipn (length words - 6) words.

(** The words of a pair of lines: the last six of the first line, then
    the last six of the second. *)
Definition words_of (p : string * string) : list string :=
  last_six p.1 ++ last_six p.2.

(** The row [v] holds the numbers the words read as, word by word. *)
Definition reads_as (words : list string) (v : list float) : Prop :=
  map str_f32 words = map Some v.

Lemma pair_tokens_words line nline :
  pair_tokens line nline = words_of (line, nline).
Proof. reflexivity. Qed.

Lemma mapM_reads (words : list string) (v : list float) :
  mapM (fun s => of_option ValueError (str_f32 s)) words = Ok v ->
  reads_as words v.
Proof.
  unfold reads_as. revert v.
  induction words as [|s words IH]; simpl; intros v H.
  - by injection H as <-.
  - apply rbind_Ok in H as (b & Hb & H). apply rbind_Ok in H as (bs & Hbs & H).
    injection H as <-. apply of_option_Ok in Hb. simpl.
    by rewrite Hb, (IH bs Hbs).
Qed.

Lemma reads_as_length words (v : list float) :
  reads_as words v -> length v = length words.
Proof.
  unfold reads_as. intros H. apply (f_equal length) in H.
  rewrite !length_map in H. done.
Qed.

Lemma words_of_length (p : string * string) :
  (6 <= length (Py.split p.1))%nat -> (6 <= length (Py.split p.2))%nat ->
  length (words_of p) = 12%nat.
Proof.
  intros H1 H2. unfold words_of, last_six.
  rewrite length_app, !length_skipn. lia.
Qed.

(** One pass through the chain: which of the three locals of the last
    two branches it sets. *)
Definition takes_lateral (loc : locals) (line : string) : bool :=
  lateral_label line && is_None (subrunoff loc).

Definition takes_percolation (loc : locals) (line : string) : bool :=
  percolation_label line && negb (takes_lateral loc line).

Lemma update_locals_cases loc line nline :
  let loc' := update_locals loc line nline in
  subrunoff loc' =
    (if takes_lateral loc line then Some (words_of (line, nline))
     else subrunoff loc) /\
  percol loc' =
    (if takes_percolation loc line
     then Some (default (words_of (line, nline)) (percol loc))
     else percol loc) /\
  rechg loc' =
    (if takes_percolation loc line then Some (words_of (line, nline))
     else rechg loc).
Proof.
  unfold takes_percolation, takes_lateral, percolation_label, lateral_label,
    earlier_label, update_locals.
  rewrite pair_tokens_words.
  destruct (Py.contains "PRECIPITATION" line); [done|].
  destruct (Py.contains "RUNOFF" line); [done|].
  destruct (Py.contains "EVAPOTRANSPIRATION" line); [done|].
  destruct (subrunoff loc) eqn:Es, (percol loc) eqn:Ec,
    (Py.contains "LATERAL DRAINAGE" line), (Py.contains "PERCOLATION" line);
    simpl; rewrite ?Es, ?Ec; done.
Qed.

(** The pair that sets [subrunoff]: the first with the label, in a
    block that has not set it yet. *)
Lemma fold_lateral pairs loc :
  subrunoff (fold_left update_pair pairs loc) =
  match subrunoff loc with
  | Some v => Some v
  | None => words_of <$> head (labelled_pairs lateral_label pairs)
  end.
Proof.
  revert loc. induction pairs as [|[line nline] pairs IH]; intros loc.
  - simpl. by destruct (subrunoff loc).
  - cbn [fold_left]. rewrite IH. unfold update_pair. cbn [fst snd].
    destruct (update_locals_cases loc line nline) as (-> & _ & _).
    unfold labelled_pairs, takes_lateral. cbn [List.filter fst].
    destruct (lateral_label line), (subrunoff loc); reflexivity.
Qed.

(** What [percol] and [rechg] are after the pairs [hits] have reached
    the branch of "PERCOLATION". *)
Definition percol_after (old : option (list string))
  (hits : list (string * string)) : option (list string) :=
  match old with
  | Some v => Some v
  | None => words_of <$> head hits
  end.

Definition rechg_after (old : option (list string))
  (hits : list (string * string)) : option (list string) :=
  match last hits with
  | Some p => Some (words_of p)
  | None => old
  end.

Lemma percol_after_cons old p hits :
  percol_after (Some (default (words_of p) old)) hits = percol_after old (p :: hits).
Proof. by destruct old. Qed.

Lemma rechg_after_cons old p hits :
  rechg_after (Some (words_of p)) hits = rechg_after old (p :: hits).
Proof. unfold rechg_after. rewrite last_cons. by destruct (last hits). Qed.

(** Once [subrunoff] is set, every pair with the label "PERCOLATION"
    and no label tested first reaches its branch. *)
Lemma fold_percol_set pairs loc :
  is_None (subrunoff loc) = false ->
  let loc' := fold_left update_pair pairs loc in
  let hits := labelled_pairs percolation_label pairs in
  percol loc' = percol_after (percol loc) hits /\
  rechg loc' = rechg_after (rechg loc) hits.
Proof.
  revert loc. induction pairs as [|[line nline] pairs IH]; intros loc Hs.
  - simpl. unfold percol_after, rechg_after. simpl. by destruct (percol loc).
  - cbn zeta. cbn [fold_left].
    destruct (update_locals_cases loc line nline) as (E1 & E2 & E3).
    unfold takes_percolation, takes_lateral in E1, E2, E3.
    rewrite Hs, andb_false_r in E1, E2, E3. cbn [negb] in E2, E3.
    rewrite andb_true_r in E2, E3.
    destruct (IH (update_pair loc (line, nline))) as [-> ->].
    { unfold update_pair. cbn [fst snd]. by rewrite E1. }
    unfold update_pair. cbn [fst snd]. rewrite E2, E3.
    unfold labelled_pairs. cbn [List.filter fst].
    destruct (percolation_label line); [|done].
    by rewrite percol_after_cons, (rechg_after_cons (rechg loc)).
Qed.

(** In a block, the pair that sets [subrunoff] does not reach the branch
    of "PERCOLATION"; every other pair with that label and no label
    tested first does. *)
Lemma fold_percol pairs loc :
  is_None (subrunoff loc) = true ->
  let loc' := fold_left update_pair pairs loc in
  let hits := labelled_pairs percolation_label (without_first lateral_label pairs) in
  percol loc' = percol_after (percol loc) hits /\
  rechg loc' = rechg_after (rechg loc) hits.
Proof.
  revert loc. induction pairs as [|[line nline] pairs IH]; intros loc Hs.
  - simpl. unfold percol_after, rechg_after. simpl. by destruct (percol loc).
  - cbn zeta. cbn [fold_left without_first fst].
    destruct (update_locals_cases loc line nline) as (E1 & E2 & E3).
    unfold takes_percolation, takes_lateral in E1, E2, E3.
    rewrite Hs, andb_true_r in E1, E2, E3.
    destruct (lateral_label line) eqn:El.
    + cbn [negb] in E2, E3. rewrite andb_false_r in E2, E3.
      destruct (fold_percol_set pairs (update_pair loc (line, nline))) as [-> ->].
      { unfold update_pair. cbn [fst snd]. by rewrite E1. }
      unfold update_pair. cbn [fst snd]. by rewrite E2, E3.
    + cbn [negb] in E2, E3. rewrite andb_true_r in E2, E3.
      destruct (IH (update_pair loc (line, nline))) as [-> ->].
      { unfold update_pair. cbn [fst snd]. by rewrite E1. }
      unfold update_pair. cbn [fst snd]. rewrite E2, E3.
      unfold labelled_pairs. cbn [List.filter fst].
      destruct (percolation_label line); [|done].
      by rewrite percol_after_cons, (rechg_after_cons (rechg loc)).
Qed.

(** The tokens the chain reads from a pair. *)
Definition tokens_of (p : string * string) : list string := pair_tokens p.1 p.2.

(** What the appends that follow the inner loop have read. *)

Lemma close_block_Ok st loc st' :
  close_block st loc = Ok st' ->
  exists p r e g c s,
    astype_f32 (precip loc) = Ok p /\ astype_f32 (runoff loc) = Ok r /\
    astype_f32 (evapo loc) = Ok e /\ astype_f32 (rechg loc) = Ok g /\
    astype_f32_percol (percol loc) = Ok c /\
    match subrunoff loc with
    | None => s = zeros12
    | Some toks => astype_f32 (Some toks) = Ok s
    end /\
    st' = {| arr_years := arr_years st;
             vstack_precip := vstack_precip st ++ [p];
             vstack_runoff := vstack_runoff st ++ [r];
             vstack_evapo := vstack_evapo st ++ [e];
             vstack_subrunoff := vstack_subrunoff st ++ [s];
             vstack_percol := vstack_percol st ++ [c];
             vstack_rechg := vstack_rechg st ++ [g] |}.
Proof.
  unfold close_block. intros H.
  apply rbind_Ok in H as (p & Hp & H). apply rbind_Ok in H as (r & Hr & H).
  apply rbind_Ok in H as (e & He & H). apply rbind_Ok in H as (g & Hg & H).
  apply rbind_Ok in H as (c & Hc & H). apply rbind_Ok in H as (s & Hs & H).
  injection H as <-. exists p, r, e, g, c, s.
  repeat (split; [assumption|]). split; [|reflexivity].
  destruct (subrunoff loc); [assumption|]. by injection Hs as <-.
Qed.

(** *** The two claims as the specification words them *)

(** Every row of the body whose line contains [label], with the line
    of the row after it. *)
Fixpoint occurrences (label : string) (body : list row) : list (string * string) :=
  match body with
  | [] => []
  | r :: rest =>
      match r with
      | line :: _ =>
          if Py.contains label line
          then (line, match rest with (nline :: _) :: _ => nline | _ => "" end)
               :: occurrences label rest
          else occurrences label rest
      | [] => occurrences label rest
      end
  end.

(** In the table of a report of one block, [percolation] holds the
    numbers of the first line with "PERCOLATION", and [recharge] the
    numbers of the last one. *)
Definition recharge_of_last_percolation (title : row) (body : list row)
  (sep : row) (tail : list row) : Prop :=
  forall t, read_monthly_help_output (title :: body ++ sep :: tail) = Ok t ->
    match head (occurrences "PERCOLATION" body),
          last (occurrences "PERCOLATION" body) with
    | Some p1, Some pn =>
        exists vp vr, reads_as (words_of p1) vp /\ reads_as (words_of pn) vr /\
          m_percolation t = [vp] /\ m_recharge t = [vr]
    | _, _ => True
    end.

(** In the table of a report of one block, [sub-runoff] holds the
    numbers of the first line with "LATERAL DRAINAGE", and twelve zeros
    when there is none. *)
Definition subrunoff_of_first_lateral (title : row) (body : list row)
  (sep : row) (tail : list row) : Prop :=
  forall t, read_monthly_help_output (title :: body ++ sep :: tail) = Ok t ->
    match head (occurrences "LATERAL DRAINAGE" body) with
    | Some p => exists v, reads_as (words_of p) v /\ m_sub_runoff t = [v]
    | None => m_sub_runoff t = [repeat fzero 12]
    end.

(** C4.  In a year block, take the pairs of lines the inner loop passes
    to its chain whose first line contains "PERCOLATION" and none of the
    three labels tested first, the pair that sets [subrunoff] left out.
    The row appended to [vstack_percol] holds the numbers of the first
    of them, and the row appended to [vstack_rechg] the numbers of the
    last: the last six words of its first line, then the last six words
    of its second line, 12 values when both lines have six words or
    more.  With no such pair the first row is one [nan], and the second
    is read from the words an earlier block has left in [rechg]. *)
Theorem C4_percolation_first_recharge_last
  (st : mstate) (loc : locals) (title : string) (tfields : list string)
  (year : Z) (body : list row) (sline : string) (sfields : list string)
  (rest : list row) :
  title_of title year ->
  Forall not_separator body ->
  Py.contains "**********" sline = true ->
  let pairs := block_pairs body (sline :: sfields) in
  let hits := labelled_pairs percolation_label (without_first lateral_label pairs) in
  let loc' := block_locals loc body (sline :: sfields) in
  outer_loop st loc ((title :: tfields) :: body ++ (sline :: sfields) :: rest)
  = (do st' <- close_block (open_block_state st year) loc';
     outer_loop st' loc' rest)
  /\ forall st', close_block (open_block_state st year) loc' = Ok st' ->
     arr_years st' = arr_years st ++ [year] /\
     exists vp vr,
       vstack_percol st' = vstack_percol st ++ [vp] /\
       vstack_rechg st' = vstack_rechg st ++ [vr] /\
       match head hits, last hits with
       | Some p1, Some pn =>
           reads_as (words_of p1) vp /\ reads_as (words_of pn) vr /\
           ((6 <= length (Py.split pn.1))%nat ->
            (6 <= length (Py.split pn.2))%nat -> length vr = 12%nat)
       | _, _ =>
           vp = [fnan] /\ exists old, rechg loc = Some old /\ reads_as old vr
       end.
Proof.
  intros Ht Hbody Hsep pairs hits loc'. split.
  { by apply outer_loop_block. }
  intros st' Hc.
  apply close_block_Ok in Hc as (p & r & e & g & c & s & _ & _ & _ & Hg & Hc & _ & ->).
  simpl. split; [reflexivity|]. exists c, g.
  split; [reflexivity|]. split; [reflexivity|].
  destruct (fold_percol pairs (open_block_locals loc) eq_refl) as [E1 E2].
  change (fold_left update_pair pairs (open_block_locals loc)) with loc' in E1, E2.
  fold hits in E1, E2. cbn [open_block_locals percol rechg] in E1, E2.
  rewrite E1 in Hc. rewrite E2 in Hg. unfold percol_after, rechg_after in Hc, Hg.
  destruct hits as [|p1 hits'].
  - simpl in *. injection Hc as <-. split; [reflexivity|].
    destruct (rechg loc) as [old|]; [|discriminate].
    exists old. split; [reflexivity|]. by apply mapM_reads.
  - rewrite last_cons in *. cbn [head fmap option_fmap option_map] in Hc.
    apply mapM_reads in Hc.
    destruct (last hits') as [pn|]; apply mapM_reads in Hg.
    + split; [exact Hc|]. split; [exact Hg|]. intros H1 H2.
      rewrite (reads_as_length _ _ Hg). by apply words_of_length.
    + split; [exact Hc|]. split; [exact Hg|]. intros H1 H2.
      rewrite (reads_as_length _ _ Hg). by apply words_of_length.
Qed.

(** C5.  In a year block, the row appended to [vstack_subrunoff] holds
    the numbers of the first pair of lines, among those the inner loop
    passes to its chain, whose first line contains "LATERAL DRAINAGE"
    and none of the three labels tested first, whatever pairs follow
    it: the last six words of its first line, then the last six words
    of its second line.  In a block with no such pair the row is twelve
    zeros. *)
Theorem C5_lateral_drainage_first_or_zeros
  (st : mstate) (loc : locals) (title : string) (tfields : list string)
  (year : Z) (body : list row) (sline : string) (sfields : list string)
  (rest : list row) :
  title_of title year ->
  Forall not_separator body ->
  Py.contains "**********" sline = true ->
  let pairs := block_pairs body (sline :: sfields) in
  let loc' := block_locals loc body (sline :: sfields) in
  outer_loop st loc ((title :: tfields) :: body ++ (sline :: sfields) :: rest)
  = (do st' <- close_block (open_block_state st year) loc';
     outer_loop st' loc' rest)
  /\ forall st', close_block (open_block_state st year) loc' = Ok st' ->
     arr_years st' = arr_years st ++ [year] /\
     exists v,
       vstack_subrunoff st' = vstack_subrunoff st ++ [v] /\
       match head (labelled_pairs lateral_label pairs) with
       | Some p => reads_as (words_of p) v
       | None => v = repeat fzero 12
       end.
Proof.
  intros Ht Hbody Hsep pairs loc'. split.
  { by apply outer_loop_block. }
  intros st' Hc.
  apply close_block_Ok in Hc as (p & r & e & g & c & s & _ & _ & _ & _ & _ & Hs & ->).
  simpl. split; [reflexivity|]. exists s. split; [reflexivity|].
  pose proof (fold_lateral pairs (open_block_locals loc)) as E.
  change (fold_left update_pair pairs (open_block_locals loc)) with loc' in E.
  cbn [open_block_locals subrunoff] in E. rewrite E in Hs.
  destruct (head (labelled_pairs lateral_label pairs)) as [p1|]; simpl in Hs.
  - by apply mapM_reads.
  - exact Hs.
Qed.

(** *** The lists of the daily parser grow together *)

Definition daligned (st : dstate) : Prop :=
  let n := length (arr_dyears st) in
  length (arr_days st) = n /\ length (arr_rain st) = n /\
  length (arr_ru st) = n /\ length (arr_et st) = n /\
  length (arr_ezone st) = n /\ length (arr_headfirst st) = n /\
  length (arr_drainfirst st) = n /\ length (arr_leakfirst st) = n /\
  length (arr_leaklast st) = n.

Lemma read_counts_arrays st line st' :
  read_counts st line = Ok st' ->
  year st' = year st /\ days_in_year st' = days_in_year st /\
  arr_dyears st' = arr_dyears st /\ arr_days st' = arr_days st /\
  arr_rain st' = arr_rain st /\ arr_ru st' = arr_ru st /\
  arr_et st' = arr_et st /\ arr_ezone st' = arr_ezone st /\
  arr_headfirst st' = arr_headfirst st /\
  arr_drainfirst st' = arr_drainfirst st /\
  arr_leakfirst st' = arr_leakfirst st /\ arr_leaklast st' = arr_leaklast st.
Proof.
  unfold read_counts. intros H.
  destruct (Py.contains "TOTAL NUMBER OF LAYERS" line).
  - unbind H. injection H as <-. simpl. tauto.
  - destruct (Py.contains "TOTAL NUMBER OF SUBPROFILES" line).
    + unbind H. injection H as <-. simpl. tauto.
    + injection H as <-. tauto.
Qed.

Lemma daily_step_aligned st r st' :
  daligned st -> daily_step st r = Ok st' -> daligned st'.
Proof.
  unfold daily_step. intros Hal H. destruct r as [|line fields].
  { injection H as <-. exact Hal. }
  apply rbind_Ok in H as (st1 & H1 & H).
  apply read_counts_arrays in H1
    as (_ & _ & E0 & E1 & E2 & E3 & E4 & E5 & E6 & E7 & E8 & E9).
  assert (Hal1 : daligned st1).
  { unfold daligned in *. rewrite E0, E1, E2, E3, E4, E5, E6, E7, E8, E9.
    exact Hal. }
  clear E0 E1 E2 E3 E4 E5 E6 E7 E8 E9 Hal.
  destruct (Py.contains "DAILY OUTPUT FOR YEAR" line).
  - unbind H. injection H as <-. exact Hal1.
  - destruct (year st1) as [y|]; [|injection H as <-; exact Hal1].
    destruct (parse_day_row line) as [d|]; [|injection H as <-; exact Hal1].
    unbind H. injection H as <-.
    unfold daligned in *. simpl. rewrite !length_app. simpl. lia.
Qed.

Lemma daily_loop_aligned rows st st' :
  daligned st -> daily_loop st rows = Ok st' -> daligned st'.
Proof.
  revert st. induction rows as [|r rest IH]; simpl; intros st Hal H.
  - injection H as <-. exact Hal.
  - apply rbind_Ok in H as (st1 & H1 & H).
    eapply IH; [|exact H]. eapply daily_step_aligned; eauto.
Qed.

Lemma read_daily_lengths (csvread : list row) (t : daily) :
  read_daily_help_output csvread = Ok t ->
  let n := length (d_years t) in
  length (d_days t) = n /\ length (d_rain t) = n /\ length (d_runoff t) = n /\
  length (d_et t) = n /\ length (d_ezone t) = n /\
  length (d_head_first t) = n /\ length (d_drain_first t) = n /\
  length (d_leak_first t) = n /\ length (d_leak_last t) = n.
Proof.
  unfold read_daily_help_output. intros H.
  apply rbind_Ok in H as (a & Ha & H). injection H as <-.
  assert (Hal : daligned a).
  { eapply daily_loop_aligned; [|exact Ha]. unfold daligned. simpl. tauto. }
  unfold daily_table. simpl. rewrite !length_map. exact Hal.
Qed.

(** C9.  Every table the monthly parser or the daily parser returns has
    all its data arrays of the leading dimension of [years]: the number
    of rows for the six monthly arrays, the number of entries for the
    nine daily ones. *)
Theorem C9_tables_aligned_with_years (csvread : list row) :
  (forall t : monthly,
      read_monthly_help_output csvread = Ok t ->
      Forall (fun a : list (list float) => length a = length (m_years t))
             [m_rain t; m_runoff t; m_evapo t; m_sub_runoff t;
              m_percolation t; m_recharge t])
  /\ (forall t : daily,
      read_daily_help_output csvread = Ok t ->
      length (d_days t) = length (d_years t) /\
      Forall (fun a : list float => length a = length (d_years t))
             [d_rain t; d_runoff t; d_et t; d_ezone t; d_head_first t;
              d_drain_first t; d_leak_first t; d_leak_last t]).
Proof.
  split; intros t H.
  - apply read_monthly_lengths in H. simpl in H.
    destruct H as (H1 & H2 & H3 & H4 & H5 & H6).
    repeat constructor; assumption.
  - apply read_daily_lengths in H. simpl in H.
    destruct H as (H0 & H1 & H2 & H3 & H4 & H5 & H6 & H7 & H8).
    split; [assumption|]. repeat constructor; assumption.
Qed.

End Monthly.

(** *** The year context of the daily parser *)

Section Daily.
Context {float : Type} {B : Builtins float}.

Local Abbreviation dstate := (Processing.dstate float).
Local Abbreviation day_row := (Processing.day_row float).

(** The ten lists of the daily parser. *)
Definition arrays (st : dstate) :=
  (arr_dyears st, arr_days st, arr_rain st, arr_ru st, arr_et st,
   arr_ezone st, arr_headfirst st, arr_drainfirst st, arr_leakfirst st,
   arr_leaklast st).

(** The lists after the rows [ds] of the year [y] have been appended. *)
Definition arrays_app (st : dstate) (y : Z) (ds : list day_row) :=
  (arr_dyears st ++ map (fun _ => y) ds, arr_days st ++ map r_day ds,
   arr_rain st ++ map r_rain ds, arr_ru st ++ map r_ru ds,
   arr_et st ++ map r_et ds, arr_ezone st ++ map r_ezone ds,
   arr_headfirst st ++ map r_headfirst ds,
   arr_drainfirst st ++ map r_drainfirst ds,
   arr_leakfirst st ++ map r_leakfirst ds,
   arr_leaklast st ++ map r_leaklast ds).

(** A line whose counts, if it is labelled as one, can be read. *)
Definition counts_ok (line : string) : bool :=
  if Py.contains "TOTAL NUMBER OF LAYERS" line
     || Py.contains "TOTAL NUMBER OF SUBPROFILES" line
  then is_ok (do tok <- Py.last_item (Py.split line); int_of tok)
  else true.

(** A line that is no year marker and does not make the parser raise. *)
Definition plain_line (line : string) : bool :=
  counts_ok line && negb (Py.contains "DAILY OUTPUT FOR YEAR" line).

Definition plain_row (r : row) : bool :=
  match r with
  | [] => true
  | line :: _ => plain_line line
  end.

(** A valid data row: a plain line in the fixed-column layout. *)
Definition data_row (r : row) : option day_row :=
  match r with
  | [] => None
  | line :: _ => if plain_line line then parse_day_row line else None
  end.

Lemma read_counts_plain st line :
  counts_ok line = true ->
  exists st', read_counts st line = Ok st' /\
    year st' = year st /\ days_in_year st' = days_in_year st /\
    arrays st' = arrays st.
Proof.
  unfold counts_ok, read_counts. intros H.
  destruct (Py.contains "TOTAL NUMBER OF LAYERS" line); simpl in H.
  - destruct (Py.last_item (Py.split line)) as [tok|]; [|discriminate].
    simpl in *. destruct (int_of tok); [|discriminate]. simpl. eauto.
  - destruct (Py.contains "TOTAL NUMBER OF SUBPROFILES" line); simpl in H.
    + destruct (Py.last_item (Py.split line)) as [tok|]; [|discriminate].
      simpl in *. destruct (int_of tok); [|discriminate]. simpl. eauto.
    + eauto.
Qed.

Lemma plain_line_inv line :
  plain_line line = true ->
  counts_ok line = true /\ Py.contains "DAILY OUTPUT FOR YEAR" line = false.
Proof.
  unfold plain_line. intros [H1 H2]%andb_prop. split; [exact H1|].
  by destruct (Py.contains "DAILY OUTPUT FOR YEAR" line).
Qed.

(** Without a year context a plain row changes no list. *)
Lemma daily_step_idle st r :
  year st = None -> plain_row r = true ->
  exists st', daily_step st r = Ok st' /\ year st' = None /\
    arrays st' = arrays st.
Proof.
  intros Hy Hr. destruct r as [|line fields]; simpl.
  { eauto. }
  simpl in Hr. apply plain_line_inv in Hr as [Hc Hm].
  destruct (read_counts_plain st line Hc) as (st1 & -> & E1 & E2 & E3).
  simpl. rewrite Hm, E1, Hy. exists st1. rewrite E1, Hy. done.
Qed.

Lemma daily_loop_idle rows st :
  year st = None -> forallb plain_row rows = true ->
  exists st', daily_loop st rows = Ok st' /\ year st' = None /\
    arrays st' = arrays st.
Proof.
  revert st. induction rows as [|r rows IH]; simpl; intros st Hy Hr.
  { eauto. }
  apply andb_prop in Hr as [Hr Hrows].
  destruct (daily_step_idle st r Hy Hr) as (st1 & -> & Hy1 & E1). simpl.
  destruct (IH st1 Hy1 Hrows) as (st' & -> & Hy' & E'). exists st'.
  rewrite E', E1. done.
Qed.

(** A valid data row inside a year is appended; the row whose day is
    the last of the year clears the year context. *)
Lemma daily_step_data st r y diy d :
  year st = Some y -> days_in_year st = Some diy ->
  data_row r = Some d ->
  exists st', daily_step st r = Ok st' /\
    year st' = (if r_day d =? diy then None else Some y) /\
    days_in_year st' = Some diy /\
    arrays st' = arrays_app st y [d].
Proof.
  intros Hy Hd Hr. destruct r as [|line fields]; [discriminate|].
  simpl in Hr. destruct (plain_line line) eqn:Hp; [|discriminate].
  apply plain_line_inv in Hp as [Hc Hm].
  destruct (read_counts_plain st line Hc) as (st1 & E & E1 & E2 & E3).
  unfold daily_step. rewrite E. simpl. rewrite Hm, E1, Hy, Hr, E2, Hd. simpl.
  eexists. split; [reflexivity|]. simpl. rewrite E2, Hd.
  split; [reflexivity|]. split; [reflexivity|].
  unfold arrays, arrays_app in *. simpl.
  injection E3 as -> -> -> -> -> -> -> -> -> ->. reflexivity.
Qed.

Lemma arrays_app_app st st1 y ds1 ds2 :
  arrays st1 = arrays_app st y ds1 ->
  arrays_app st1 y ds2 = arrays_app st y (ds1 ++ ds2).
Proof.
  unfold arrays, arrays_app. intros [= -> -> -> -> -> -> -> -> -> ->].
  rewrite !map_app, !app_assoc. reflexivity.
Qed.

Lemma daily_loop_data rows st y diy ds :
  year st = Some y -> days_in_year st = Some diy ->
  map data_row rows = map Some ds ->
  Forall (fun d => r_day d <> diy) ds ->
  exists st', daily_loop st rows = Ok st' /\
    year st' = Some y /\ days_in_year st' = Some diy /\
    arrays st' = arrays_app st y ds.
Proof.
  revert st ds. induction rows as [|r rows IH]; intros st ds Hy Hd Hm Hne.
  - destruct ds; [|discriminate]. exists st. simpl.
    repeat (split; [done|]). unfold arrays, arrays_app. simpl.
    by rewrite !app_nil_r.
  - destruct ds as [|d ds]; [discriminate|]. simpl in Hm.
    injection Hm as Hr Hm. apply Forall_cons in Hne as [Hn Hne].
    destruct (daily_step_data st r y diy d Hy Hd Hr) as (st1 & E & Hy1 & Hd1 & A1).
    simpl. rewrite E. simpl.
    destruct (Z.eqb_spec (r_day d) diy) as [?|_]; [contradiction|].
    destruct (IH st1 ds Hy1 Hd1 Hm Hne) as (st' & -> & Hy' & Hd' & A').
    exists st'. repeat (split; [done|]).
    rewrite A'. by apply (arrays_app_app st st1 y [d] ds).
Qed.

Lemma daily_loop_app rows1 rows2 st :
  daily_loop st (rows1 ++ rows2) =
  do st' <- daily_loop st rows1; daily_loop st' rows2.
Proof.
  revert st. induction rows1 as [|r rows1 IH]; simpl; intros st; [reflexivity|].
  destruct (daily_step st r); simpl; [apply IH | reflexivity].
Qed.

(** The row of a year marker opens the year context. *)
Lemma daily_step_marker st mline mfields y :
  Py.contains "DAILY OUTPUT FOR YEAR" mline = true ->
  counts_ok mline = true ->
  (do tok <- Py.last_item (Py.split mline); int_of tok) = Ok y ->
  exists st', daily_step st (mline :: mfields) = Ok st' /\
    year st' = Some y /\ days_in_year st' = Some (Py.days_in_year y) /\
    arrays st' = arrays st.
Proof.
  intros Hm Hc Hy.
  destruct (read_counts_plain st mline Hc) as (st1 & E & _ & _ & E3).
  unfold daily_step. rewrite E. simpl. rewrite Hm.
  destruct (Py.last_item (Py.split mline)) as [tok|]; [|discriminate].
  simpl in *. rewrite Hy. simpl. eexists. split; [reflexivity|].
  simpl. repeat (split; [reflexivity|]). exact E3.
Qed.

Lemma days_in_year_pos y : 365 <= Py.days_in_year y <= 366.
Proof. unfold Py.days_in_year. destruct (Py.isleap y); lia. Qed.

(** The rows of a whole year, numbered from 1, leave the parser with
    no year context. *)
Lemma daily_loop_year rows st y ds :
  year st = Some y -> days_in_year st = Some (Py.days_in_year y) ->
  map data_row rows = map Some ds ->
  map r_day ds = map Z.of_nat (seq 1 (Z.to_nat (Py.days_in_year y))) ->
  exists st', daily_loop st rows = Ok st' /\ year st' = None /\
    arrays st' = arrays_app st y ds.
Proof.
  intros Hy Hd Hrows Hdays.
  pose proof (days_in_year_pos y) as Hpos.
  destruct (Z.to_nat (Py.days_in_year y)) as [|n] eqn:En; [lia|].
  rewrite seq_S, map_app in Hdays. simpl in Hdays.
  apply map_eq_app in Hdays as (ds0 & dl & -> & Hds0 & Hdl).
  destruct dl as [|dl [|? ?]]; try discriminate. injection Hdl as Hdl.
  rewrite map_app in Hrows.
  apply map_eq_app in Hrows as (rows0 & rl & -> & Hrows0 & Hrl).
  destruct rl as [|rl [|? ?]]; try discriminate. injection Hrl as Hrl.
  assert (Hne : Forall (fun d => r_day d <> Py.days_in_year y) ds0).
  { apply Forall_forall. intros d Hin Heq.
    assert (Hin' : In (r_day d) (map r_day ds0)).
    { apply in_map. by apply list_elem_of_In. }
    rewrite Hds0 in Hin'. apply in_map_iff in Hin' as (k & Hk & Hin').
    apply in_seq in Hin'. lia. }
  destruct (daily_loop_data rows0 st y _ ds0 Hy Hd Hrows0 Hne)
    as (st1 & E1 & Hy1 & Hd1 & A1).
  destruct (daily_step_data st1 rl y _ dl Hy1 Hd1 Hrl)
    as (st2 & E2 & Hy2 & _ & A2).
  rewrite daily_loop_app, E1. cbn [rbind daily_loop]. rewrite E2. cbn [rbind].
  exists st2. split; [reflexivity|]. split.
  - rewrite Hy2. destruct (Z.eqb_spec (r_day dl) (Py.days_in_year y)); [done|lia].
  - rewrite A2. by apply arrays_app_app.
Qed.

(** The Gregorian rule: a year is leap when it is a multiple of 4 and
    not of 100, or a multiple of 400. *)
Definition gregorian_leap (y : Z) : Prop :=
  y mod 4 = 0 /\ (y mod 100 <> 0 \/ y mod 400 = 0).

(** The year [y] has [n] days: 366 when it is leap, else 365. *)
Definition year_length (y : Z) (n : nat) : Prop :=
  (gregorian_leap y /\ n = 366%nat) \/ (~ gregorian_leap y /\ n = 365%nat).

Lemma days_in_year_gregorian (y : Z) (n : nat) :
  year_length y n -> Py.days_in_year y = Z.of_nat n.
Proof.
  unfold year_length, gregorian_leap, Py.days_in_year, Py.isleap.
  intros H.
  destruct (Z.eqb_spec (y mod 4) 0), (Z.eqb_spec (y mod 100) 0),
    (Z.eqb_spec (y mod 400) 0); cbn [negb orb andb];
    destruct H as [[H ->]|[H ->]]; try reflexivity; exfalso; tauto.
Qed.

(** C6.  The row of a year marker sets the number of days of its year
    by the Gregorian rule: 366 for a leap year, else 365.  Inside a
    year a valid data row is appended, and it ends the year context
    when its day number is that number of days, and only then: in a
    leap year the row of the day 365 does not.  Without a year context
    no row is taken as data, until a "DAILY OUTPUT FOR YEAR" row opens
    one.  So a file made of rows without a marker, a marker for [y], the
    valid data rows of the days 1 to [n], the number of days of [y], and
    rows without a marker has [n] entries, all tagged [y], one per data
    row, and none from the rows that follow. *)
Theorem C6_year_context_cleared_at_last_day :
  (forall (st : dstate) (mline : string) (mfields : list string) (y : Z) (n : nat),
      Py.contains "DAILY OUTPUT FOR YEAR" mline = true ->
      counts_ok mline = true ->
      (do tok <- Py.last_item (Py.split mline); int_of tok) = Ok y ->
      year_length y n ->
      exists st', daily_step st (mline :: mfields) = Ok st' /\
        year st' = Some y /\ days_in_year st' = Some (Z.of_nat n) /\
        arrays st' = arrays st)
  /\ (forall (st : dstate) (r : row) (y diy : Z) (d : day_row),
      year st = Some y -> days_in_year st = Some diy ->
      data_row r = Some d ->
      exists st', daily_step st r = Ok st' /\
        arrays st' = arrays_app st y [d] /\
        days_in_year st' = Some diy /\
        (r_day d = diy -> year st' = None) /\
        (r_day d <> diy -> year st' = Some y))
  /\ (forall (st : dstate) (rows : list row),
      year st = None -> forallb plain_row rows = true ->
      exists st', daily_loop st rows = Ok st' /\ year st' = None /\
        arrays st' = arrays st)
  /\ (forall (pre : list row) (mline : string) (mfields : list string) (y : Z)
        (n : nat) (data : list row) (ds : list day_row) (trailing : list row),
      forallb plain_row pre = true ->
      Py.contains "DAILY OUTPUT FOR YEAR" mline = true ->
      counts_ok mline = true ->
      (do tok <- Py.last_item (Py.split mline); int_of tok) = Ok y ->
      year_length y n ->
      map data_row data = map Some ds ->
      map r_day ds = map Z.of_nat (seq 1 n) ->
      forallb plain_row trailing = true ->
      read_daily_help_output (pre ++ (mline :: mfields) :: data ++ trailing)
      = Ok {| d_years := repeat (Py.uint16 y) n;
              d_days := map Py.uint16 (map Z.of_nat (seq 1 n));
              d_rain := map f32 (map r_rain ds);
              d_runoff := map f32 (map r_ru ds);
              d_et := map f32 (map r_et ds);
              d_ezone := map f32 (map r_ezone ds);
              d_head_first := map f32 (map r_headfirst ds);
              d_drain_first := map f32 (map r_drainfirst ds);
              d_leak_first := map f32 (map r_leakfirst ds);
              d_leak_last := map f32 (map r_leaklast ds) |}
      /\ length data = n).
Proof.
  split; [|split; [|split]].
  - intros st mline mfields y n Hm Hc Hy Hn.
    destruct (daily_step_marker st mline mfields y Hm Hc Hy)
      as (st' & E & Hy' & Hd' & A).
    exists st'. rewrite (days_in_year_gregorian y n Hn) in Hd'. done.
  - intros st r y diy d Hy Hd Hr.
    destruct (daily_step_data st r y diy d Hy Hd Hr) as (st' & E & Hy' & Hd' & A).
    exists st'. repeat (split; [assumption|]). rewrite Hy'.
    destruct (Z.eqb_spec (r_day d) diy); split; done.
  - intros st rows. apply daily_loop_idle.
  - intros pre mline mfields y n data ds trailing Hpre Hm Hc Hy Hn Hdata Hdays Htr.
    assert (Hlen : length data = n).
    { apply (f_equal length) in Hdata, Hdays.
      rewrite !length_map in Hdata. rewrite !length_map, length_seq in Hdays.
      congruence. }
    split; [|exact Hlen].
    pose proof (days_in_year_gregorian y n Hn) as Hdiy.
    destruct (daily_loop_idle pre init_dstate eq_refl Hpre) as (st1 & E1 & Hy1 & A1).
    destruct (daily_step_marker st1 mline mfields y Hm Hc Hy)
      as (st2 & E2 & Hy2 & Hd2 & A2).
    destruct (daily_loop_year data st2 y ds Hy2 Hd2 Hdata) as (st3 & E3 & Hy3 & A3).
    { by rewrite Hdiy, Nat2Z.id. }
    destruct (daily_loop_idle trailing st3 Hy3 Htr) as (st4 & E4 & _ & A4).
    unfold read_daily_help_output.
    rewrite daily_loop_app, E1. cbn [rbind].
    change (daily_loop st1 ((mline :: mfields) :: data ++ trailing))
      with (do st' <- daily_step st1 (mline :: mfields);
            daily_loop st' (data ++ trailing)).
    rewrite E2. cbn [rbind].
    rewrite daily_loop_app, E3. cbn [rbind]. rewrite E4. cbn [rbind].
    f_equal. rewrite A3 in A4. unfold arrays, arrays_app in *.
    simpl in A1.
    injection A1 as G0 G1 G2 G3 G4 G5 G6 G7 G8 G9.
    injection A2 as F0 F1 F2 F3 F4 F5 F6 F7 F8 F9.
    injection A4 as H0 H1 H2 H3 H4 H5 H6 H7 H8 H9.
    unfold daily_table.
    rewrite H0, H1, H2, H3, H4, H5, H6, H7, H8, H9.
    rewrite F0, F1, F2, F3, F4, F5, F6, F7, F8, F9.
    rewrite G0, G1, G2, G3, G4, G5, G6, G7, G8, G9.
    simpl. rewrite Hdays. f_equal.
    rewrite <- Hlen.
    apply (f_equal length) in Hdata. rewrite !length_map in Hdata.
    rewrite Hdata. clear. induction ds; simpl; congruence.
Qed.

End Daily.

End ProcessingFacts.

(** ** The batch runner *)

Module BatchFacts.
Import Processing.

Section Batch.
Context {float : Type} {B : Builtins float} {S : Simulator}.

Local Abbreviation monthly := (Processing.monthly float).
Local Abbreviation pc := (Processing.pc float).
Local Abbreviation task := (Processing.task float).
Local Abbreviation pool := (Processing.pool float).

(** What the output file of a cell holds, parsed: [None] when the tuple
    has no element 5, the file is not there or the parser raises. *)
Definition cell_result (w : world) (outparam : list string) : option monthly :=
  out ← outparam !! 5%nat;
  csvread ← files w !! out;
  match read_monthly_help_output csvread with
  | Ok r => Some r
  | Raise _ => None
  end.

(** *** One cell *)

Lemma run_help_singlecell_exists (w : world) (cellname : string)
  (outparam : list string) (out : string) (csvread : list row) :
  outparam !! 5%nat = Some out ->
  files w !! out = Some csvread ->
  run_help_singlecell (cellname, outparam) w =
  match read_monthly_help_output csvread with
  | Ok results =>
      ({| files := delete out (files w); sim_log := sim_log w |},
       Ok (cellname, results))
  | Raise e => (w, Raise e)
  end.
Proof.
  intros Hout Hfile.
  unfold run_help_singlecell, io_bind, io_lift, path_exists, read_rows,
    os_remove, io_ret.
  rewrite Hout. cbv beta iota. cbn [of_option].
  rewrite bool_decide_eq_true_2 by (rewrite Hfile; eauto).
  cbv beta iota. rewrite Hfile. cbn [of_option].
  destruct (read_monthly_help_output csvread); reflexivity.
Qed.

(** *** The pool *)

(** How many accesses a task has left, the parent's included. *)
Definition todo (p : pc) : nat :=
  match p with
  | PStart => 4
  | PSim => 4
  | PRead => 3
  | PRemove _ => 2
  | PReturn _ => 1
  | PDone => 0
  | PRaised _ => 0
  end.

(** A task of a batch whose output files were all there at the start
    [w0]: its file is still there until the task removes it, and the
    result it carries is the one read from that file. *)
Definition task_ok (w0 : world) (fs : gmap string (list row))
  (output : gmap string monthly) (t : task) : Prop :=
  exists out csvread r,
    t_param t !! 5%nat = Some out /\
    files w0 !! out = Some csvread /\
    read_monthly_help_output csvread = Ok r /\
    match t_pc t with
    | PStart | PRead => fs !! out = Some csvread
    | PRemove r' => r' = r /\ fs !! out = Some csvread
    | PReturn r' => r' = r
    | PDone => output !! t_cell t = Some r
    | PSim | PRaised _ => False
    end.

Record inv (w0 : world) (items : list item) (P : pool) : Prop := {
  inv_log : sim_log (p_world P) = sim_log w0;
  inv_items : (fun t : task => (t_cell t, t_param t)) <$> p_tasks P = items;
  inv_tasks : forall i t, p_tasks P !! i = Some t ->
              task_ok w0 (files (p_world P)) (p_output P) t;
  inv_output : forall c r, p_output P !! c = Some r ->
               exists i t, p_tasks P !! i = Some t /\ t_cell t = c /\ t_pc t = PDone
}.

Definition out_of (it : item) : option string := it.2 !! 5%nat.

Lemma items_insert (l : list task) i t p' :
  l !! i = Some t ->
  (fun t : task => (t_cell t, t_param t)) <$>
      (<[i := {| t_cell := t_cell t; t_param := t_param t; t_pc := p' |}]> l)
  = (fun t : task => (t_cell t, t_param t)) <$> l.
Proof.
  intros H.
  rewrite list_fmap_insert. simpl. apply list_insert_id.
  rewrite list_lookup_fmap, H. reflexivity.
Qed.

Lemma item_at (items : list item) (P : pool) i t :
  (fun t : task => (t_cell t, t_param t)) <$> p_tasks P = items ->
  p_tasks P !! i = Some t -> items !! i = Some (t_cell t, t_param t).
Proof.
  intros <- H.
  rewrite list_lookup_fmap, H. reflexivity.
Qed.

(** Two tasks of a batch with distinct output paths and the same path
    are one task. *)
Lemma same_out (items : list item) (P : pool) i j t u out :
  NoDup (out_of <$> items) ->
  (fun t : task => (t_cell t, t_param t)) <$> p_tasks P = items ->
  p_tasks P !! i = Some t -> p_tasks P !! j = Some u ->
  t_param t !! 5%nat = Some out -> t_param u !! 5%nat = Some out -> i = j.
Proof.
  intros Hnd Hit Hi Hj Ht Hu.
  pose proof (item_at items P i t Hit Hi) as Ii.
  pose proof (item_at items P j u Hit Hj) as Ij.
  eapply NoDup_lookup; [exact Hnd| |].
  - rewrite list_lookup_fmap, Ii. simpl. unfold out_of. simpl. rewrite Ht. reflexivity.
  - rewrite list_lookup_fmap, Ij. simpl. unfold out_of. simpl. rewrite Hu. reflexivity.
Qed.

Lemma same_cell (items : list item) (P : pool) i j t u :
  NoDup (fst <$> items) ->
  (fun t : task => (t_cell t, t_param t)) <$> p_tasks P = items ->
  p_tasks P !! i = Some t -> p_tasks P !! j = Some u ->
  t_cell t = t_cell u -> i = j.
Proof.
  intros Hnd Hit Hi Hj Hc.
  pose proof (item_at items P i t Hit Hi) as Ii.
  pose proof (item_at items P j u Hit Hj) as Ij.
  eapply NoDup_lookup; [exact Hnd| |].
  - rewrite list_lookup_fmap, Ii. reflexivity.
  - rewrite list_lookup_fmap, Ij. simpl. by rewrite Hc.
Qed.

Lemma task_ok_other w0 fs fs' (O O' : gmap string monthly) (u : task) :
  task_ok w0 fs O u ->
  (forall out, t_param u !! 5%nat = Some out -> fs' !! out = fs !! out) ->
  O' !! t_cell u = O !! t_cell u ->
  task_ok w0 fs' O' u.
Proof.
  intros (out & csvread & r & Hout & Hf & Hr & Hpc) Hfs HO.
  exists out, csvread, r. repeat (split; [assumption|]).
  destruct (t_pc u); rewrite ?Hfs, ?HO by assumption; assumption.
Qed.

(** Replacing the task [i] by one that is fine keeps the pool fine, when
    the files and the results of the other tasks are not touched. *)
Lemma inv_update w0 items (P : pool) i t p' w' O' :
  inv w0 items P ->
  p_tasks P !! i = Some t ->
  sim_log w' = sim_log w0 ->
  task_ok w0 (files w') O'
    {| t_cell := t_cell t; t_param := t_param t; t_pc := p' |} ->
  (forall j u out, j <> i -> p_tasks P !! j = Some u ->
     t_param u !! 5%nat = Some out ->
     files w' !! out = files (p_world P) !! out) ->
  (forall j u, j <> i -> p_tasks P !! j = Some u ->
     O' !! t_cell u = p_output P !! t_cell u) ->
  (forall c r, O' !! c = Some r ->
     (c = t_cell t /\ p' = PDone) \/ (p_output P !! c = Some r)) ->
  (t_pc t = PDone -> p' = PDone) ->
  inv w0 items
    {| p_world := w';
       p_tasks := <[i := {| t_cell := t_cell t; t_param := t_param t; t_pc := p' |}]> (p_tasks P);
       p_output := O' |}.
Proof.
  intros [Hlog Hit Htasks Hout] Hi Hlog' Hnew Hfs HO Hdom Hdone.
  pose proof (lookup_lt_Some _ _ _ Hi) as Hlt.
  split; simpl.
  - exact Hlog'.
  - rewrite items_insert; assumption.
  - intros j u Hj. apply list_lookup_insert_Some in Hj as [(-> & <- & _)|[Hne Hj]].
    + exact Hnew.
    + eapply task_ok_other; [eauto | |].
      * intros out Ho. eapply Hfs; eauto.
      * eapply HO; eauto.
  - intros c r Hc. destruct (Hdom c r Hc) as [[-> ->]|Hold].
    + exists i, {| t_cell := t_cell t; t_param := t_param t; t_pc := PDone |}.
      split; [|done]. by rewrite list_lookup_insert_eq.
    + destruct (Hout c r Hold) as (j & u & Hj & Hcu & Hpu).
      destruct (decide (j = i)) as [->|Hne].
      * rewrite Hi in Hj. injection Hj as <-.
        exists i, {| t_cell := t_cell t; t_param := t_param t; t_pc := PDone |}.
        rewrite (Hdone Hpu). split; [|done]. by rewrite list_lookup_insert_eq.
      * exists j, u. split; [|done]. by rewrite list_lookup_insert_ne.
Qed.

Lemma inv_step w0 items (P Q : pool) :
  NoDup (out_of <$> items) -> NoDup (fst <$> items) ->
  inv w0 items P -> pool_step P Q -> inv w0 items Q.
Proof.
  intros Hno Hnc HI Hstep.
  destruct Hstep as [i t p' w' P Hi Hs | i t r0 P Hi Hpc].
  - destruct (inv_tasks _ _ _ HI i t Hi) as (out & csvread & r & Hout & Hf & Hr & Hpc).
    unfold task_step in Hs. rewrite Hout in Hs.
    destruct (t_pc t) eqn:Epc; try discriminate; try contradiction.
    + (* PStart *)
      rewrite bool_decide_eq_true_2 in Hs by (rewrite Hpc; eauto).
      injection Hs as <- <-.
      apply inv_update; try assumption; try done.
      * apply HI.
      * exists out, csvread, r. simpl. done.
      * intros c r1 Hc. by right.
      * rewrite Epc. discriminate.
    + (* PRead *)
      rewrite Hpc, Hr in Hs. injection Hs as <- <-.
      apply inv_update; try assumption; try done.
      * apply HI.
      * exists out, csvread, r. simpl. done.
      * intros c r1 Hc. by right.
      * rewrite Epc. discriminate.
    + (* PRemove *)
      destruct Hpc as [-> Hpc]. unfold os_remove in Hs. rewrite Hpc in Hs.
      injection Hs as <- <-.
      apply inv_update; try assumption; try done.
      * apply HI.
      * exists out, csvread, r. simpl. done.
      * intros j u out' Hne Hj Hout'. simpl. apply lookup_delete_ne.
        intros ->. apply Hne.
        eapply (same_out items P j i u t out'); eauto. apply HI.
      * intros c r1 Hc. by right.
      * rewrite Epc. discriminate.
  - destruct (inv_tasks _ _ _ HI i t Hi) as (out & csvread & r & Hout & Hf & Hr & Hpc').
    rewrite Hpc in Hpc'. subst r0.
    destruct P as [w tasks O]. simpl in *.
    apply (inv_update w0 items {| p_world := w; p_tasks := tasks; p_output := O |}
             i t PDone w (<[t_cell t := r]> O)); simpl; try assumption; try done.
    + apply HI.
    + exists out, csvread, r. simpl. repeat (split; [assumption|]).
      apply lookup_insert_eq.
    + intros j u Hne Hj. apply lookup_insert_ne. intros Hc. apply Hne.
      symmetry in Hc.
      eapply (same_cell items {| p_world := w; p_tasks := tasks; p_output := O |}
                j i u t); eauto. apply HI.
    + intros c r1 Hc. apply lookup_insert_Some in Hc as [[<- <-]|[_ Hc]]; auto.
Qed.

Lemma inv_steps w0 items (P Q : pool) :
  NoDup (out_of <$> items) -> NoDup (fst <$> items) ->
  inv w0 items P -> pool_steps P Q -> inv w0 items Q.
Proof.
  intros Hno Hnc HI Hsteps. induction Hsteps; [assumption|].
  eapply inv_step; [exact Hno | exact Hnc | apply IHHsteps; exact HI | eassumption].
Qed.

Lemma pool_steps_trans (P Q R : pool) :
  pool_steps P Q -> pool_steps Q R -> pool_steps P R.
Proof.
  intros HPQ HQR. induction HQR; [assumption|].
  eapply steps_step; [|eassumption]. by apply IHHQR.
Qed.

(** The accesses the pool has left. *)
Definition measure (P : pool) : nat :=
  sum_list_with (fun t : task => todo (t_pc t)) (p_tasks P).

Lemma sum_list_with_insert (f : task -> nat) (l : list task) i a b :
  l !! i = Some a ->
  (sum_list_with f (<[i := b]> l) + f a = sum_list_with f l + f b)%nat.
Proof.
  revert i. induction l as [|x l IH]; intros [|i] H; simpl in *; try discriminate.
  - injection H as ->. lia.
  - specialize (IH i H). lia.
Qed.

Lemma some_task_left (l : list task) :
  Forall (fun t => t_pc t = PDone) l \/
  exists i t, l !! i = Some t /\ t_pc t <> PDone.
Proof.
  induction l as [|t l [IH|(i & u & Hi & Hu)]].
  - left. constructor.
  - destruct (t_pc t) eqn:E;
      try (right; exists 0%nat, t; split; [reflexivity | rewrite E; discriminate]).
    left. by constructor.
  - right. exists (Datatypes.S i), u. done.
Qed.

(** A pool that is fine and not done can move, and has less left to do
    afterwards. *)
Lemma progress w0 items (P : pool) i t :
  inv w0 items P ->
  p_tasks P !! i = Some t -> t_pc t <> PDone ->
  exists Q, pool_step P Q /\ (measure Q < measure P)%nat.
Proof.
  intros HI Hi Hnd.
  destruct (inv_tasks _ _ _ HI i t Hi) as (out & csvread & r & Hout & Hf & Hr & Hpc).
  assert (Hless : forall p' w' O',
    (todo p' < todo (t_pc t))%nat ->
    (measure {| p_world := w';
                p_tasks := <[i := {| t_cell := t_cell t; t_param := t_param t; t_pc := p' |}]> (p_tasks P);
                p_output := O' |} < measure P)%nat).
  { intros p' w' O' Hlt. unfold measure. simpl.
    pose proof (sum_list_with_insert (fun t : task => todo (t_pc t)) (p_tasks P) i t
                  {| t_cell := t_cell t; t_param := t_param t; t_pc := p' |} Hi) as E.
    simpl in E. lia. }
  destruct (t_pc t) eqn:Epc; try contradiction.
  - eexists. split.
    + eapply step_worker; [exact Hi|]. unfold task_step. rewrite Epc, Hout.
      rewrite bool_decide_eq_true_2 by (rewrite Hpc; eauto). reflexivity.
    + apply Hless. simpl. lia.
  - eexists. split.
    + eapply step_worker; [exact Hi|]. unfold task_step. rewrite Epc, Hout, Hpc, Hr.
      reflexivity.
    + apply Hless. simpl. lia.
  - destruct Hpc as [-> Hpc]. eexists. split.
    + eapply step_worker; [exact Hi|]. unfold task_step, os_remove.
      rewrite Epc, Hout, Hpc. reflexivity.
    + apply Hless. simpl. lia.
  - eexists. split.
    + eapply step_collect; [exact Hi | exact Epc].
    + apply Hless. simpl. lia.
Qed.

Lemma runs_to_the_end w0 items (n : nat) (P : pool) :
  NoDup (out_of <$> items) -> NoDup (fst <$> items) ->
  (measure P <= n)%nat -> inv w0 items P ->
  exists Q, pool_steps P Q /\ all_done Q.
Proof.
  intros Hno Hnc. revert P. induction n as [|n IH]; intros P Hm HI.
  - destruct (some_task_left (p_tasks P)) as [Hd|(i & t & Hi & Ht)].
    + exists P. split; [constructor | exact Hd].
    + destruct (progress w0 items P i t HI Hi Ht) as (Q & _ & Hlt). lia.
  - destruct (some_task_left (p_tasks P)) as [Hd|(i & t & Hi & Ht)].
    + exists P. split; [constructor | exact Hd].
    + destruct (progress w0 items P i t HI Hi Ht) as (Q & Hstep & Hlt).
      destruct (IH Q) as (R & HQR & Hd); [lia | by eapply inv_step|].
      exists R. split; [|exact Hd].
      eapply pool_steps_trans; [|exact HQR].
      eapply steps_step; [constructor | exact Hstep].
Qed.

(** In a pool that is fine no task has raised. *)
Lemma finished_all_done w0 items (P : pool) :
  inv w0 items P -> finished P -> all_done P.
Proof.
  intros HI Hfin. unfold finished, all_done in *.
  apply Forall_lookup. intros i t Hi.
  pose proof (proj1 (Forall_lookup _ _) Hfin i t Hi) as [Hd|[e He]]; [exact Hd|].
  destruct (inv_tasks _ _ _ HI i t Hi) as (out & csvread & r & _ & _ & _ & Hpc).
  rewrite He in Hpc. contradiction.
Qed.

(** *** A batch over a dict of cells *)

Section Dict.
Variable cellparams : gmap string (list string).
Variable w : world.

(** Every output file is there and can be parsed. *)
Hypothesis outputs_exist :
  forall c prm, cellparams !! c = Some prm -> is_Some (cell_result w prm).

(** No two cells write to the same file. *)
Hypothesis outputs_distinct :
  forall c1 c2 p1 p2,
    cellparams !! c1 = Some p1 -> cellparams !! c2 = Some p2 ->
    p1 !! 5%nat = p2 !! 5%nat -> c1 = c2.

Lemma dict_cells_NoDup : NoDup (fst <$> map_to_list cellparams).
Proof. apply NoDup_fst_map_to_list. Qed.

Lemma dict_outs_NoDup : NoDup (out_of <$> map_to_list cellparams).
Proof.
  apply NoDup_fmap_2_strong; [|apply NoDup_map_to_list].
  intros [c1 p1] [c2 p2] H1 H2 Ho.
  apply elem_of_map_to_list in H1, H2. unfold out_of in Ho. simpl in Ho.
  assert (c1 = c2) as -> by eauto. congruence.
Qed.

Lemma initial_inv : inv w (map_to_list cellparams) (initial_pool cellparams w).
Proof.
  split; simpl.
  - reflexivity.
  - rewrite <- list_fmap_compose. rewrite <- (list_fmap_id (map_to_list cellparams)) at 2.
    apply list_fmap_ext. intros i [c prm] _. reflexivity.
  - intros i t Hi. rewrite list_lookup_fmap in Hi.
    destruct (map_to_list cellparams !! i) as [[c prm]|] eqn:E; [|discriminate].
    injection Hi as <-. simpl.
    assert (Hc : cellparams !! c = Some prm).
    { apply elem_of_map_to_list. eapply list_elem_of_lookup_2. exact E. }
    destruct (outputs_exist c prm Hc) as [r Hr]. unfold cell_result in Hr.
    destruct (prm !! 5%nat) as [out|] eqn:Eo; [|discriminate]. simpl in Hr.
    destruct (files w !! out) as [csvread|] eqn:Ef; [|discriminate]. simpl in Hr.
    destruct (read_monthly_help_output csvread) as [r'|] eqn:Er; [|discriminate].
    exists out, csvread, r'. simpl. done.
  - intros c r Hc. rewrite lookup_empty in Hc. discriminate.
Qed.

Lemma done_output (P : pool) :
  inv w (map_to_list cellparams) P -> all_done P ->
  p_output P = omap (cell_result w) cellparams.
Proof.
  intros HI Hd. apply map_eq. intros c. rewrite lookup_omap.
  destruct (cellparams !! c) as [prm|] eqn:Ec; simpl.
  - apply elem_of_map_to_list in Ec.
    apply list_elem_of_lookup_1 in Ec as [i Hi].
    rewrite <- (inv_items _ _ _ HI) in Hi. rewrite list_lookup_fmap in Hi.
    destruct (p_tasks P !! i) as [t|] eqn:Et; [|discriminate].
    injection Hi as <- <-.
    destruct (inv_tasks _ _ _ HI i t Et) as (out & csvread & r & Hout & Hf & Hr & Hpc).
    rewrite (proj1 (Forall_lookup _ _) Hd i t Et) in Hpc.
    rewrite Hpc. unfold cell_result. rewrite Hout. simpl. rewrite Hf. simpl.
    by rewrite Hr.
  - destruct (p_output P !! c) as [r|] eqn:Eo; [|reflexivity].
    destruct (inv_output _ _ _ HI c r Eo) as (i & t & Hi & Hc & _).
    pose proof (item_at _ P i t (inv_items _ _ _ HI) Hi) as Hit.
    apply list_elem_of_lookup_2 in Hit. apply elem_of_map_to_list in Hit.
    rewrite Hc in Hit. congruence.
Qed.

Lemma results_for_all_cells :
  dom (omap (cell_result w) cellparams) = dom cellparams.
Proof.
  apply set_eq. intros c. rewrite !elem_of_dom, lookup_omap. split.
  - intros [r Hr]. destruct (cellparams !! c); [eauto | discriminate].
  - intros [prm Hp]. rewrite Hp. simpl. eauto.
Qed.

End Dict.

(** C3.  A cell whose output file is there is not simulated: the file
    is parsed and removed, and the parsed table returned (or the
    parser's exception raised, with the file left in place).  So in a
    batch over cells whose output files are all there, can all be
    parsed and are pairwise distinct, the simulator is never called,
    whatever the order in which the workers proceed; when no task is
    left the output holds the table of every cell; and the batch does
    get there. *)
Theorem C3_existing_outputs_skip_simulator :
  (forall (w : world) (cellname : string) (outparam : list string)
          (out : string) (csvread : list row),
      outparam !! 5%nat = Some out ->
      files w !! out = Some csvread ->
      run_help_singlecell (cellname, outparam) w =
      match read_monthly_help_output csvread with
      | Ok results =>
          ({| files := delete out (files w); sim_log := sim_log w |},
           Ok (cellname, results))
      | Raise e => (w, Raise e)
      end)
  /\ (forall (cellparams : gmap string (list string)) (w : world),
      (forall c prm, cellparams !! c = Some prm -> is_Some (cell_result w prm)) ->
      (forall c1 c2 p1 p2,
          cellparams !! c1 = Some p1 -> cellparams !! c2 = Some p2 ->
          p1 !! 5%nat = p2 !! 5%nat -> c1 = c2) ->
      (forall P : pool,
          pool_steps (initial_pool cellparams w) P ->
          sim_log (p_world P) = sim_log w /\
          (finished P ->
           all_done P /\
           p_output P = omap (cell_result w) cellparams /\
           dom (p_output P) = dom cellparams))
      /\ (exists P : pool,
          pool_steps (initial_pool cellparams w) P /\ all_done P)).
Proof.
  split.
  { intros. by apply run_help_singlecell_exists. }
  intros cellparams w Hex Hdist.
  pose proof (dict_cells_NoDup cellparams) as Hnc.
  pose proof (dict_outs_NoDup cellparams Hdist) as Hno.
  pose proof (initial_inv cellparams w Hex) as HI0.
  split.
  - intros P Hsteps.
    pose proof (inv_steps _ _ _ _ Hno Hnc HI0 Hsteps) as HI.
    split; [apply HI|]. intros Hfin.
    pose proof (finished_all_done _ _ _ HI Hfin) as Hd.
    pose proof (done_output cellparams w P HI Hd) as Eo.
    split; [exact Hd|]. split; [exact Eo|].
    rewrite Eo. by apply results_for_all_cells.
  - eapply runs_to_the_end; eauto.
Qed.

End Batch.

(** *** The theorem on two cells *)

Lemma sample_cell_results :
  cell_result (B := Concrete.builtins) Samples.world0 Samples.outparam_a
    = Some Samples.monthly_expected /\
  cell_result (B := Concrete.builtins) Samples.world0 Samples.outparam_b
    = Some Samples.monthly_expected.
Proof. split; vm_compute; reflexivity. Defined.

Lemma C3_witness :
  let B := Concrete.builtins in
  let S := Concrete.idle_simulator in
  (forall P : pool Concrete.xfloat,
      pool_steps (initial_pool Samples.cellparams Samples.world0) P ->
      sim_log (p_world P) = sim_log Samples.world0 /\
      (finished P ->
       all_done P /\
       p_output P = omap (cell_result Samples.world0) Samples.cellparams /\
       dom (p_output P) = dom Samples.cellparams))
  /\ (exists P : pool Concrete.xfloat,
      pool_steps (initial_pool Samples.cellparams Samples.world0) P /\ all_done P).
Proof.
  intros B S.
  apply (proj2 (C3_existing_outputs_skip_simulator (B := B) (S := S))
           Samples.cellparams Samples.world0).
  - intros c prm H. unfold Samples.cellparams in H.
    apply lookup_insert_Some in H as [[_ <-]|[_ H]].
    { exists Samples.monthly_expected. exact (proj1 sample_cell_results). }
    apply lookup_insert_Some in H as [[_ <-]|[_ H]].
    { exists Samples.monthly_expected. exact (proj2 sample_cell_results). }
    rewrite lookup_empty in H. discriminate.
  - intros c1 c2 p1 p2 H1 H2 Ho. unfold Samples.cellparams in H1, H2.
    apply lookup_insert_Some in H1 as [[<- <-]|[_ H1]];
      [|apply lookup_insert_Some in H1 as [[<- <-]|[_ H1]];
        [|rewrite lookup_empty in H1; discriminate]];
      (apply lookup_insert_Some in H2 as [[<- <-]|[_ H2]];
       [|apply lookup_insert_Some in H2 as [[<- <-]|[_ H2]];
         [|rewrite lookup_empty in H2; discriminate]]);
      first [reflexivity | vm_compute in Ho; discriminate Ho].
Defined.

End BatchFacts.

Module ProcessingExamples.
Import Processing ProcessingFacts Samples.

(** *** The theorems on the sample report *)

Lemma sample_title : title_of (B := Concrete.builtins)
  "  MONTHLY TOTALS (IN INCHES) FOR YEAR 2001" 2001.
Proof. split; vm_compute; reflexivity. Defined.

Lemma sample_body : Forall not_separator Samples.monthly_body.
Proof. unfold Samples.monthly_body. forall_compute. Defined.

(** The rows of the three other sample blocks. *)
Lemma pond_body : Forall not_separator monthly_body_pond.
Proof. unfold monthly_body_pond, monthly_body. forall_compute. Defined.

Lemma gap_body : Forall not_separator monthly_body_gap.
Proof. unfold monthly_body_gap, monthly_body. forall_compute. Defined.

Lemma drain_body : Forall not_separator monthly_body_drain.
Proof. unfold monthly_body_drain, monthly_body. forall_compute. Defined.

(** The last line with "PERCOLATION" of the block of the pond also
    contains "RUNOFF", which the chain tests first: its numbers go to
    [runoff], and [recharge] keeps the numbers of the pair before. *)
Lemma C4_counterexample :
  ~ recharge_of_last_percolation (B := Concrete.builtins)
      monthly_title monthly_body_pond monthly_separator monthly_tail.
Proof.
  intros H. specialize (H monthly_table_pond).
  vm_compute in H.
  destruct (H eq_refl) as (vp & vr & _ & Hr & _ & E).
  injection E as <-. discriminate Hr.
Qed.

(** The first line with "LATERAL DRAINAGE" is passed over when a blank
    row follows it, and the next one gives [sub-runoff]; and a line that
    also contains "RUNOFF" gives [runoff], and leaves [sub-runoff] at
    its zeros. *)
Lemma C5_counterexample :
  ~ subrunoff_of_first_lateral (B := Concrete.builtins)
      monthly_title monthly_body_gap monthly_separator monthly_tail
  /\ ~ subrunoff_of_first_lateral (B := Concrete.builtins)
      monthly_title monthly_body_drain monthly_separator monthly_tail.
Proof.
  split; intros H.
  - specialize (H monthly_table_gap).
    vm_compute in H.
    destruct (H eq_refl) as (v & Hv & E).
    injection E as <-. discriminate Hv.
  - specialize (H monthly_table_drain).
    vm_compute in H.
    destruct (H eq_refl) as (v & Hv & E).
    injection E as <-. discriminate Hv.
Qed.

(** On the sample block, [percolation] is read from the first
    "PERCOLATION" pair and [recharge] from the last one; on the block of
    the pond both are read from the first one, the only pair that
    reaches the branch. *)
Lemma C4_witness :
  let B := Concrete.builtins in
  let sep := " *******************************************************************" in
  (exists st',
     outer_loop init_mstate init_locals
       (monthly_title :: monthly_body ++ [sep] :: monthly_tail) = Ok st' /\
     arr_years st' = [2001] /\
     vstack_percol st' = [tenths [5; 5; 5; 5; 5; 5; 6; 6; 6; 6; 6; 6]] /\
     vstack_rechg st' = [hundredths [25; 25; 25; 25; 25; 25; 75; 75; 75; 75; 75; 75]] /\
     reads_as
       (words_of (" PERCOLATION/LEAKAGE THROUGH 0.5 0.5 0.5 0.5 0.5 0.5",
                  "   LAYER  3                  0.6 0.6 0.6 0.6 0.6 0.6"))
       (tenths [5; 5; 5; 5; 5; 5; 6; 6; 6; 6; 6; 6]) /\
     reads_as
       (words_of (" PERCOLATION/LEAKAGE THROUGH 0.25 0.25 0.25 0.25 0.25 0.25",
                  "   LAYER  5                  0.75 0.75 0.75 0.75 0.75 0.75"))
       (hundredths [25; 25; 25; 25; 25; 25; 75; 75; 75; 75; 75; 75]))
  /\ (exists st',
     outer_loop init_mstate init_locals
       (monthly_title :: monthly_body_pond ++ [sep] :: monthly_tail) = Ok st' /\
     arr_years st' = [2001] /\
     vstack_percol st' = [tenths [5; 5; 5; 5; 5; 5; 6; 6; 6; 6; 6; 6]] /\
     vstack_rechg st' = [tenths [5; 5; 5; 5; 5; 5; 6; 6; 6; 6; 6; 6]] /\
     reads_as
       (words_of (" PERCOLATION/LEAKAGE THROUGH 0.5 0.5 0.5 0.5 0.5 0.5",
                  "   LAYER  3                  0.6 0.6 0.6 0.6 0.6 0.6"))
       (tenths [5; 5; 5; 5; 5; 5; 6; 6; 6; 6; 6; 6])).
Proof.
  intros B sep. split.
  - destruct (C4_percolation_first_recharge_last (B := B) init_mstate init_locals
                "  MONTHLY TOTALS (IN INCHES) FOR YEAR 2001" [] 2001 monthly_body
                sep [] monthly_tail sample_title
                sample_body eq_refl) as [E H].
    destruct (close_block (open_block_state init_mstate 2001)
                (block_locals init_locals monthly_body [sep])) as [st'|e] eqn:Hc;
      [|vm_compute in Hc; discriminate Hc].
    destruct (H st' eq_refl) as (Hy & vp & vr & Hp & Hr & Hm).
    exists st'. split; [exact E|].
    vm_compute in Hc. injection Hc as <-.
    injection Hp as <-. injection Hr as <-.
    split; [exact Hy|]. split; [reflexivity|]. split; [reflexivity|].
    vm_compute in Hm. vm_compute. split; [exact (proj1 Hm) | exact (proj1 (proj2 Hm))].
  - destruct (C4_percolation_first_recharge_last (B := B) init_mstate init_locals
                "  MONTHLY TOTALS (IN INCHES) FOR YEAR 2001" [] 2001 monthly_body_pond
                sep [] monthly_tail sample_title
                pond_body eq_refl) as [E H].
    destruct (close_block (open_block_state init_mstate 2001)
                (block_locals init_locals monthly_body_pond [sep])) as [st'|e] eqn:Hc;
      [|vm_compute in Hc; discriminate Hc].
    destruct (H st' eq_refl) as (Hy & vp & vr & Hp & Hr & Hm).
    exists st'. split; [exact E|].
    vm_compute in Hc. injection Hc as <-.
    injection Hp as <-. injection Hr as <-.
    split; [exact Hy|]. split; [reflexivity|]. split; [reflexivity|].
    vm_compute in Hm. vm_compute. exact (proj1 Hm).
Defined.

(** [sub-runoff] is read from the first "LATERAL DRAINAGE" pair of the
    sample block, from the second "LATERAL DRAINAGE" line of the block
    with a blank row after the first, and is twelve zeros in the block
    whose only such pair goes to the runoff. *)
Lemma C5_witness :
  let B := Concrete.builtins in
  let sep := " *******************************************************************" in
  (exists st',
     outer_loop init_mstate init_locals
       (monthly_title :: monthly_body ++ [sep] :: monthly_tail) = Ok st' /\
     arr_years st' = [2001] /\
     vstack_subrunoff st' = [hundredths [1; 2; 3; 4; 5; 6; 7; 8; 9; 10; 11; 12]] /\
     reads_as
       (words_of (" LATERAL DRAINAGE COLLECTED  0.01 0.02 0.03 0.04 0.05 0.06",
                  "   FROM LAYER  2             0.07 0.08 0.09 0.10 0.11 0.12"))
       (hundredths [1; 2; 3; 4; 5; 6; 7; 8; 9; 10; 11; 12]))
  /\ (exists st',
     outer_loop init_mstate init_locals
       (monthly_title :: monthly_body_gap ++ [sep] :: monthly_tail) = Ok st' /\
     arr_years st' = [2001] /\
     vstack_subrunoff st'
     = [hundredths [901; 902; 903; 904; 905; 906; 907; 908; 909; 910; 911; 912]] /\
     reads_as
       (words_of (" LATERAL DRAINAGE COLLECTED  9.01 9.02 9.03 9.04 9.05 9.06",
                  "   FROM LAYER  4             9.07 9.08 9.09 9.10 9.11 9.12"))
       (hundredths [901; 902; 903; 904; 905; 906; 907; 908; 909; 910; 911; 912]))
  /\ (exists st',
     outer_loop init_mstate init_locals
       (monthly_title :: monthly_body_drain ++ [sep] :: monthly_tail) = Ok st' /\
     arr_years st' = [2001] /\
     vstack_subrunoff st' = [repeat (Concrete.Fin 0 1) 12]).
Proof.
  intros B sep. split; [|split].
  - destruct (C5_lateral_drainage_first_or_zeros (B := B) init_mstate init_locals
                "  MONTHLY TOTALS (IN INCHES) FOR YEAR 2001" [] 2001 monthly_body
                sep [] monthly_tail sample_title
                sample_body eq_refl) as [E H].
    destruct (close_block (open_block_state init_mstate 2001)
                (block_locals init_locals monthly_body [sep])) as [st'|e] eqn:Hc;
      [|vm_compute in Hc; discriminate Hc].
    destruct (H st' eq_refl) as (Hy & v & Hv & Hm).
    exists st'. split; [exact E|].
    vm_compute in Hc. injection Hc as <-. injection Hv as <-.
    split; [exact Hy|]. split; [reflexivity|].
    vm_compute in Hm. vm_compute. exact Hm.
  - destruct (C5_lateral_drainage_first_or_zeros (B := B) init_mstate init_locals
                "  MONTHLY TOTALS (IN INCHES) FOR YEAR 2001" [] 2001 monthly_body_gap
                sep [] monthly_tail sample_title
                gap_body eq_refl) as [E H].
    destruct (close_block (open_block_state init_mstate 2001)
                (block_locals init_locals monthly_body_gap [sep])) as [st'|e] eqn:Hc;
      [|vm_compute in Hc; discriminate Hc].
    destruct (H st' eq_refl) as (Hy & v & Hv & Hm).
    exists st'. split; [exact E|].
    vm_compute in Hc. injection Hc as <-. injection Hv as <-.
    split; [exact Hy|]. split; [reflexivity|].
    vm_compute in Hm. vm_compute. exact Hm.
  - destruct (C5_lateral_drainage_first_or_zeros (B := B) init_mstate init_locals
                "  MONTHLY TOTALS (IN INCHES) FOR YEAR 2001" [] 2001 monthly_body_drain
                sep [] monthly_tail sample_title
                drain_body eq_refl) as [E H].
    destruct (close_block (open_block_state init_mstate 2001)
                (block_locals init_locals monthly_body_drain [sep])) as [st'|e] eqn:Hc;
      [|vm_compute in Hc; discriminate Hc].
    destruct (H st' eq_refl) as (Hy & v & Hv & Hm).
    exists st'. split; [exact E|].
    vm_compute in Hm. subst v.
    vm_compute in Hc. injection Hc as <-.
    split; [exact Hy|]. reflexivity.
Defined.
(** Two leap years and two common years. *)
Lemma leap_2004 : year_length 2004 366.
Proof. left. split; [split; [reflexivity | left; discriminate] | reflexivity]. Defined.

Lemma leap_2000 : year_length 2000 366.
Proof. left. split; [split; [reflexivity | right; reflexivity] | reflexivity]. Defined.

Lemma common_2001 : year_length 2001 365.
Proof. right. split; [intros [H _]; discriminate H | reflexivity]. Defined.

Lemma common_1900 : year_length 1900 365.
Proof.
  right. split; [|reflexivity].
  intros [_ [H|H]]; [apply H; reflexivity | discriminate H].
Defined.

(** The markers of 2001, 2004, 1900 and 2000 give 365, 366, 365 and 366
    days; the row of the day 365 ends the year 2001 and not the year
    2004, which the row of the day 366 ends; the sample reports of 2001
    and of 2004 give 365 and 366 entries, and nothing of what follows
    the year. *)
Lemma C6_witness :
  let B := Concrete.builtins in
  let marker y := "          DAILY OUTPUT FOR YEAR " +:+ y in
  let in_year y := set_year init_dstate y in
  let table y n :=
    let ds := map daily_values (seq 1 n) in
    {| d_years := repeat y n;
       d_days := map Z.of_nat (seq 1 n);
       d_rain := map r_rain ds;
       d_runoff := map r_ru ds;
       d_et := map r_et ds;
       d_ezone := map r_ezone ds;
       d_head_first := map r_headfirst ds;
       d_drain_first := map r_drainfirst ds;
       d_leak_first := map r_leakfirst ds;
       d_leak_last := map r_leaklast ds |} in
  ((exists st', daily_step init_dstate [marker "2001"] = Ok st' /\
      year st' = Some 2001 /\ days_in_year st' = Some 365 /\
      arrays st' = arrays init_dstate)
   /\ (exists st', daily_step init_dstate [marker "2004"] = Ok st' /\
      year st' = Some 2004 /\ days_in_year st' = Some 366 /\
      arrays st' = arrays init_dstate)
   /\ (exists st', daily_step init_dstate [marker "1900"] = Ok st' /\
      year st' = Some 1900 /\ days_in_year st' = Some 365 /\
      arrays st' = arrays init_dstate)
   /\ (exists st', daily_step init_dstate [marker "2000"] = Ok st' /\
      year st' = Some 2000 /\ days_in_year st' = Some 366 /\
      arrays st' = arrays init_dstate))
  /\ ((exists st', daily_step (in_year 2001) (daily_line 365) = Ok st' /\
       arrays st' = arrays_app (in_year 2001) 2001 [daily_values 365] /\
       year st' = None)
   /\ (exists st', daily_step (in_year 2004) (daily_line 365) = Ok st' /\
       arrays st' = arrays_app (in_year 2004) 2004 [daily_values 365] /\
       year st' = Some 2004)
   /\ (exists st', daily_step (in_year 2004) (daily_line 366) = Ok st' /\
       arrays st' = arrays_app (in_year 2004) 2004 [daily_values 366] /\
       year st' = None))
  /\ (exists st', daily_loop init_dstate daily_trailing = Ok st' /\
       year st' = None /\ arrays st' = arrays init_dstate)
  /\ (read_daily_help_output daily_file = Ok (table 2001 365%nat)
      /\ length daily_data = 365%nat)
  /\ (read_daily_help_output daily_file_leap = Ok (table 2004 366%nat)
      /\ length daily_data_leap = 366%nat).
Proof.
  intros B marker in_year table.
  destruct (C6_year_context_cleared_at_last_day (B := B)) as (H1 & H2 & H3 & H4).
  split; [|split; [|split; [|split]]].
  - split; [|split; [|split]].
    + exact (H1 init_dstate (marker "2001") [] 2001 365%nat eq_refl eq_refl eq_refl
               common_2001).
    + exact (H1 init_dstate (marker "2004") [] 2004 366%nat eq_refl eq_refl eq_refl
               leap_2004).
    + exact (H1 init_dstate (marker "1900") [] 1900 365%nat eq_refl eq_refl eq_refl
               common_1900).
    + exact (H1 init_dstate (marker "2000") [] 2000 366%nat eq_refl eq_refl eq_refl
               leap_2000).
  - split; [|split].
    + destruct (H2 (in_year 2001) (daily_line 365) 2001 365 (daily_values 365))
        as (st' & E & A & _ & Hy & _); try (vm_compute; reflexivity).
      exists st'. split; [exact E|]. split; [exact A|]. apply Hy. reflexivity.
    + destruct (H2 (in_year 2004) (daily_line 365) 2004 366 (daily_values 365))
        as (st' & E & A & _ & _ & Hy); try (vm_compute; reflexivity).
      exists st'. split; [exact E|]. split; [exact A|]. apply Hy. discriminate.
    + destruct (H2 (in_year 2004) (daily_line 366) 2004 366 (daily_values 366))
        as (st' & E & A & _ & Hy & _); try (vm_compute; reflexivity).
      exists st'. split; [exact E|]. split; [exact A|]. apply Hy. reflexivity.
  - apply (H3 init_dstate daily_trailing); vm_compute; reflexivity.
  - destruct (H4 daily_head (marker "2001") [] 2001 365%nat daily_data
                (map daily_values (seq 1 365)) daily_trailing) as [E L];
      try (vm_compute; reflexivity); [exact common_2001|].
    split; [|exact L]. etransitivity; [exact E|]. vm_compute. reflexivity.
  - destruct (H4 daily_head (marker "2004") [] 2004 366%nat daily_data_leap
                (map daily_values (seq 1 366)) daily_trailing) as [E L];
      try (vm_compute; reflexivity); [exact leap_2004|].
    split; [|exact L]. etransitivity; [exact E|]. vm_compute. reflexivity.
Defined.
Lemma C9_witness :
  let B := Concrete.builtins in
  (read_monthly_help_output Samples.monthly_file = Ok Samples.monthly_expected /\
   Forall (fun a : list (list Concrete.xfloat) =>
             length a = length (m_years Samples.monthly_expected))
          [m_rain Samples.monthly_expected; m_runoff Samples.monthly_expected;
           m_evapo Samples.monthly_expected; m_sub_runoff Samples.monthly_expected;
           m_percolation Samples.monthly_expected; m_recharge Samples.monthly_expected])
  /\ (read_daily_help_output Samples.daily_file = Ok Samples.daily_expected /\
      length (d_days Samples.daily_expected) = length (d_years Samples.daily_expected) /\
      Forall (fun a : list Concrete.xfloat =>
                length a = length (d_years Samples.daily_expected))
             [d_rain Samples.daily_expected; d_runoff Samples.daily_expected;
              d_et Samples.daily_expected; d_ezone Samples.daily_expected;
              d_head_first Samples.daily_expected; d_drain_first Samples.daily_expected;
              d_leak_first Samples.daily_expected; d_leak_last Samples.daily_expected]).
Proof.
  intros B.
  assert (Em : read_monthly_help_output Samples.monthly_file = Ok Samples.monthly_expected)
    by (vm_compute; reflexivity).
  assert (Ed : read_daily_help_output Samples.daily_file = Ok Samples.daily_expected)
    by (vm_compute; reflexivity).
  split; (split; [assumption|]).
  - exact (proj1 (C9_tables_aligned_with_years (B := B) Samples.monthly_file) _ Em).
  - exact (proj2 (C9_tables_aligned_with_years (B := B) Samples.daily_file) _ Ed).
Defined.

End ProcessingExamples.

(** ** The CWEEDS reader *)

Module WeatherFacts.
Import Weather.

Section Cweeds.
Context {float : Type} {B : Builtins float}.

Local Abbreviation dataset := (Weather.dataset float).
Local Abbreviation header := (Weather.header float).
Local Abbreviation hour_row := (Weather.hour_row float).
Local Abbreviation columns := (Weather.columns float).

(** *** Reshaping to days *)

Lemma reshape_length {A} (n ncol : nat) (a : list A) :
  length (reshape n ncol a) = n.
Proof. revert a. induction n; simpl; intros; [reflexivity | by rewrite IHn]. Qed.

Lemma reshape_lookup {A} (n ncol : nat) (a : list A) (k : nat) :
  (k < n)%nat ->
  reshape n ncol a !! k = Some (take ncol (drop (ncol * k) a)).
Proof.
  revert a k. induction n as [|n IH]; intros a k Hk; [lia|].
  destruct k as [|k]; simpl.
  - by rewrite Nat.mul_0_r.
  - rewrite IH by lia. rewrite drop_drop. do 3 f_equal. lia.
Qed.

Lemma column0_lookup {A} (n ncol : nat) (a : list A) (k : nat) :
  (0 < ncol)%nat -> (n * ncol <= length a)%nat -> (k < n)%nat ->
  column0 (reshape n ncol a) !! k = a !! (ncol * k)%nat.
Proof.
  intros Hc. revert a k. induction n as [|n IH]; intros a k Hlen Hk; [lia|].
  simpl in Hlen. unfold column0. simpl.
  destruct a as [|x a']; [simpl in Hlen; lia|].
  destruct ncol as [|c]; [lia|]. simpl.
  destruct k as [|k]; simpl.
  - by rewrite Nat.mul_0_r.
  - fold (column0 (reshape n (Datatypes.S c) (drop c a'))).
    rewrite IH; [|simpl in Hlen; rewrite length_drop; lia|lia].
    rewrite lookup_drop. f_equal. lia.
Qed.

Lemma column0_length {A} (n ncol : nat) (a : list A) :
  (0 < ncol)%nat -> (n * ncol <= length a)%nat ->
  length (column0 (reshape n ncol a)) = n.
Proof.
  intros Hc. revert a. induction n as [|n IH]; intros a Hlen; [reflexivity|].
  simpl in Hlen. unfold column0. simpl.
  destruct a as [|x a']; [simpl in Hlen; lia|].
  destruct ncol as [|c]; [lia|]. simpl. f_equal.
  apply IH. simpl in Hlen. rewrite length_drop. lia.
Qed.

(** *** read_cweeds_file *)

(** The rows of the file that hold data: all of them, but the first in
    a WY3 file. *)
Definition data_rows (filename : string) (reader : list row) : list row :=
  if String.eqb (Py.slice_from 1 (Py.splitext_ext filename)) "WY3"
  then tail reader else reader.

(** The extension without its dot. *)
Definition ext_of (filename : string) : string :=
  Py.slice_from 1 (Py.splitext_ext filename).

(** The hourly dict. *)
Definition hourly_of (hours : list hour_row) (h : option header) (ext : string)
  : dataset :=
  {| Years := map h_year hours; Months := map h_month hours;
     Days := map h_day hours; Hours := map h_hour hours;
     Time := map h_time hours; Irradiance := map h_irradiance hours;
     hdr := h; time_format := "hourly"; cweeds_format := ext |}.

(** What both formats of the result are made from: the header and the
    rows read. *)
Definition read_hours (filename : string) (reader : list row)
  : result (option header * list hour_row) :=
  let ext := ext_of filename in
  if negb (String.eqb ext "WY2" || String.eqb ext "WY3") then Raise ValueError
  else
    do hr <- (if String.eqb ext "WY3" then
                match reader with
                | [] => Raise IndexError
                | header_list :: reader' =>
                    do h <- read_header header_list; Ok (Some h, reader')
                end
              else Ok (None, reader));
    let char_offset := if String.eqb ext "WY2" then 0%nat else 2%nat in
    do hours <- mapM (read_hour char_offset) hr.2;
    Ok (hr.1, hours).

Lemma read_cweeds_file_eq filename reader format_to_daily :
  read_cweeds_file filename reader format_to_daily =
  do hh <- read_hours filename reader;
  if format_to_daily then to_daily hh.2 hh.1 (ext_of filename)
  else Ok (hourly_of hh.2 hh.1 (ext_of filename)).
Proof.
  unfold read_cweeds_file, read_hours, ext_of.
  destruct (negb _); [reflexivity|].
  destruct (if String.eqb _ "WY3" then _ else _) as [[h rows]|e]; [|reflexivity].
  simpl. destruct (mapM _ rows); reflexivity.
Qed.

Lemma read_hours_length filename reader h hours :
  read_hours filename reader = Ok (h, hours) ->
  length hours = length (data_rows filename reader).
Proof.
  unfold read_hours, data_rows. fold (ext_of filename).
  destruct (negb _); [discriminate|].
  destruct (String.eqb (ext_of filename) "WY3").
  - destruct reader as [|header_list reader']; [discriminate|].
    destruct (read_header header_list); [|discriminate]. simpl.
    intros H. apply rbind_Ok in H as (hs & Hm & H). injection H as _ <-.
    by apply mapM_length in Hm.
  - simpl. intros H. apply rbind_Ok in H as (hs & Hm & H). injection H as _ <-.
    by apply mapM_length in Hm.
Qed.

(** C8.  With the daily aggregation, [read_cweeds_file] raises when the
    number of data rows is not a multiple of 24.  When it is, and the
    rows can be read (the hourly reading returns), the daily reading
    returns one entry per block of 24 rows: the [np.sum] of the block for
    'Irradiance', the values of the first row of the block for 'Years',
    'Months', 'Days' and 'Time', and zero for 'Hours'. *)
Theorem C8_daily_aggregation (filename : string) (reader : list row) :
  let rows := data_rows filename reader in
  ((length rows mod 24 <> 0)%nat ->
   exists e, read_cweeds_file filename reader true = Raise e)
  /\ (forall hourly : dataset,
      read_cweeds_file filename reader false = Ok hourly ->
      (length rows mod 24 = 0)%nat ->
      exists daily : dataset,
        read_cweeds_file filename reader true = Ok daily /\
        length (Irradiance hourly) = length rows /\
        length (Irradiance daily) = (length rows / 24)%nat /\
        Hours daily = repeat 0 (length rows / 24) /\
        hdr daily = hdr hourly /\
        time_format daily = "daily" /\
        cweeds_format daily = cweeds_format hourly /\
        forall k, (k < length rows / 24)%nat ->
          Irradiance daily !! k
            = Some (np_sum (take 24 (drop (24 * k) (Irradiance hourly)))) /\
          Years daily !! k = Years hourly !! (24 * k)%nat /\
          Months daily !! k = Months hourly !! (24 * k)%nat /\
          Days daily !! k = Days hourly !! (24 * k)%nat /\
          Time daily !! k = Time hourly !! (24 * k)%nat).
Proof.
  intros rows. split.
  - intros Hmod. rewrite read_cweeds_file_eq.
    destruct (read_hours filename reader) as [[h hours]|e] eqn:E; [|eauto].
    apply read_hours_length in E. fold rows in E.
    simpl. unfold to_daily. rewrite length_map, E.
    destruct (Nat.eqb_spec (length rows mod 24) 0); [contradiction|eauto].
  - intros hourly Hh Hmod. rewrite read_cweeds_file_eq in Hh |- *.
    destruct (read_hours filename reader) as [[h hours]|e] eqn:E; [|discriminate].
    apply read_hours_length in E. fold rows in E.
    simpl in Hh |- *. injection Hh as <-.
    unfold to_daily. rewrite length_map, E, Hmod. simpl.
    eexists. split; [reflexivity|]. simpl.
    assert (Hle : (length rows / 24 * 24 <= length hours)%nat).
    { rewrite E. rewrite Nat.mul_comm. apply Nat.Div0.mul_div_le. }
    rewrite !length_map, reshape_length.
    repeat (split; [done|]).
    intros k Hk.
    rewrite list_lookup_fmap, reshape_lookup by assumption. simpl.
    split; [reflexivity|].
    rewrite !column0_lookup by (rewrite ?length_map; (lia || assumption)).
    done.
Qed.

(** *** Sorting and searching *)

Lemma insert_unique_elem (x y : Z) (l : list Z) :
  y ∈ insert_unique x l <-> y = x \/ y ∈ l.
Proof.
  induction l as [|z l IH]; simpl.
  - rewrite list_elem_of_singleton, elem_of_nil. tauto.
  - destruct (Z.ltb_spec x z); [by rewrite elem_of_cons|].
    destruct (Z.eqb_spec x z) as [->|_].
    + rewrite elem_of_cons. tauto.
    + rewrite !elem_of_cons, IH. tauto.
Qed.

Lemma insert_unique_sorted (x : Z) (l : list Z) :
  StronglySorted Z.lt l -> StronglySorted Z.lt (insert_unique x l).
Proof.
  induction 1 as [|z l Hl IH Hz]; simpl.
  - repeat constructor.
  - destruct (Z.ltb_spec x z).
    + constructor; [by constructor|]. constructor; [assumption|].
      eapply Forall_impl; [exact Hz|]. simpl. lia.
    + destruct (Z.eqb_spec x z); [by constructor|].
      constructor; [assumption|]. apply Forall_forall. intros y Hy.
      apply insert_unique_elem in Hy as [->|Hy]; [lia|].
      by apply (proj1 (Forall_forall _ _) Hz).
Qed.

Lemma np_unique_sorted (l : list Z) : StronglySorted Z.lt (np_unique l).
Proof.
  induction l; simpl; [constructor | by apply insert_unique_sorted].
Qed.

Lemma np_unique_elem (x : Z) (l : list Z) : x ∈ np_unique l <-> x ∈ l.
Proof.
  induction l as [|y l IH]; simpl; [reflexivity|].
  rewrite insert_unique_elem, elem_of_cons, IH. reflexivity.
Qed.

(** Sorting a list that is already in order changes nothing. *)
Lemma np_sort_sorted (l : list Z) : StronglySorted Z.lt l -> np_sort l = l.
Proof.
  induction 1 as [|x l Hl IH Hx]; simpl; [reflexivity|].
  rewrite IH. destruct l as [|y l']; [reflexivity|]. simpl.
  apply Forall_cons in Hx as [Hxy _].
  destruct (Z.leb_spec x y); [reflexivity | lia].
Qed.

(** Strictly increasing, position by position. *)
Definition increasing (l : list Z) : Prop :=
  forall i j a b, (i < j)%nat -> l !! i = Some a -> l !! j = Some b -> a < b.

Lemma sorted_increasing (l : list Z) : StronglySorted Z.lt l -> increasing l.
Proof.
  induction 1 as [|x l Hl IH Hx]; intros i j a b Hij Hi Hj.
  - discriminate.
  - destruct j as [|j]; [lia|]. simpl in Hj. destruct i as [|i]; simpl in Hi.
    + injection Hi as <-. apply (proj1 (Forall_forall _ _) Hx).
      by eapply list_elem_of_lookup_2.
    + eapply IH; [|exact Hi|exact Hj]. lia.
Qed.

Lemma increasing_NoDup (l : list Z) : increasing l -> NoDup l.
Proof.
  intros Hinc. apply NoDup_alt. intros i j x Hi Hj.
  destruct (Nat.lt_trichotomy i j) as [H|[H|H]]; [|assumption|].
  - pose proof (Hinc i j x x H Hi Hj). lia.
  - pose proof (Hinc j i x x H Hj Hi). lia.
Qed.

(** In increasing bins that hold [x], the bin of [x] is its position. *)
Lemma digitize_lookup (x : Z) (bins : list Z) :
  StronglySorted Z.lt bins -> x ∈ bins ->
  bins !! digitize_right x bins = Some x.
Proof.
  induction 1 as [|b bins Hs IH Hb]; intros Hx.
  - by apply elem_of_nil in Hx.
  - simpl. apply elem_of_cons in Hx as [->|Hx].
    + destruct (Z.ltb_spec b b); [lia | reflexivity].
    + pose proof (proj1 (Forall_forall _ _) Hb x Hx).
      destruct (Z.ltb_spec b x); [|lia]. simpl. by apply IH.
Qed.

(** *** Scattering *)

Lemma scatter_loop_spec {A} (indexes : list nat) :
  forall (arr values : list A),
    length values = length indexes ->
    Forall (fun i => (i < length arr)%nat) indexes ->
    exists arr',
      scatter_loop arr indexes values = Ok arr' /\
      length arr' = length arr /\
      (forall j p v,
          indexes !! j = Some p -> values !! j = Some v ->
          (forall j', (j < j')%nat -> indexes !! j' <> Some p) ->
          arr' !! p = Some v) /\
      (forall p, p ∉ indexes -> arr' !! p = arr !! p).
Proof.
  induction indexes as [|i indexes IH]; intros arr values Hlen Hin.
  - destruct values; [|discriminate]. exists arr. simpl.
    repeat split; try done.
  - destruct values as [|v values]; [discriminate|]. simpl in Hlen.
    apply Forall_cons in Hin as [Hi Hin]. simpl. unfold set_item.
    destruct (Nat.ltb_spec i (length arr)); [|lia]. simpl.
    destruct (IH (<[i := v]> arr) values) as (arr' & E & Hl & Hlast & Hnot).
    { lia. } { by rewrite length_insert. }
    exists arr'. split; [exact E|]. split; [by rewrite Hl, length_insert|]. split.
    + intros j p w Hj Hv Hlater. destruct j as [|j]; simpl in Hj, Hv.
      * injection Hj as ->. injection Hv as ->.
        rewrite Hnot.
        { by apply list_lookup_insert_eq. }
        intros Hp. apply list_elem_of_lookup_1 in Hp as [j' Hj'].
        apply (Hlater (Datatypes.S j')); [lia | exact Hj'].
      * eapply Hlast; [exact Hj | exact Hv |].
        intros j' Hlt. apply (Hlater (Datatypes.S j')). lia.
    + intros p Hp. apply not_elem_of_cons in Hp as [Hne Hp].
      rewrite Hnot by assumption. by apply list_lookup_insert_ne.
Qed.

(** A row of the dataset is the last one of its time coordinate. *)
Definition last_of_time (times : list Z) (j : nat) (t : Z) : Prop :=
  times !! j = Some t /\
  forall j', (j < j')%nat -> times !! j' <> Some t.

(** Scattering one array of a dataset into the merged array. *)
Lemma scatter_col {A} (bins : list Z) (arr : list A) (times : list Z)
  (values : list A) :
  StronglySorted Z.lt bins ->
  (forall t, t ∈ times -> t ∈ bins) ->
  length arr = length bins ->
  length values = length times ->
  exists arr',
    scatter arr (map (fun t => digitize_right t bins) times) values = Ok arr' /\
    length arr' = length bins /\
    (forall j t, last_of_time times j t ->
       arr' !! digitize_right t bins = values !! j) /\
    (forall p t, bins !! p = Some t -> t ∉ times -> arr' !! p = arr !! p).
Proof.
  intros Hs Hsub Harr Hval.
  destruct (scatter_loop_spec (map (fun t => digitize_right t bins) times) arr values)
    as (arr' & E & Hl & Hlast & Hnot).
  { by rewrite length_map. }
  { apply Forall_forall. intros i Hi.
    apply list_elem_of_fmap in Hi as (t & -> & Ht).
    rewrite Harr. eapply lookup_lt_Some. apply digitize_lookup; auto. }
  exists arr'. split.
  { unfold scatter. rewrite length_map, Hval, Nat.eqb_refl. exact E. }
  split; [congruence|]. split.
  - intros j t [Hj Hlater].
    destruct (values !! j) as [v|] eqn:Ev.
    2:{ apply lookup_ge_None in Ev. apply lookup_lt_Some in Hj. lia. }
    eapply Hlast; [|exact Ev|].
    + change (map (fun t => digitize_right t bins) times)
        with ((fun t => digitize_right t bins) <$> times).
      by rewrite list_lookup_fmap, Hj.
    + intros j' Hlt Hj'.
      change (map (fun t => digitize_right t bins) times)
        with ((fun t => digitize_right t bins) <$> times) in Hj'.
      rewrite list_lookup_fmap in Hj'.
      destruct (times !! j') as [t'|] eqn:Et'; [|discriminate].
      injection Hj' as Hd.
      assert (t' = t) as ->.
      { pose proof (digitize_lookup t' bins Hs) as H1.
        pose proof (digitize_lookup t bins Hs) as H2.
        rewrite Hd in H1.
        rewrite H2 in H1 by (apply Hsub; by eapply list_elem_of_lookup_2).
        symmetry. injection H1; [done|].
        apply Hsub. by eapply list_elem_of_lookup_2. }
      by apply (Hlater j').
  - intros p t Hp Ht. apply Hnot. intros Hin.
    apply list_elem_of_fmap in Hin as (t' & -> & Ht').
    rewrite digitize_lookup in Hp by auto. injection Hp as ->. contradiction.
Qed.

(** *** join_daily_cweeds_wy2_and_wy3 *)

(** The arrays of a dataset are as long as its 'Time'. *)
Definition aligned (ds : dataset) : Prop :=
  length (Years ds) = length (Time ds) /\
  length (Months ds) = length (Time ds) /\
  length (Days ds) = length (Time ds) /\
  length (Hours ds) = length (Time ds) /\
  length (Irradiance ds) = length (Time ds).

(** The values of 'Years', 'Months', 'Days', 'Hours' and 'Irradiance' at
    a position. *)
Definition fields_at (ds : dataset) (p : nat) :=
  (Years ds !! p, Months ds !! p, Days ds !! p, Hours ds !! p,
   Irradiance ds !! p).

Definition cols_at (cols : columns) (p : nat) :=
  (c_years cols !! p, c_months cols !! p, c_days cols !! p, c_hours cols !! p,
   c_irradiance cols !! p).

Definition cols_length (cols : columns) (n : nat) : Prop :=
  length (c_years cols) = n /\ length (c_months cols) = n /\
  length (c_days cols) = n /\ length (c_hours cols) = n /\
  length (c_irradiance cols) = n.

Lemma scatter_dataset_spec (bins : list Z) (cols : columns) (ds : dataset) :
  StronglySorted Z.lt bins ->
  (forall t, t ∈ Time ds -> t ∈ bins) ->
  cols_length cols (length bins) ->
  aligned ds ->
  exists cols',
    scatter_dataset bins cols ds = Ok cols' /\
    cols_length cols' (length bins) /\
    (forall j t, last_of_time (Time ds) j t ->
       cols_at cols' (digitize_right t bins) = fields_at ds j) /\
    (forall p t, bins !! p = Some t -> t ∉ Time ds ->
       cols_at cols' p = cols_at cols p).
Proof.
  intros Hs Hsub (L1 & L2 & L3 & L4 & L5) (A1 & A2 & A3 & A4 & A5).
  destruct (scatter_col bins (c_years cols) (Time ds) (Years ds) Hs Hsub L1 A1)
    as (ys & E1 & K1 & P1 & Q1).
  destruct (scatter_col bins (c_months cols) (Time ds) (Months ds) Hs Hsub L2 A2)
    as (ms & E2 & K2 & P2 & Q2).
  destruct (scatter_col bins (c_days cols) (Time ds) (Days ds) Hs Hsub L3 A3)
    as (dd & E3 & K3 & P3 & Q3).
  destruct (scatter_col bins (c_hours cols) (Time ds) (Hours ds) Hs Hsub L4 A4)
    as (hs & E4 & K4 & P4 & Q4).
  destruct (scatter_col bins (c_irradiance cols) (Time ds) (Irradiance ds) Hs Hsub L5 A5)
    as (ir & E5 & K5 & P5 & Q5).
  unfold scatter_dataset. rewrite E1, E2, E3, E4, E5. simpl.
  eexists. split; [reflexivity|]. split; [done|]. split.
  - intros j t Hj. unfold cols_at, fields_at. simpl.
    by rewrite (P1 j t Hj), (P2 j t Hj), (P3 j t Hj), (P4 j t Hj), (P5 j t Hj).
  - intros p t Hp Ht. unfold cols_at. simpl.
    by rewrite (Q1 p t Hp Ht), (Q2 p t Hp Ht), (Q3 p t Hp Ht), (Q4 p t Hp Ht),
      (Q5 p t Hp Ht).
Qed.

Lemma np_empty_length {A} (junk : nat -> A) (n : nat) :
  length (np_empty junk n) = n.
Proof. unfold np_empty. by rewrite length_map, length_seq. Qed.

(** The time axis of the merge. *)
Definition merged_time (wy2_df wy3_df : dataset) : list Z :=
  np_unique (Time wy2_df ++ Time wy3_df).

(** What the merge returns on two datasets it accepts. *)
Lemma join_spec (junk : string -> nat -> Z) (fjunk : nat -> float)
  (wy2_df wy3_df : dataset) (h : header) :
  cweeds_format wy2_df = "WY2" ->
  cweeds_format wy3_df = "WY3" ->
  time_format wy2_df = time_format wy3_df ->
  hdr wy3_df = Some h ->
  aligned wy2_df -> aligned wy3_df ->
  exists m : dataset,
    join_daily_cweeds_wy2_and_wy3 junk fjunk wy2_df wy3_df = Ok m /\
    Time m = merged_time wy2_df wy3_df /\
    hdr m = Some h /\
    time_format m = time_format wy3_df /\
    cweeds_format m = "WY2+WY3" /\
    (forall j t, last_of_time (Time wy3_df) j t ->
       fields_at m (digitize_right t (Time m)) = fields_at wy3_df j) /\
    (forall i t, last_of_time (Time wy2_df) i t -> t ∉ Time wy3_df ->
       fields_at m (digitize_right t (Time m)) = fields_at wy2_df i).
Proof.
  intros F2 F3 Ftf Hh Al2 Al3.
  unfold join_daily_cweeds_wy2_and_wy3.
  rewrite F2, F3, Ftf, !String.eqb_refl, Hh. simpl.
  pose proof (np_unique_sorted (Time wy2_df ++ Time wy3_df)) as Hs.
  rewrite (np_sort_sorted _ Hs). fold (merged_time wy2_df wy3_df).
  set (bins := merged_time wy2_df wy3_df) in *.
  destruct (scatter_dataset_spec bins
              {| c_years := np_empty (junk "Years") (length bins);
                 c_months := np_empty (junk "Months") (length bins);
                 c_days := np_empty (junk "Days") (length bins);
                 c_hours := np_empty (junk "Hours") (length bins);
                 c_irradiance := np_empty fjunk (length bins) |} wy2_df)
    as (cols1 & E1 & L1 & P1 & _); try assumption.
  { intros t Ht. apply np_unique_elem, elem_of_app. by left. }
  { unfold cols_length. simpl. by rewrite !np_empty_length. }
  destruct (scatter_dataset_spec bins cols1 wy3_df)
    as (cols2 & E2 & L2 & P2 & Q2); try assumption.
  { intros t Ht. apply np_unique_elem, elem_of_app. by right. }
  rewrite E1. simpl. rewrite E2. simpl.
  eexists. split; [reflexivity|]. simpl. repeat (split; [reflexivity|]). split.
  - intros j t Hj. exact (P2 j t Hj).
  - intros i t Hi Hnot. unfold fields_at. simpl.
    change (cols_at cols2 (digitize_right t bins) = fields_at wy2_df i).
    rewrite <- (P1 i t Hi). apply (Q2 _ t); [|exact Hnot].
    apply digitize_lookup; [exact Hs|].
    apply np_unique_elem, elem_of_app. left.
    destruct Hi as [Hi _]. by eapply list_elem_of_lookup_2.
Qed.

(** A row, with its time [t] and its values [f], is in [m] once, at the
    position [np.digitize] gives to [t]. *)
Definition once_at (m : dataset) (t : Z)
  (f : option Z * option Z * option Z * option Z * option float) : Prop :=
  let p := digitize_right t (Time m) in
  Time m !! p = Some t /\ fields_at m p = f /\
  forall q, Time m !! q = Some t -> q = p.

(** The reading of C1 as it is written: every row of a source is in the
    merge, at the position of its time. *)
Definition rows_kept (src m : dataset) : Prop :=
  forall i t, Time src !! i = Some t ->
    exists p, Time m !! p = Some t /\ fields_at m p = fields_at src i.

Definition all_rows_merged (junk : string -> nat -> Z) (fjunk : nat -> float)
  (wy2_df wy3_df : dataset) : Prop :=
  exists m : dataset,
    join_daily_cweeds_wy2_and_wy3 junk fjunk wy2_df wy3_df = Ok m /\
    increasing (Time m) /\ NoDup (Time m) /\
    rows_kept wy2_df m /\ rows_kept wy3_df m.

Lemma merged_time_once (wy2_df wy3_df : dataset) (t : Z) :
  t ∈ Time wy2_df ++ Time wy3_df ->
  let T := merged_time wy2_df wy3_df in
  T !! digitize_right t T = Some t /\
  forall q, T !! q = Some t -> q = digitize_right t T.
Proof.
  intros Ht T.
  pose proof (np_unique_sorted (Time wy2_df ++ Time wy3_df)) as Hs.
  assert (Hd : T !! digitize_right t T = Some t).
  { apply digitize_lookup; [exact Hs|]. by apply np_unique_elem. }
  split; [exact Hd|]. intros q Hq.
  eapply NoDup_lookup; [|exact Hq|exact Hd].
  apply increasing_NoDup, sorted_increasing, Hs.
Qed.

(** C1, amended.  The merge of a WY2 and a WY3 dataset of one time
    format, with aligned arrays, has a strictly increasing 'Time' without
    duplicates, made of the time coordinates of the two sources.  Every
    row of the WY3 dataset, and every row of the WY2 dataset whose time
    is not a time of the WY3 dataset, is in the merge exactly once, at
    the position of its time, when it is the last row of its dataset with
    that time. *)
Theorem C1_merge_sorted_and_rows_kept
  (junk : string -> nat -> Z) (fjunk : nat -> float)
  (wy2_df wy3_df : dataset) (h : header) :
  cweeds_format wy2_df = "WY2" ->
  cweeds_format wy3_df = "WY3" ->
  time_format wy2_df = time_format wy3_df ->
  hdr wy3_df = Some h ->
  aligned wy2_df -> aligned wy3_df ->
  exists m : dataset,
    join_daily_cweeds_wy2_and_wy3 junk fjunk wy2_df wy3_df = Ok m /\
    increasing (Time m) /\ NoDup (Time m) /\
    (forall t, t ∈ Time m <-> t ∈ Time wy2_df \/ t ∈ Time wy3_df) /\
    (forall j t, last_of_time (Time wy3_df) j t ->
       once_at m t (fields_at wy3_df j)) /\
    (forall i t, last_of_time (Time wy2_df) i t -> t ∉ Time wy3_df ->
       once_at m t (fields_at wy2_df i)).
Proof.
  intros F2 F3 Ftf Hh Al2 Al3.
  destruct (join_spec junk fjunk wy2_df wy3_df h F2 F3 Ftf Hh Al2 Al3)
    as (m & E & HT & _ & _ & _ & P3 & P2).
  pose proof (np_unique_sorted (Time wy2_df ++ Time wy3_df)) as Hs.
  exists m. split; [exact E|]. rewrite HT.
  split; [by apply sorted_increasing|].
  split; [by apply increasing_NoDup, sorted_increasing|].
  split; [intros t; unfold merged_time; by rewrite np_unique_elem, elem_of_app|].
  split.
  - intros j t Hj. unfold once_at. rewrite HT.
    destruct (merged_time_once wy2_df wy3_df t) as [H1 H2].
    { apply elem_of_app. right. destruct Hj as [Hj _].
      by eapply list_elem_of_lookup_2. }
    split; [exact H1|]. split; [|exact H2].
    rewrite <- HT. by apply P3.
  - intros i t Hi Hnot. unfold once_at. rewrite HT.
    destruct (merged_time_once wy2_df wy3_df t) as [H1 H2].
    { apply elem_of_app. left. destruct Hi as [Hi _].
      by eapply list_elem_of_lookup_2. }
    split; [exact H1|]. split; [|exact H2].
    rewrite <- HT. by apply P2.
Qed.


End Cweeds.
End WeatherFacts.

Module WeatherExamples.
Import Weather WeatherFacts.

Lemma C8_witness :
  let B := Concrete.builtins in
  (exists e, read_cweeds_file "station.WY2" (take 23 Samples.cweeds_day) true = Raise e)
  /\ (exists daily : dataset Concrete.xfloat,
        read_cweeds_file "station.WY2" Samples.cweeds_day true = Ok daily /\
        length (Irradiance Samples.cweeds_hourly)
          = length (data_rows "station.WY2" Samples.cweeds_day) /\
        length (Irradiance daily)
          = (length (data_rows "station.WY2" Samples.cweeds_day) / 24)%nat /\
        Hours daily
          = repeat 0 (length (data_rows "station.WY2" Samples.cweeds_day) / 24) /\
        hdr daily = hdr Samples.cweeds_hourly /\
        time_format daily = "daily" /\
        cweeds_format daily = cweeds_format Samples.cweeds_hourly /\
        forall k, (k < length (data_rows "station.WY2" Samples.cweeds_day) / 24)%nat ->
          Irradiance daily !! k
            = Some (np_sum (take 24 (drop (24 * k) (Irradiance Samples.cweeds_hourly)))) /\
          Years daily !! k = Years Samples.cweeds_hourly !! (24 * k)%nat /\
          Months daily !! k = Months Samples.cweeds_hourly !! (24 * k)%nat /\
          Days daily !! k = Days Samples.cweeds_hourly !! (24 * k)%nat /\
          Time daily !! k = Time Samples.cweeds_hourly !! (24 * k)%nat).
Proof.
  intros B. split.
  - apply (proj1 (C8_daily_aggregation (B := B) "station.WY2"
                    (take 23 Samples.cweeds_day))).
    vm_compute. discriminate.
  - apply (proj2 (C8_daily_aggregation (B := B) "station.WY2" Samples.cweeds_day)).
    + vm_compute. reflexivity.
    + vm_compute. reflexivity.
Defined.

Lemma samples_aligned : aligned Samples.wy2_df /\ aligned Samples.wy3_df.
Proof. split; repeat split; reflexivity. Defined.

(** The row of the WY2 sample for the time 35815 is not in the merge:
    the row of the WY3 sample for that time has taken its place. *)
Lemma C1_counterexample :
  ~ all_rows_merged Samples.junk Samples.fjunk
      Samples.wy2_df Samples.wy3_df.
Proof.
  intros (m & E & _ & _ & K2 & _).
  vm_compute in E. injection E as <-.
  destruct (K2 1%nat 35815 eq_refl) as (p & Hp & Hf).
  destruct p as [|[|[|[|p]]]]; try discriminate Hp.
  vm_compute in Hf. discriminate Hf.
Qed.

Lemma C1_witness :
  exists m : dataset Concrete.xfloat,
    join_daily_cweeds_wy2_and_wy3 Samples.junk Samples.fjunk
      Samples.wy2_df Samples.wy3_df = Ok m /\
    increasing (Time m) /\ NoDup (Time m) /\
    (forall t, t ∈ Time m <-> t ∈ Time Samples.wy2_df \/ t ∈ Time Samples.wy3_df) /\
    (forall j t, last_of_time (Time Samples.wy3_df) j t ->
       once_at m t (fields_at Samples.wy3_df j)) /\
    (forall i t, last_of_time (Time Samples.wy2_df) i t ->
       t ∉ Time Samples.wy3_df ->
       once_at m t (fields_at Samples.wy2_df i)).
Proof.
  apply (C1_merge_sorted_and_rows_kept Samples.junk Samples.fjunk
           Samples.wy2_df Samples.wy3_df Samples.header0);
    try reflexivity.
  - exact (proj1 samples_aligned).
  - exact (proj2 samples_aligned).
Defined.


End WeatherExamples.

(** ** The HELP writer *)

Module HelpFacts.
Import Weather WeatherFacts.

Section Help.
Context {float : Type} {B : Builtins float}.

(** The number of values of a year. *)
Definition values_of_year (year : Z) (years : list Z) : nat :=
  length (filter (fun y => y = year) years).

(** The year has all its days. *)
Definition complete (years : list Z) (year : Z) : Prop :=
  Z.of_nat (values_of_year year years) = Py.days_in_year year.

Lemma where_eq_length (year : Z) (years : list Z) (i : nat) :
  length (where_eq year years i) = values_of_year year years.
Proof.
  unfold values_of_year. revert i.
  induction years as [|y years IH]; intros i; simpl; [reflexivity|].
  rewrite filter_cons. destruct (Z.eqb_spec y year), (decide (y = year));
    try contradiction; simpl; by rewrite IH.
Qed.

Lemma where_eq_bound (year : Z) (years : list Z) (i : nat) :
  Forall (fun k => (k < i + length years)%nat) (where_eq year years i).
Proof.
  revert i. induction years as [|y years IH]; intros i; simpl; [constructor|].
  specialize (IH (Datatypes.S i)).
  assert (Forall (fun k => (k < i + Datatypes.S (length years))%nat)
                 (where_eq year years (Datatypes.S i))).
  { eapply Forall_impl; [exact IH|]. simpl. intros. lia. }
  destruct (y =? year); [constructor; [lia|]|]; assumption.
Qed.

Lemma take_indexes_Ok (data : list float) (indexes : list nat) :
  Forall (fun k => (k < length data)%nat) indexes ->
  exists vs, take_indexes data indexes = Ok vs /\ length vs = length indexes.
Proof.
  unfold take_indexes. induction 1 as [|k indexes Hk _ (vs & E & L)]; simpl.
  - by exists [].
  - destruct (lookup_lt_is_Some_2 data k Hk) as [v ->]. simpl. rewrite E. simpl.
    exists (v :: vs). simpl. by rewrite L.
Qed.

(** The year whose values are not all there stops the writer at its
    assertion. *)
Lemma format_year_incomplete fmt years data year :
  ~ complete years year ->
  format_year fmt years data year = Raise AssertionError.
Proof.
  unfold complete, format_year. intros H. rewrite where_eq_length.
  destruct (Z.eqb_spec (Z.of_nat (values_of_year year years)) (Py.days_in_year year));
    [contradiction | reflexivity].
Qed.

(** A complete year gives its 37 lines, when [data] is as long as
    [years]. *)
Lemma format_year_complete fmt years data year :
  complete years year -> (length years <= length data)%nat ->
  exists lines, format_year fmt years data year = Ok lines /\ length lines = 37%nat.
Proof.
  unfold complete, format_year. intros H Hlen. rewrite where_eq_length.
  destruct (Z.eqb_spec (Z.of_nat (values_of_year year years)) (Py.days_in_year year));
    [|contradiction]. cbn [negb].
  destruct (take_indexes_Ok data (where_eq year years 0)) as (vs & -> & L).
  { eapply Forall_impl; [apply where_eq_bound|]. cbv beta. intros. lia. }
  cbn [rbind]. rewrite where_eq_length in L.
  unfold reshape_37_10. rewrite length_app, repeat_length, L.
  assert (Hd : values_of_year year years = 365%nat \/ values_of_year year years = 366%nat).
  { unfold Py.days_in_year in H. destruct (Py.isleap year); lia. }
  assert (Hpad : ((values_of_year year years
                   + (10 - values_of_year year years mod 10)) =? 370)%nat = true).
  { destruct Hd as [-> | ->]; reflexivity. }
  rewrite Hpad. cbn [rbind]. eexists. split; [reflexivity|].
  by rewrite length_map, reshape_length.
Qed.

Lemma format_years_incomplete fmt years data todo fdata :
  (exists year, year ∈ todo /\ ~ complete years year) ->
  (exists e, format_years fmt years data todo fdata = Raise e)
  /\ ((length years <= length data)%nat ->
      format_years fmt years data todo fdata = Raise AssertionError).
Proof.
  intros (bad & Hin & Hbad). revert fdata.
  induction todo as [|year todo IH]; intros fdata.
  { by apply elem_of_nil in Hin. }
  simpl.
  destruct (Z.eq_dec (Z.of_nat (values_of_year year years)) (Py.days_in_year year))
    as [Hc|Hc].
  - apply elem_of_cons in Hin as [->|Hin]; [contradiction|].
    destruct (format_year fmt years data year) as [lines|e] eqn:E; simpl.
    + by apply IH.
    + split; [eauto|]. intros Hlen.
      destruct (format_year_complete fmt years data year Hc Hlen) as (l & E' & _).
      congruence.
  - rewrite format_year_incomplete by assumption. simpl. eauto.
Qed.

Lemma format_timeseries_incomplete years data fmt fdata year :
  year ∈ years -> ~ complete years year ->
  (exists e, format_years fmt years data (np_unique years) fdata = Raise e)
  /\ ((length years <= length data)%nat ->
      format_years fmt years data (np_unique years) fdata = Raise AssertionError).
Proof.
  intros Hin Hbad. apply format_years_incomplete.
  exists year. split; [by apply np_unique_elem | exact Hbad].
Qed.

(** C7.  When the values of some year of [years] are not 365, or 366 in
    a leap year, every writer of the HELP format raises and leaves the
    files as they were; the exception is the failed assertion when the
    extension is a valid one and [data] is as long as [years]. *)
Theorem C7_incomplete_year_writes_nothing
  (filename : string) (years : list Z) (data : list float) (city : string)
  (lat : option float) (w : world) (year : Z) :
  year ∈ years -> ~ complete years year ->
  (exists e, save_data_to_HELP_format filename years data city lat w = (w, Raise e))
  /\ (forall fmt, exists e, format_timeseries_for_HELP years data fmt = Raise e)
  /\ (exists e, save_precip_to_HELP filename years data city w = (w, Raise e))
  /\ (exists e, save_airtemp_to_HELP filename years data city w = (w, Raise e))
  /\ (forall l, exists e, save_solrad_to_HELP filename years data city l w = (w, Raise e))
  /\ ((length years <= length data)%nat ->
      (forall fmt, format_timeseries_for_HELP years data fmt = Raise AssertionError)
      /\ (is_ok (formats_of_ext (Py.slice_from 1 (Py.splitext_ext filename)) lat) = true ->
          save_data_to_HELP_format filename years data city lat w
          = (w, Raise AssertionError))).
Proof.
  intros Hin Hbad.
  assert (Hf : forall fmt fdata,
    (exists e, format_years fmt years data (np_unique years) fdata = Raise e)
    /\ ((length years <= length data)%nat ->
        format_years fmt years data (np_unique years) fdata = Raise AssertionError)).
  { intros. by eapply format_timeseries_incomplete. }
  assert (Hts : forall fmt, exists e, format_timeseries_for_HELP years data fmt = Raise e).
  { intros fmt. apply (Hf fmt []). }
  repeat split.
  - unfold save_data_to_HELP_format, io_bind, io_lift.
    destruct (formats_of_ext _ lat) as [fmt|e]; [|eauto].
    destruct (proj1 (Hf fmt (help_header (Py.slice_from 1 (Py.splitext_ext filename))
                               city lat))) as [e ->]. eauto.
  - exact Hts.
  - unfold save_precip_to_HELP, io_bind, io_lift.
    destruct (Hts D4_formats) as [e ->]. eauto.
  - unfold save_airtemp_to_HELP, io_bind, io_lift.
    destruct (Hts D7_formats) as [e ->]. eauto.
  - intros l. unfold save_solrad_to_HELP, io_bind, io_lift.
    destruct (Hts D13_formats) as [e ->]. eauto.
  - intros fmt. apply (Hf fmt []). assumption.
  - intros Hok. unfold save_data_to_HELP_format, io_bind, io_lift.
    destruct (formats_of_ext _ lat) as [fmt|e]; [|discriminate].
    by rewrite (proj2 (Hf fmt _)).
Qed.

(** *** Fields of fixed width *)

Lemma str_app_cons (c : ascii) (a b : string) :
  String c a +:+ b = String c (a +:+ b).
Proof. reflexivity. Qed.

Lemma str_app_nil_l (b : string) : "" +:+ b = b.
Proof. reflexivity. Qed.

Lemma str_length_app (a b : string) :
  String.length (a +:+ b) = (String.length a + String.length b)%nat.
Proof.
  induction a as [|c a IH]; [reflexivity|].
  rewrite str_app_cons. cbn [String.length]. by rewrite IH.
Qed.

Lemma str_app_assoc (a b c : string) : (a +:+ b) +:+ c = a +:+ (b +:+ c).
Proof.
  induction a as [|x a IH]; [reflexivity|].
  by rewrite !str_app_cons, IH.
Qed.

Lemma str_app_nil_r (a : string) : a +:+ "" = a.
Proof.
  induction a as [|x a IH]; [reflexivity|]. by rewrite str_app_cons, IH.
Qed.

Lemma substring_skip (p s : string) (a m : nat) :
  String.substring (String.length p + a) m (p +:+ s) = String.substring a m s.
Proof.
  induction p as [|x p IH]; [reflexivity|].
  rewrite str_app_cons. exact IH.
Qed.

Lemma substring_prefix (x q : string) :
  String.substring 0 (String.length x) (x +:+ q) = x.
Proof.
  induction x as [|c x IH].
  - rewrite str_app_nil_l. by destruct q.
  - rewrite str_app_cons. cbn [String.length String.substring]. by rewrite IH.
Qed.

(** The field [x] of a line, between what precedes it and what follows
    it. *)
Lemma slice_field (p x q : string) :
  Py.slice (String.length p) (String.length p + String.length x) (p +:+ x +:+ q) = x.
Proof.
  unfold Py.slice. rewrite !str_length_app.
  replace (Nat.min (String.length p + String.length x)
             (String.length p + (String.length x + String.length q))
           - String.length p)%nat with (String.length x) by lia.
  rewrite <- (Nat.add_0_r (String.length p)) at 1.
  rewrite substring_skip. apply substring_prefix.
Qed.

(** The fields of a line, one after the other. *)
Definition joined (fields : list string) : string :=
  fold_right String.append "" fields.

Lemma fold_left_joined {A} (g : A -> string) (l : list A) (s : string) :
  fold_left (fun acc x => acc +:+ g x) l s = s +:+ joined (map g l).
Proof.
  revert s. induction l as [|x l IH]; intros s.
  - cbn [fold_left map]. unfold joined. cbn [fold_right].
    by rewrite str_app_nil_r.
  - cbn [fold_left map]. unfold joined. cbn [fold_right].
    fold (joined (map g l)). by rewrite IH, str_app_assoc.
Qed.

Lemma mapM_ext {A C} (f g : A -> result C) (l : list A) :
  (forall a, f a = g a) -> mapM f l = mapM g l.
Proof. intros H. induction l; simpl; [reflexivity | by rewrite H, IHl]. Qed.

Lemma mapM_map {A A' C} (f : A' -> result C) (h : A -> A') (l : list A) :
  mapM f (map h l) = mapM (fun a => f (h a)) l.
Proof. induction l; simpl; [reflexivity | by rewrite IHl]. Qed.

Lemma mapM_app {A C} (f : A -> result C) (l1 l2 : list A) :
  mapM f (l1 ++ l2) = do a <- mapM f l1; do b <- mapM f l2; Ok (a ++ b).
Proof.
  induction l1 as [|x l1 IH]; simpl.
  - by destruct (mapM f l2).
  - destruct (f x); simpl; [|reflexivity]. rewrite IH.
    destruct (mapM f l1); simpl; [|reflexivity].
    by destruct (mapM f l2).
Qed.

Section Fields.
Variable width : nat.
Variable g : float -> string.
Variable rnd : float -> float.

(** The value fits its field and reads back as [rnd] of it. *)
Definition field_ok (v : float) : Prop :=
  String.length (g v) = width /\ py_float (g v) = Some (rnd v).

Lemma read_fields (vals : list float) (p q : string) :
  Forall field_ok vals ->
  mapM (fun k => float_of (Py.slice (String.length p + k * width)
                                    (String.length p + k * width + width)
                                    (p +:+ joined (map g vals) +:+ q)))
       (seq 0 (length vals))
  = Ok (map rnd vals).
Proof.
  intros Hok. revert p. induction Hok as [|v vals [Hw Hr] _ IH]; intros p.
  - reflexivity.
  - cbn [length seq mapM map joined fold_right].
    fold (joined (map g vals)).
    rewrite Nat.mul_0_l, Nat.add_0_r, str_app_assoc.
    rewrite <- Hw at 1. rewrite slice_field.
    unfold float_of at 1. rewrite Hr. cbn [of_option rbind].
    rewrite <- seq_shift, mapM_map.
    rewrite (mapM_ext _
      (fun k => float_of (Py.slice (String.length (p +:+ g v) + k * width)
                                   (String.length (p +:+ g v) + k * width + width)
                                   ((p +:+ g v) +:+ joined (map g vals) +:+ q)))).
    + by rewrite IH.
    + intros k. rewrite str_length_app, Hw, !str_app_assoc.
      do 2 f_equal; lia.
Qed.

End Fields.

(** *** Writing the years and reading them back *)

(** The values of [data] that stand at the positions of [year] in
    [years], in their order. *)
Fixpoint values_of (year : Z) (years : list Z) (data : list float) : list float :=
  match years, data with
  | y :: years', v :: data' =>
      if y =? year then v :: values_of year years' data'
      else values_of year years' data'
  | _, _ => []
  end.

Lemma take_indexes_where (year : Z) (years : list Z) (data pre : list float) :
  (length years <= length data)%nat ->
  take_indexes (pre ++ data) (where_eq year years (length pre))
  = Ok (values_of year years data).
Proof.
  revert data pre. induction years as [|y years IH]; intros data pre Hlen.
  - by destruct data.
  - destruct data as [|v data]; [simpl in Hlen; lia|]. simpl in Hlen.
    specialize (IH data (pre ++ [v])).
    rewrite <- app_assoc, length_app, Nat.add_1_r in IH. simpl in IH.
    cbn [where_eq values_of]. destruct (y =? year).
    + unfold take_indexes in *. cbn [mapM].
      rewrite list_lookup_middle by reflexivity. cbn [of_option rbind].
      rewrite IH by lia. reflexivity.
    + apply IH. lia.
Qed.

Lemma values_of_Forall (P : float -> Prop) year years data :
  Forall P data -> Forall P (values_of year years data).
Proof.
  intros H. revert years. induction H as [|v data Hv _ IH]; intros [|y years];
    simpl; try constructor.
  destruct (y =? year); [constructor|]; auto.
Qed.

Lemma values_of_length year years data :
  (length years <= length data)%nat ->
  length (values_of year years data) = values_of_year year years.
Proof.
  intros Hlen.
  pose proof (take_indexes_where year years data [] Hlen) as E. simpl in E.
  destruct (take_indexes_Ok data (where_eq year years 0)) as (vs & E' & L).
  { eapply Forall_impl; [apply where_eq_bound|]. cbv beta. intros. lia. }
  rewrite E in E'. injection E' as <-. by rewrite L, where_eq_length.
Qed.

(** The 370 values of a year: its own, then the zeros. *)
Definition padded (year : Z) (years : list Z) (data : list float) : list float :=
  values_of year years data
  ++ repeat fzero (10 - length (values_of year years data) mod 10).

(** The 37 lines of a year. *)
Definition block (fmt : formats) (years : list Z) (data : list float) (year : Z)
  : list row :=
  map (format_line fmt year) (reshape 37 10 (padded year years data)).

Lemma padded_length year years data :
  complete years year -> (length years <= length data)%nat ->
  length (padded year years data) = 370%nat.
Proof.
  intros Hc Hlen. unfold padded. rewrite length_app, repeat_length.
  rewrite values_of_length by assumption. unfold complete in Hc.
  assert (Hd : values_of_year year years = 365%nat \/ values_of_year year years = 366%nat).
  { unfold Py.days_in_year in Hc. destruct (Py.isleap year); lia. }
  destruct Hd as [-> | ->]; reflexivity.
Qed.

Lemma format_year_block fmt years data year :
  complete years year -> (length years <= length data)%nat ->
  format_year fmt years data year = Ok (block fmt years data year).
Proof.
  intros Hc Hlen. unfold format_year. rewrite where_eq_length.
  unfold complete in Hc. rewrite Hc, Z.eqb_refl. cbn [negb].
  pose proof (take_indexes_where year years data [] Hlen) as E.
  cbn [app length] in E. rewrite E. cbn [rbind].
  fold (padded year years data). unfold reshape_37_10.
  rewrite padded_length by assumption. reflexivity.
Qed.

Lemma format_years_blocks fmt years data todo fdata :
  Forall (complete years) todo -> (length years <= length data)%nat ->
  format_years fmt years data todo fdata
  = Ok (fdata ++ concat (map (block fmt years data) todo)).
Proof.
  intros Hc Hlen. revert fdata.
  induction Hc as [|year todo Hy _ IH]; intros fdata;
    cbn [format_years map concat].
  - by rewrite app_nil_r.
  - rewrite format_year_block by assumption. cbn [rbind].
    by rewrite IH, app_assoc.
Qed.

Lemma block_length fmt years data year :
  length (block fmt years data year) = 37%nat.
Proof. unfold block. by rewrite length_map, reshape_length. Qed.

Lemma reshape_Forall {A} (P : A -> Prop) (n ncol : nat) (a : list A) :
  (n * ncol <= length a)%nat -> Forall P a ->
  Forall (fun r => length r = ncol /\ Forall P r) (reshape n ncol a).
Proof.
  revert a. induction n as [|n IH]; intros a Hlen HP; simpl; constructor.
  - simpl in Hlen. split; [rewrite length_take; lia | by apply Forall_take].
  - apply IH; [|by apply Forall_drop]. simpl in Hlen. rewrite length_drop. lia.
Qed.

Lemma concat_reshape {A} (n ncol : nat) (a : list A) :
  concat (reshape n ncol a) = take (n * ncol) a.
Proof.
  revert a. induction n as [|n IH]; intros a; simpl; [by rewrite take_0|].
  by rewrite IH, take_take_drop.
Qed.

Section Roundtrip.
Variable fmt : formats.
Variable rnd : float -> float.
Variable years : list Z.
Variable data : list float.

(** The year fits its field and reads back. *)
Definition year_ok (year : Z) : Prop :=
  String.length (Py.format_int (year_width fmt) year) = year_width fmt /\
  py_int (Py.format_int (year_width fmt) year) = Some year.

(** The value fits its field and reads back as [rnd] of it. *)
Definition value_ok (v : float) : Prop :=
  field_ok (data_width fmt) (format_f (data_width fmt) (data_prec fmt)) rnd v.

Lemma read_line_format (year : Z) (vals : list float) :
  year_ok year -> Forall value_ok vals -> length vals = 10%nat ->
  read_HELP_line fmt (format_line fmt year vals) = Ok (year, map rnd vals).
Proof.
  intros [Hw Hr] Hv Hlen. unfold format_line, read_HELP_line.
  rewrite fold_left_joined.
  set (ystr := Py.format_int (year_width fmt) year) in *.
  set (g := format_f (data_width fmt) (data_prec fmt)) in *.
  assert (E0 : Py.slice 0 (year_width fmt) (ystr +:+ joined (map g vals)) = ystr).
  { rewrite <- Hw.
    apply (slice_field "" ystr (joined (map g vals))). }
  rewrite E0. unfold int_of. rewrite Hr. cbn [of_option rbind].
  rewrite <- Hlen, <- Hw.
  rewrite <- (str_app_nil_r (joined (map g vals))), <- str_app_assoc.
  rewrite (mapM_ext _
    (fun k => float_of (Py.slice (String.length ystr + k * data_width fmt)
                                 (String.length ystr + k * data_width fmt
                                  + data_width fmt)
                                 (ystr +:+ joined (map g vals) +:+ "")))).
  - rewrite (read_fields (data_width fmt) g rnd vals ystr "" Hv). reflexivity.
  - intros k. by rewrite str_app_assoc.
Qed.

Lemma read_lines_format (year : Z) (grid : list (list float)) :
  year_ok year ->
  Forall (fun r => length r = 10%nat /\ Forall value_ok r) grid ->
  mapM (read_HELP_line fmt) (map (format_line fmt year) grid)
  = Ok (map (fun r => (year, map rnd r)) grid).
Proof.
  intros Hy. induction 1 as [|r grid [Hl Hr] _ IH]; [reflexivity|].
  cbn [map mapM]. rewrite read_line_format by assumption. cbn [rbind].
  by rewrite IH.
Qed.

Lemma concat_rows (year : Z) (grid : list (list float)) :
  concat (map snd (map (fun r => (year, map rnd r)) grid)) = map rnd (concat grid).
Proof.
  induction grid as [|r grid IH]; [reflexivity|].
  cbn [map concat snd]. by rewrite IH, map_app.
Qed.

Hypothesis data_long : (length years <= length data)%nat.
Hypothesis values_ok : Forall value_ok (fzero :: data).

Lemma padded_ok (year : Z) : Forall value_ok (padded year years data).
Proof.
  apply Forall_cons in values_ok as [Hz Hd]. unfold padded.
  apply Forall_app. split; [by apply values_of_Forall|].
  apply Forall_forall. intros v Hv. apply list_elem_of_In, repeat_spec in Hv.
  by subst.
Qed.

(** Reading the 37 lines of a year: the year and its values. *)
Lemma read_block (year : Z) (n : nat) (rest : list row) :
  complete years year -> year_ok year ->
  read_HELP_years fmt (Datatypes.S n) (block fmt years data year ++ rest)
  = do rest' <- read_HELP_years fmt n rest;
    Ok ((year, map rnd (values_of year years data)) :: rest').
Proof.
  intros Hc Hy. cbn [read_HELP_years].
  rewrite (take_app_length' (block fmt years data year) rest 37)
    by (symmetry; apply block_length).
  rewrite (drop_app_length' (block fmt years data year) rest 37)
    by (symmetry; apply block_length).
  pose proof (padded_length year years data Hc data_long) as Hp.
  unfold block at 1. rewrite read_lines_format; [|assumption|].
  2:{ apply reshape_Forall; [lia | apply padded_ok]. }
  cbn [rbind]. rewrite concat_rows, concat_reshape.
  change (37 * 10)%nat with 370%nat. rewrite <- Hp, firstn_all.
  assert (Hd : Z.to_nat (Py.days_in_year year) = length (values_of year years data)).
  { rewrite values_of_length by assumption. unfold complete in Hc. lia. }
  cbn [reshape map head of_option rbind fst].
  rewrite Hd. unfold padded. rewrite map_app, <- (length_map rnd), take_app_length.
  reflexivity.
Qed.

Lemma read_blocks (todo : list Z) :
  Forall (complete years) todo -> Forall year_ok todo ->
  read_HELP_years fmt (length todo) (concat (map (block fmt years data) todo))
  = Ok (map (fun year => (year, map rnd (values_of year years data))) todo).
Proof.
  induction 1 as [|year todo Hc _ IH]; intros Hy; [reflexivity|].
  apply Forall_cons in Hy as [Hy Hys].
  cbn [length map concat]. rewrite read_block by assumption.
  by rewrite IH.
Qed.

Lemma blocks_length (todo : list Z) :
  length (concat (map (block fmt years data) todo)) = (37 * length todo)%nat.
Proof.
  induction todo as [|year todo IH]; [reflexivity|].
  cbn [map concat length]. rewrite length_app, block_length, IH. lia.
Qed.

End Roundtrip.

(** The least C2 asks for: the data block written for [years] and [data]
    can be read back into year/value pairs. *)
Definition reads_back (fmt : formats) (years : list Z) (data : list float)
  : Prop :=
  exists fdata pairs,
    format_timeseries_for_HELP years data fmt = Ok fdata /\
    read_HELP_data_block fmt fdata = Ok pairs.

(** C2, amended.  When every year of [years] has its 365 values, or 366
    in a leap year, and every year and every value (and the zero that
    fills the last line) is printed on the width of its field and reads
    back from it, the data block written for [years] and [data] has 37
    lines per year and reads back as the years in increasing order, each
    with its values in their order, as their fields read ([rnd]: the
    value at the precision of the numeric format). *)
Theorem C2_written_data_block_reads_back
  (fmt : formats) (rnd : float -> float) (years : list Z) (data : list float) :
  length data = length years ->
  Forall (complete years) years ->
  Forall (year_ok fmt) years ->
  Forall (value_ok fmt rnd) (fzero :: data) ->
  exists fdata,
    format_timeseries_for_HELP years data fmt = Ok fdata /\
    length fdata = (37 * length (np_unique years))%nat /\
    read_HELP_data_block fmt fdata
    = Ok (map (fun year => (year, map rnd (values_of year years data)))
              (np_unique years)).
Proof.
  intros Hlen Hc Hy Hv.
  assert (Hlen' : (length years <= length data)%nat) by lia.
  assert (Hsub : forall P : Z -> Prop, Forall P years -> Forall P (np_unique years)).
  { intros P HP. apply Forall_forall. intros y Hin.
    rewrite np_unique_elem in Hin. rewrite Forall_forall in HP. by apply HP. }
  exists (concat (map (block fmt years data) (np_unique years))).
  split; [|split].
  - unfold format_timeseries_for_HELP.
    rewrite (format_years_blocks fmt years data (np_unique years) []
               (Hsub _ Hc) Hlen').
    reflexivity.
  - by apply blocks_length.
  - unfold read_HELP_data_block. rewrite blocks_length by exact Hlen'.
    rewrite Nat.mul_comm, Nat.div_mul by lia.
    exact (read_blocks fmt rnd years data Hlen' Hv (np_unique years)
             (Hsub _ Hc) (Hsub _ Hy)).
Qed.

End Help.
End HelpFacts.

Module HelpExamples.
Import Weather WeatherFacts HelpFacts.

Lemma fits_value_ok (fmt : formats) (x : Concrete.xfloat) :
  Concrete.fits (data_width fmt) (data_prec fmt) x = true ->
  value_ok (B := Concrete.builtins) fmt
    (Concrete.reread (data_width fmt) (data_prec fmt)) x.
Proof.
  unfold Concrete.fits, Concrete.reread, value_ok, field_ok. simpl.
  intros [H1 H2]%andb_prop. apply Nat.eqb_eq in H1. split; [exact H1|].
  destruct (Concrete.ascii_float _); [reflexivity | discriminate].
Qed.

Lemma C7_witness :
  let B := Concrete.builtins in
  let years := repeat 2001 364 in
  let data := repeat (Concrete.Fin 0 1) 364 in
  let w := Samples.world0 in
  (exists e, save_data_to_HELP_format "rain.D4" years data "MONTREAL" None w = (w, Raise e))
  /\ (forall fmt, exists e, format_timeseries_for_HELP years data fmt = Raise e)
  /\ (exists e, save_precip_to_HELP "rain.D4" years data "MONTREAL" w = (w, Raise e))
  /\ (exists e, save_airtemp_to_HELP "rain.D4" years data "MONTREAL" w = (w, Raise e))
  /\ (forall l, exists e, save_solrad_to_HELP "rain.D4" years data "MONTREAL" l w = (w, Raise e))
  /\ ((length years <= length data)%nat ->
      (forall fmt, format_timeseries_for_HELP years data fmt = Raise AssertionError)
      /\ (is_ok (formats_of_ext (float := Concrete.xfloat)
                   (Py.slice_from 1 (Py.splitext_ext "rain.D4")) None) = true ->
          save_data_to_HELP_format "rain.D4" years data "MONTREAL" None w
          = (w, Raise AssertionError))).
Proof.
  intros B years data w.
  apply (C7_incomplete_year_writes_nothing (B := B) "rain.D4" years data
           "MONTREAL" None w 2001).
  - apply list_elem_of_In. left. reflexivity.
  - unfold complete. vm_compute. discriminate.
Defined.

(** A value of four digits does not fit the field of five characters of
    a precipitation file: the line is one character longer, and its
    fields do not read as numbers any more. *)
Lemma C2_counterexample :
  ~ reads_back (B := Concrete.builtins) D4_formats Samples.year_2001 Samples.wet_year.
Proof.
  intros (fdata & pairs & E1 & E2).
  vm_compute in E1. injection E1 as <-.
  vm_compute in E2. discriminate E2.
Qed.

Lemma C2_witness :
  let B := Concrete.builtins in
  exists fdata,
    format_timeseries_for_HELP Samples.year_2001 Samples.tenths_of_year D4_formats
      = Ok fdata /\
    length fdata = (37 * length (np_unique Samples.year_2001))%nat /\
    read_HELP_data_block D4_formats fdata
    = Ok (map (fun year =>
                 (year, map (Concrete.reread 5 1)
                            (values_of year Samples.year_2001 Samples.tenths_of_year)))
              (np_unique Samples.year_2001)).
Proof.
  intros B.
  apply (C2_written_data_block_reads_back (B := B) D4_formats (Concrete.reread 5 1)
           Samples.year_2001 Samples.tenths_of_year).
  - vm_compute. reflexivity.
  - apply List.Forall_forall. intros y Hy. apply repeat_spec in Hy. subst y.
    unfold complete. vm_compute. reflexivity.
  - apply List.Forall_forall. intros y Hy. apply repeat_spec in Hy. subst y.
    split; vm_compute; reflexivity.
  - apply List.Forall_forall. intros v Hv.
    apply (fits_value_ok D4_formats).
    revert v Hv. apply forallb_forall.
    vm_compute. reflexivity.
Defined.

End HelpExamples.

(** ** The parsers on reports that are not well formed *)

Module ParserFacts.
Import Processing ProcessingFacts.

Section Monthly.
Context {float : Type} {B : Builtins float}.

Local Abbreviation mstate := (Processing.mstate float).
Local Abbreviation monthly := (Processing.monthly float).

Lemma outer_loop_cons (st : mstate) loc r r' rest :
  outer_loop st loc (r :: r' :: rest) =
  match r with
  | [] => outer_loop st loc (r' :: rest)
  | line :: _ =>
      if Py.contains "MONTHLY TOTALS" line then
        do tok <- Py.last_item (Py.split line);
        do year <- int_of tok;
        inner_loop (open_block_state st year) (open_block_locals loc) (r' :: rest)
      else if Py.contains "FINAL WATER STORAGE" line then Ok st
      else outer_loop st loc (r' :: rest)
  end.
Proof. reflexivity. Qed.

(** A row that opens no year block. *)
Definition no_title (r : row) : Prop :=
  match r with
  | [] => True
  | line :: _ => Py.contains "MONTHLY TOTALS" line = false
  end.

(** A row the outer loop steps over. *)
Definition quiet (r : row) : Prop :=
  match r with
  | [] => True
  | line :: _ =>
      Py.contains "MONTHLY TOTALS" line = false /\
      Py.contains "FINAL WATER STORAGE" line = false
  end.

Lemma outer_loop_no_title (st : mstate) loc rows :
  Forall no_title (removelast rows) -> outer_loop st loc rows = Ok st.
Proof.
  induction rows as [|r rest IH]; [reflexivity|].
  destruct rest as [|r' rest']; [reflexivity|].
  change (removelast (r :: r' :: rest')) with (r :: removelast (r' :: rest')).
  intros H. apply Forall_cons in H as [Hr H]. rewrite outer_loop_cons.
  destruct r as [|line fields]; [by apply IH|].
  cbn in Hr. rewrite Hr.
  destruct (Py.contains "FINAL WATER STORAGE" line); [reflexivity | by apply IH].
Qed.

Lemma outer_loop_quiet (st : mstate) loc pre rest :
  Forall quiet pre -> rest <> [] ->
  outer_loop st loc (pre ++ rest) = outer_loop st loc rest.
Proof.
  intros Hpre Hrest. induction Hpre as [|r pre Hr _ IH]; [reflexivity|].
  cbn [app]. destruct (pre ++ rest) as [|r' rest'] eqn:E.
  { destruct pre; [contradiction | discriminate]. }
  rewrite outer_loop_cons. destruct r as [|line fields]; [exact IH|].
  destruct Hr as [-> ->]. exact IH.
Qed.

Lemma inner_loop_unterminated (st : mstate) loc rows :
  Forall not_separator rows -> inner_loop st loc rows = Raise IndexError.
Proof.
  intros H. revert loc. induction H as [|r rows Hr _ IH]; intros loc;
    [reflexivity|].
  rewrite inner_loop_cons. destruct r as [|line fields]; [apply IH|].
  cbn in Hr. rewrite Hr. destruct rows as [|[|nline nfields] rows']; auto.
Qed.

(** X1.  A report in which no row before the last one has "MONTHLY
    TOTALS" in its first field gives no table: the parser ends with
    empty lists, and [np.vstack] raises [ValueError] on them.  The empty
    file is such a report, and so is a file whose only title is its last
    row, which the loop never reads. *)
Theorem monthly_without_title_raises (csvread : list row) :
  Forall no_title (removelast csvread) ->
  outer_loop init_mstate init_locals csvread = Ok init_mstate
  /\ read_monthly_help_output csvread = Raise ValueError.
Proof.
  intros H. pose proof (outer_loop_no_title init_mstate init_locals csvread H) as E.
  split; [exact E|]. unfold read_monthly_help_output. rewrite E. reflexivity.
Qed.

(** X2.  A year block that the file ends in, before any row of
    asterisks, makes the parser raise [IndexError], whatever was read
    before it: the inner loop has no test of the end of the file. *)
Theorem monthly_unterminated_block_raises
  (pre : list row) (title : string) (tfields : list string) (year : Z)
  (body : list row) :
  Forall quiet pre ->
  title_of title year ->
  body <> [] ->
  Forall not_separator body ->
  (forall (st : mstate) loc,
      outer_loop st loc (pre ++ (title :: tfields) :: body) = Raise IndexError)
  /\ read_monthly_help_output (pre ++ (title :: tfields) :: body) = Raise IndexError.
Proof.
  intros Hpre [Ht Hy] Hne Hbody.
  assert (E : forall (st : mstate) loc,
    outer_loop st loc (pre ++ (title :: tfields) :: body) = Raise IndexError).
  { intros st loc. rewrite outer_loop_quiet by done.
    destruct body as [|r body']; [contradiction|].
    rewrite outer_loop_cons, Ht.
    destruct (Py.last_item (Py.split title)) as [tok|e]; [|discriminate].
    cbn [rbind] in Hy |- *. rewrite Hy. cbn [rbind].
    by apply inner_loop_unterminated. }
  split; [exact E|]. unfold read_monthly_help_output. by rewrite E.
Qed.

Lemma update_precip_other loc line nline :
  Py.contains "PRECIPITATION" line = false ->
  precip (update_locals loc line nline) = precip loc.
Proof.
  intros H. unfold update_locals. rewrite H.
  repeat (match goal with |- context [if ?c then _ else _] => destruct c end;
          simpl; try done).
Qed.

Lemma fold_precip_other pairs loc :
  Forall (fun p : string * string => Py.contains "PRECIPITATION" p.1 = false) pairs ->
  precip (fold_left update_pair pairs loc) = precip loc.
Proof.
  intros H. revert loc. induction H as [|[line nline] pairs Hp _ IH]; intros loc;
    [reflexivity|].
  cbn [fold_left]. rewrite IH. by apply update_precip_other.
Qed.

(** X3.  The local [precip] is not reset when a year block starts.  In
    a block none of whose pairs of lines has "PRECIPITATION" in its first
    line, the row of [rain] is read again from the tokens an earlier
    block assigned; when no block did, as in the first block of a file,
    the parser raises [UnboundLocalError]. *)
Theorem monthly_rain_carried_over
  (st : mstate) (loc : locals) (title : string) (tfields : list string)
  (year : Z) (body : list row) (sline : string) (sfields : list string)
  (rest : list row) :
  title_of title year ->
  Forall not_separator body ->
  Py.contains "**********" sline = true ->
  Forall (fun p : string * string => Py.contains "PRECIPITATION" p.1 = false)
         (block_pairs body (sline :: sfields)) ->
  let block := (title :: tfields) :: body ++ (sline :: sfields) :: rest in
  let loc' := block_locals loc body (sline :: sfields) in
  precip loc' = precip loc
  /\ (precip loc = None -> outer_loop st loc block = Raise UnboundLocalError)
  /\ (forall st', close_block (open_block_state st year) loc' = Ok st' ->
      exists toks v,
        precip loc = Some toks /\ astype_f32 (Some toks) = Ok v /\
        vstack_precip st' = vstack_precip st ++ [v])
  /\ read_monthly_help_output block = Raise UnboundLocalError.
Proof.
  intros Ht Hbody Hsep Hdry block loc'.
  assert (Hp : forall l, precip (block_locals l body (sline :: sfields)) = precip l).
  { intros l. unfold block_locals. by rewrite fold_precip_other. }
  assert (Hnone : forall (s : mstate) l, precip l = None ->
            outer_loop s l block = Raise UnboundLocalError).
  { intros s l Hl. unfold block.
    rewrite (outer_loop_block s l title tfields year body sline sfields rest)
      by assumption.
    cbv zeta. unfold close_block. rewrite Hp, Hl. reflexivity. }
  split; [apply Hp|]. split; [apply Hnone|]. split.
  - intros st' Hc.
    apply close_block_Ok in Hc as (p & r & e & g & c & s & Hc & _ & _ & _ & _ & _ & ->).
    unfold loc' in Hc. rewrite Hp in Hc.
    destruct (precip loc) as [toks|]; [|discriminate].
    exists toks, p. done.
  - unfold read_monthly_help_output. by rewrite Hnone.
Qed.

(** *** Which pair of a block a row is read from *)

(** The labels of the [if]/[elif] chain, each with the labels tested
    before it ruled out. *)
Definition is_precip (line : string) : bool :=
  Py.contains "PRECIPITATION" line.

Definition is_runoff (line : string) : bool :=
  negb (Py.contains "PRECIPITATION" line) && Py.contains "RUNOFF" line.

Definition is_evapo (line : string) : bool :=
  negb (Py.contains "PRECIPITATION" line) && negb (Py.contains "RUNOFF" line)
  && Py.contains "EVAPOTRANSPIRATION" line.

(** The pairs whose first line is of a class. *)
Definition pairs_of (label : string -> bool) (pairs : list (string * string))
  : list (string * string) :=
  filter (fun p => label p.1 = true) pairs.

(** The last pair of a class, or what the local held before. *)
Definition last_or (label : string -> bool) (pairs : list (string * string))
  (before : option (list string)) : option (list string) :=
  match last (pairs_of label pairs) with
  | Some p => Some (tokens_of p)
  | None => before
  end.

Lemma update_locals_three loc line nline :
  precip (update_locals loc line nline)
    = (if is_precip line then Some (pair_tokens line nline) else precip loc)
  /\ runoff (update_locals loc line nline)
    = (if is_runoff line then Some (pair_tokens line nline) else runoff loc)
  /\ evapo (update_locals loc line nline)
    = (if is_evapo line then Some (pair_tokens line nline) else evapo loc).
Proof.
  unfold update_locals, is_precip, is_runoff, is_evapo.
  destruct (Py.contains "PRECIPITATION" line); [done|].
  destruct (Py.contains "RUNOFF" line); [done|].
  destruct (Py.contains "EVAPOTRANSPIRATION" line); [done|].
  destruct (Py.contains "LATERAL DRAINAGE" line && is_None (subrunoff loc)); [done|].
  by destruct (Py.contains "PERCOLATION" line).
Qed.

Lemma fold_last_pair (get : locals -> option (list string)) (label : string -> bool)
  (pairs : list (string * string)) (loc : locals) :
  (forall l line nline,
      get (update_locals l line nline)
      = if label line then Some (pair_tokens line nline) else get l) ->
  get (fold_left update_pair pairs loc) = last_or label pairs (get loc).
Proof.
  intros Hget. unfold last_or, pairs_of. revert loc.
  induction pairs as [|[line nline] pairs IH]; intros loc; [reflexivity|].
  cbn [fold_left]. rewrite IH. unfold update_pair. cbn [fst snd].
  rewrite Hget, filter_cons. cbn [fst].
  destruct (label line) eqn:El.
  - rewrite decide_True by reflexivity. rewrite last_cons.
    by destruct (last (filter _ pairs)).
  - rewrite decide_False by discriminate. reflexivity.
Qed.

(** X26.  In a year block the rows of [rain], [runoff] and [evapo] are
    read from the last pair of lines of their label: "PRECIPITATION"
    for the first, "RUNOFF" without "PRECIPITATION" for the second,
    "EVAPOTRANSPIRATION" without the other two for the third, wherever
    the label stands in the line.  A line with two labels counts for the
    first of them only, and a block without a pair of a label keeps
    what the local held before the block. *)
Theorem monthly_last_pair_of_a_label_wins
  (st : mstate) (loc : locals) (title : string) (tfields : list string)
  (year : Z) (body : list row) (sline : string) (sfields : list string) :
  title_of title year ->
  Forall not_separator body ->
  Py.contains "**********" sline = true ->
  let pairs := block_pairs body (sline :: sfields) in
  let loc' := block_locals loc body (sline :: sfields) in
  precip loc' = last_or is_precip pairs (precip loc)
  /\ runoff loc' = last_or is_runoff pairs (runoff loc)
  /\ evapo loc' = last_or is_evapo pairs (evapo loc)
  /\ forall st',
       outer_loop st loc ((title :: tfields) :: body ++ [sline :: sfields]) = Ok st' ->
       arr_years st' = arr_years st ++ [year] /\
       exists p r e,
         astype_f32 (last_or is_precip pairs (precip loc)) = Ok p /\
         astype_f32 (last_or is_runoff pairs (runoff loc)) = Ok r /\
         astype_f32 (last_or is_evapo pairs (evapo loc)) = Ok e /\
         vstack_precip st' = vstack_precip st ++ [p] /\
         vstack_runoff st' = vstack_runoff st ++ [r] /\
         vstack_evapo st' = vstack_evapo st ++ [e].
Proof.
  intros Ht Hbody Hsep pairs loc'.
  assert (Hp : precip loc' = last_or is_precip pairs (precip loc)).
  { unfold loc', block_locals. fold pairs.
    apply (fold_last_pair precip is_precip pairs (open_block_locals loc)).
    intros. apply update_locals_three. }
  assert (Hr : runoff loc' = last_or is_runoff pairs (runoff loc)).
  { unfold loc', block_locals. fold pairs.
    apply (fold_last_pair runoff is_runoff pairs (open_block_locals loc)).
    intros. apply update_locals_three. }
  assert (He : evapo loc' = last_or is_evapo pairs (evapo loc)).
  { unfold loc', block_locals. fold pairs.
    apply (fold_last_pair evapo is_evapo pairs (open_block_locals loc)).
    intros. apply update_locals_three. }
  repeat (split; [assumption|]).
  intros st' H.
  rewrite (outer_loop_block st loc title tfields year body sline sfields [])
    in H by assumption.
  cbv zeta in H. fold loc' in H.
  apply rbind_Ok in H as (st1 & Hc & H). cbn in H. injection H as <-.
  apply close_block_Ok in Hc as (p & r & e & g & c & s & Ep & Er & Ee & _ & _ & _ & ->).
  cbn. split; [reflexivity|]. exists p, r, e.
  rewrite <- Hp, <- Hr, <- He. done.
Qed.

(** X27.  A row with "FINAL WATER STORAGE" in its first field (and no
    "MONTHLY TOTALS"), met outside of a year block and before the last
    row of the file, ends the parse: what follows it is not read.  So
    after a year block, the table is the same whatever rows follow the
    "FINAL WATER STORAGE" row. *)
Theorem monthly_stops_at_final_water_storage
  (quiet_rows : list row) (fline : string) (ffields : list string)
  (tail : list row) :
  Forall quiet quiet_rows ->
  Py.contains "MONTHLY TOTALS" fline = false ->
  Py.contains "FINAL WATER STORAGE" fline = true ->
  tail <> [] ->
  (forall (st : mstate) loc,
      outer_loop st loc (quiet_rows ++ (fline :: ffields) :: tail) = Ok st)
  /\ (forall title tfields year body sline sfields tail',
        title_of title year ->
        Forall not_separator body ->
        Py.contains "**********" sline = true ->
        tail' <> [] ->
        read_monthly_help_output
          ((title :: tfields) :: body ++ (sline :: sfields)
             :: quiet_rows ++ (fline :: ffields) :: tail)
        = read_monthly_help_output
            ((title :: tfields) :: body ++ (sline :: sfields)
               :: quiet_rows ++ (fline :: ffields) :: tail')).
Proof.
  intros Hq Hm Hf Htail.
  assert (Hstop : forall (st : mstate) loc t, t <> [] ->
            outer_loop st loc (quiet_rows ++ (fline :: ffields) :: t) = Ok st).
  { intros st loc t Ht. rewrite outer_loop_quiet by done.
    destruct t as [|r t]; [contradiction|].
    by rewrite outer_loop_cons, Hm, Hf. }
  split; [intros; by apply Hstop|].
  intros title tfields year body sline sfields tail' Ht Hbody Hsep Htail'.
  unfold read_monthly_help_output.
  rewrite !(outer_loop_block init_mstate init_locals title tfields year body
              sline sfields) by assumption.
  cbv zeta.
  destruct (close_block _ _) as [st1|e]; [|reflexivity]. cbn [rbind].
  by rewrite !Hstop.
Qed.

End Monthly.

Section Daily.
Context {float : Type} {B : Builtins float}.

Local Abbreviation dstate := (Processing.dstate float).
Local Abbreviation daily := (Processing.daily float).
Local Abbreviation day_row := (Processing.day_row float).

(** What the [try] block reads from a row. *)
Definition parsed (r : row) : option day_row :=
  match r with
  | [] => None
  | line :: _ => parse_day_row line
  end.

(** The entries of the table, each with its year. *)
Definition table_of (es : list (Z * day_row)) : daily :=
  {| d_years := map (fun e => Py.uint16 e.1) es;
     d_days := map (fun e => Py.uint16 (r_day e.2)) es;
     d_rain := map (fun e => f32 (r_rain e.2)) es;
     d_runoff := map (fun e => f32 (r_ru e.2)) es;
     d_et := map (fun e => f32 (r_et e.2)) es;
     d_ezone := map (fun e => f32 (r_ezone e.2)) es;
     d_head_first := map (fun e => f32 (r_headfirst e.2)) es;
     d_drain_first := map (fun e => f32 (r_drainfirst e.2)) es;
     d_leak_first := map (fun e => f32 (r_leakfirst e.2)) es;
     d_leak_last := map (fun e => f32 (r_leaklast e.2)) es |}.

(** The ten lists that hold the entries [es]. *)
Definition holds (st : dstate) (es : list (Z * day_row)) : Prop :=
  arrays st =
  (map fst es, map (fun e => r_day e.2) es, map (fun e => r_rain e.2) es,
   map (fun e => r_ru e.2) es, map (fun e => r_et e.2) es,
   map (fun e => r_ezone e.2) es, map (fun e => r_headfirst e.2) es,
   map (fun e => r_drainfirst e.2) es, map (fun e => r_leakfirst e.2) es,
   map (fun e => r_leaklast e.2) es).

Lemma holds_same (st st' : dstate) es :
  holds st es -> arrays st' = arrays st -> holds st' es.
Proof. unfold holds. congruence. Qed.

Lemma holds_app (st st' : dstate) es y ds :
  holds st es -> arrays st' = arrays_app st y ds ->
  holds st' (es ++ map (pair y) ds).
Proof.
  unfold holds, arrays, arrays_app.
  intros [= -> -> -> -> -> -> -> -> -> ->] ->.
  rewrite !map_app, !map_map. reflexivity.
Qed.

Lemma holds_table (st : dstate) es : holds st es -> daily_table st = table_of es.
Proof.
  unfold holds, arrays, daily_table, table_of.
  intros [= -> -> -> -> -> -> -> -> -> ->]. rewrite !map_map. reflexivity.
Qed.

Lemma arrays_app_nil (st : dstate) y : arrays_app st y [] = arrays st.
Proof. unfold arrays_app, arrays. cbn [map]. by rewrite !app_nil_r. Qed.

(** A plain row inside a year: appended when it parses, stepped over
    when it does not. *)
Lemma daily_step_plain (st : dstate) r y diy :
  year st = Some y -> days_in_year st = Some diy -> plain_row r = true ->
  exists st', daily_step st r = Ok st' /\ days_in_year st' = Some diy /\
    match parsed r with
    | None => year st' = Some y /\ arrays st' = arrays st
    | Some d => year st' = (if r_day d =? diy then None else Some y) /\
                arrays st' = arrays_app st y [d]
    end.
Proof.
  intros Hy Hd Hr. destruct (parsed r) as [d|] eqn:Ep.
  - destruct (daily_step_data st r y diy d Hy Hd) as (st' & E & Hy' & Hd' & A).
    { destruct r as [|line fields]; [discriminate|]. cbn in Hr, Ep |- *.
      by rewrite Hr. }
    exists st'. done.
  - destruct r as [|line fields].
    { exists st. done. }
    cbn in Hr, Ep. apply plain_line_inv in Hr as [Hc Hm].
    destruct (read_counts_plain st line Hc) as (st1 & E & E1 & E2 & E3).
    exists st1. unfold daily_step. rewrite E. cbn [rbind].
    rewrite Hm, E1, Hy, Ep. rewrite E2, Hd. done.
Qed.

(** The rows of a year before its last day. *)
Lemma daily_loop_rows rows (st : dstate) y diy :
  year st = Some y -> days_in_year st = Some diy ->
  forallb plain_row rows = true ->
  Forall (fun d => r_day d <> diy) (omap parsed rows) ->
  exists st', daily_loop st rows = Ok st' /\
    year st' = Some y /\ days_in_year st' = Some diy /\
    arrays st' = arrays_app st y (omap parsed rows).
Proof.
  revert st. induction rows as [|r rows IH]; intros st Hy Hd Hr Hne.
  - exists st. cbn. by rewrite arrays_app_nil.
  - cbn in Hr. apply andb_prop in Hr as [Hr Hrows].
    destruct (daily_step_plain st r y diy Hy Hd Hr) as (st1 & E & Hd1 & H1).
    cbn [daily_loop]. rewrite E. cbn [rbind].
    cbn [omap list_omap] in Hne |- *. destruct (parsed r) as [d|].
    + apply Forall_cons in Hne as [Hn Hne]. destruct H1 as [Hy1 A1].
      destruct (Z.eqb_spec (r_day d) diy) as [?|_]; [contradiction|].
      destruct (IH st1 Hy1 Hd1 Hrows Hne) as (st' & -> & Hy' & Hd' & A').
      exists st'. repeat (split; [done|]).
      rewrite A'. by apply (arrays_app_app st st1 y [d]).
    + destruct H1 as [Hy1 A1].
      destruct (IH st1 Hy1 Hd1 Hrows Hne) as (st' & -> & Hy' & Hd' & A').
      exists st'. repeat (split; [done|]).
      rewrite A'. unfold arrays_app, arrays in *.
      by injection A1 as -> -> -> -> -> -> -> -> -> ->.
Qed.

Lemma omap_snoc {A C} (f : A -> option C) (l : list A) (a : list C) (b : C) :
  omap f l = a ++ [b] ->
  exists l0 r l1, l = l0 ++ r :: l1 /\ omap f l0 = a /\ f r = Some b /\
    omap f l1 = [].
Proof.
  revert a. induction l as [|x l IH]; intros a H.
  { by destruct a. }
  cbn [omap list_omap] in H. destruct (f x) as [c|] eqn:Ex.
  - destruct a as [|a0 a].
    + injection H as -> H. exists [], x, l. done.
    + injection H as -> H. destruct (IH a H) as (l0 & r & l1 & -> & E0 & Er & E1).
      exists (x :: l0), r, l1. cbn [omap list_omap]. rewrite Ex, E0. done.
  - destruct (IH a H) as (l0 & r & l1 & -> & E0 & Er & E1).
    exists (x :: l0), r, l1. cbn [omap list_omap]. rewrite Ex. done.
Qed.

(** The rows of a year, its marker first: the marker of the year, and
    rows without a marker. *)
Record year_section : Type := {
  s_mline : string;
  s_mfields : list string;
  s_year : Z;
  s_rows : list row
}.

Definition section_rows (s : year_section) : list row :=
  (s_mline s :: s_mfields s) :: s_rows s.

(** The entries the rows of a section parse to. *)
Definition section_entries (s : year_section) : list (Z * day_row) :=
  map (pair (s_year s)) (omap parsed (s_rows s)).

Definition marker_ok (s : year_section) : Prop :=
  Py.contains "DAILY OUTPUT FOR YEAR" (s_mline s) = true /\
  counts_ok (s_mline s) = true /\
  (do tok <- Py.last_item (Py.split (s_mline s)); int_of tok) = Ok (s_year s) /\
  forallb plain_row (s_rows s) = true.

(** The rows of the section that parse are those of the days 1 to the
    last day of its year, in order. *)
Definition whole_year (s : year_section) : Prop :=
  marker_ok s /\
  map r_day (omap parsed (s_rows s))
  = map Z.of_nat (seq 1 (Z.to_nat (Py.days_in_year (s_year s)))).

(** The section stops before the last day of its year. *)
Definition cut_short (s : year_section) : Prop :=
  marker_ok s /\
  Forall (fun d => r_day d <> Py.days_in_year (s_year s)) (omap parsed (s_rows s)).

Lemma forallb_app_inv {A} (f : A -> bool) (l1 l2 : list A) :
  forallb f (l1 ++ l2) = true -> forallb f l1 = true /\ forallb f l2 = true.
Proof. rewrite forallb_app. apply andb_prop. Qed.

Lemma daily_loop_whole_year (st : dstate) (s : year_section) :
  year st = None -> whole_year s ->
  exists st', daily_loop st (section_rows s) = Ok st' /\ year st' = None /\
    arrays st' = arrays_app st (s_year s) (omap parsed (s_rows s)).
Proof.
  intros Hy [(Hm & Hc & Hyr & Hplain) Hdays].
  destruct (daily_step_marker st (s_mline s) (s_mfields s) (s_year s) Hm Hc Hyr)
    as (st1 & E1 & Hy1 & Hd1 & A1).
  unfold section_rows. cbn [daily_loop]. rewrite E1. cbn [rbind].
  pose proof (days_in_year_pos (s_year s)) as Hpos.
  destruct (Z.to_nat (Py.days_in_year (s_year s))) as [|n] eqn:En; [lia|].
  rewrite seq_S, map_app in Hdays. cbn [map] in Hdays.
  apply map_eq_app in Hdays as (ds0 & dl & Eds & Hds0 & Hdl).
  destruct dl as [|dl [|? ?]]; try discriminate. injection Hdl as Hdl.
  destruct (omap_snoc parsed (s_rows s) ds0 dl Eds)
    as (rows0 & rl & rows1 & Erows & E0 & Erl & Enone).
  rewrite Erows in Hplain |- *.
  apply forallb_app_inv in Hplain as [Hp0 Hp1]. cbn in Hp1.
  apply andb_prop in Hp1 as [Hpl Hp1].
  assert (Hne : Forall (fun d => r_day d <> Py.days_in_year (s_year s))
                       (omap parsed rows0)).
  { rewrite E0. apply Forall_forall. intros d Hin Heq.
    assert (Hin' : In (r_day d) (map r_day ds0)).
    { apply in_map. by apply list_elem_of_In. }
    rewrite Hds0 in Hin'. apply in_map_iff in Hin' as (k & Hk & Hin').
    apply in_seq in Hin'. lia. }
  destruct (daily_loop_rows rows0 st1 (s_year s) _ Hy1 Hd1 Hp0 Hne)
    as (st2 & E2 & Hy2 & Hd2 & A2).
  destruct (daily_step_plain st2 rl (s_year s) _ Hy2 Hd2 Hpl)
    as (st3 & E3 & _ & H3).
  rewrite Erl in H3. destruct H3 as [Hy3 A3].
  assert (Hy3' : year st3 = None).
  { rewrite Hy3. destruct (Z.eqb_spec (r_day dl) (Py.days_in_year (s_year s)));
      [done | lia]. }
  assert (Hidle : forall (t : dstate) rows, year t = None ->
            forallb plain_row rows = true -> omap parsed rows = [] ->
            exists t', daily_loop t rows = Ok t' /\ year t' = None /\
              arrays t' = arrays t).
  { intros t rows Ht Hp _. by apply daily_loop_idle. }
  destruct (Hidle st3 rows1 Hy3' Hp1 Enone) as (st4 & E4 & Hy4 & A4).
  rewrite daily_loop_app, E2. cbn [rbind daily_loop]. rewrite E3. cbn [rbind].
  rewrite E4. exists st4. split; [reflexivity|]. split; [exact Hy4|].
  rewrite A4, A3.
  rewrite omap_app. cbn [omap list_omap]. rewrite Erl, Enone, E0.
  rewrite (arrays_app_app st1 st2 (s_year s) (omap parsed rows0) [dl]) by exact A2.
  rewrite E0. unfold arrays_app, arrays in *.
  by injection A1 as -> -> -> -> -> -> -> -> -> ->.
Qed.

Lemma daily_loop_sections (secs : list year_section) (st : dstate) es :
  year st = None -> holds st es -> Forall whole_year secs ->
  exists st', daily_loop st (flat_map section_rows secs) = Ok st' /\
    year st' = None /\ holds st' (es ++ flat_map section_entries secs).
Proof.
  intros Hy Hh Hsecs. revert st es Hy Hh.
  induction Hsecs as [|s secs Hs _ IH]; intros st es Hy Hh.
  - exists st. cbn. by rewrite app_nil_r.
  - destruct (daily_loop_whole_year st s Hy Hs) as (st1 & E1 & Hy1 & A1).
    destruct (IH st1 (es ++ section_entries s) Hy1) as (st' & E' & Hy' & Hh').
    { by eapply holds_app. }
    exists st'. cbn [flat_map]. rewrite daily_loop_app, E1. cbn [rbind].
    rewrite E'. by rewrite <- app_assoc in Hh'.
Qed.

(** X4.  A daily report of several years, each a marker row followed by
    rows among which those that parse are the days 1 to the last day of
    the year, gives the entries of all the years in the order of the
    file, each with the year of its marker; the rows that do not parse
    (blank rows, headers, rules) are stepped over wherever they
    stand. *)
Theorem daily_years_in_sequence (pre : list row) (secs : list year_section) :
  forallb plain_row pre = true ->
  Forall whole_year secs ->
  read_daily_help_output (pre ++ flat_map section_rows secs)
  = Ok (table_of (flat_map section_entries secs)).
Proof.
  intros Hpre Hsecs.
  destruct (daily_loop_idle pre init_dstate eq_refl Hpre) as (st1 & E1 & Hy1 & A1).
  destruct (daily_loop_sections secs st1 [] Hy1) as (st' & E' & _ & Hh');
    [by apply (holds_same init_dstate) | assumption |].
  unfold read_daily_help_output. rewrite daily_loop_app, E1. cbn [rbind].
  rewrite E'. cbn [rbind]. f_equal. by apply holds_table.
Qed.

(** X5.  The daily parser has no check that a year is complete: when
    the file ends before the row of the last day of the year, the
    entries read so far are returned as they are. *)
Theorem daily_truncated_year_kept (pre : list row) (s : year_section) :
  forallb plain_row pre = true ->
  cut_short s ->
  read_daily_help_output (pre ++ section_rows s) = Ok (table_of (section_entries s)).
Proof.
  intros Hpre [(Hm & Hc & Hyr & Hplain) Hne].
  - destruct (daily_loop_idle pre init_dstate eq_refl Hpre) as (st1 & E1 & Hy1 & A1).
    destruct (daily_step_marker st1 (s_mline s) (s_mfields s) (s_year s) Hm Hc Hyr)
      as (st2 & E2 & Hy2 & Hd2 & A2).
    destruct (daily_loop_rows (s_rows s) st2 (s_year s) _ Hy2 Hd2 Hplain Hne)
      as (st3 & E3 & _ & _ & A3).
    unfold read_daily_help_output, section_rows.
    rewrite daily_loop_app, E1. cbn [rbind daily_loop]. rewrite E2. cbn [rbind].
    rewrite E3. cbn [rbind]. f_equal. apply holds_table.
    apply (holds_app st2 st3 [] (s_year s) (omap parsed (s_rows s))); [|exact A3].
    apply (holds_same st1); [|exact A2]. by apply (holds_same init_dstate).
Qed.

(** A line on which the parser calls [int] outside of its [try]. *)
Definition labelled (line : string) : bool :=
  Py.contains "TOTAL NUMBER OF LAYERS" line
  || Py.contains "TOTAL NUMBER OF SUBPROFILES" line
  || Py.contains "DAILY OUTPUT FOR YEAR" line.

(** X6.  The [try] of the daily parser covers the fields of a data row
    only.  A row with "TOTAL NUMBER OF LAYERS", "TOTAL NUMBER OF
    SUBPROFILES" or "DAILY OUTPUT FOR YEAR" whose last word does not
    read as an integer makes the whole parse raise [ValueError],
    wherever the row stands and whatever follows it. *)
Theorem daily_unreadable_label_raises
  (pre : list row) (st : dstate) (line : string) (fields : list string)
  (tok : string) (rest : list row) :
  daily_loop init_dstate pre = Ok st ->
  labelled line = true ->
  last (Py.split line) = Some tok ->
  py_int tok = None ->
  read_daily_help_output (pre ++ (line :: fields) :: rest) = Raise ValueError.
Proof.
  intros Hpre Hl Htok Hint.
  assert (Hconv : (do tok <- Py.last_item (Py.split line); int_of tok)
                  = (Raise ValueError : result Z)).
  { unfold Py.last_item. rewrite Htok. cbn [of_option rbind].
    unfold int_of. by rewrite Hint. }
  unfold read_daily_help_output. rewrite daily_loop_app, Hpre.
  cbn [rbind daily_loop]. unfold daily_step, read_counts.
  unfold labelled in Hl.
  destruct (Py.contains "TOTAL NUMBER OF LAYERS" line).
  { unfold Py.last_item in *. rewrite Htok in *. cbn [of_option rbind] in *.
    unfold int_of in *. rewrite Hint. reflexivity. }
  destruct (Py.contains "TOTAL NUMBER OF SUBPROFILES" line).
  { unfold Py.last_item in *. rewrite Htok in *. cbn [of_option rbind] in *.
    unfold int_of in *. rewrite Hint. reflexivity. }
  cbn in Hl. cbn [rbind]. rewrite Hl.
  unfold Py.last_item in *. rewrite Htok in *. cbn [of_option rbind] in *.
  unfold int_of in *. rewrite Hint. reflexivity.
Qed.

End Daily.

End ParserFacts.

(** ** The batch runner, whatever the files *)

Module BatchSafety.
Import Processing BatchFacts.

Section Batch.
Context {float : Type} {B : Builtins float} {S : Simulator}.

Local Abbreviation monthly := (Processing.monthly float).
Local Abbreviation pc := (Processing.pc float).
Local Abbreviation task := (Processing.task float).
Local Abbreviation pool := (Processing.pool float).

(** *** One cell *)

(** The run of a cell whose output file is not there. *)
Lemma run_help_singlecell_missing (w : world) (cellname : string)
  (outparam : list string) (out : string) :
  outparam !! 5%nat = Some out ->
  files w !! out = None ->
  run_help_singlecell (cellname, outparam) w =
  match run_simulation outparam (files w) with
  | Raise e => ({| files := files w; sim_log := sim_log w ++ [outparam] |}, Raise e)
  | Ok fs =>
      match fs !! out with
      | None => ({| files := fs; sim_log := sim_log w ++ [outparam] |},
                 Raise FileNotFoundError)
      | Some csvread =>
          match read_monthly_help_output csvread with
          | Ok results =>
              ({| files := delete out fs; sim_log := sim_log w ++ [outparam] |},
               Ok (cellname, results))
          | Raise e => ({| files := fs; sim_log := sim_log w ++ [outparam] |}, Raise e)
          end
      end
  end.
Proof.
  intros Hout Hfile.
  unfold run_help_singlecell, io_bind, io_lift, path_exists, read_rows,
    os_remove, io_ret, call_simulator.
  rewrite Hout. cbv beta iota. cbn [of_option].
  rewrite bool_decide_eq_false_2 by (rewrite Hfile; by intros [? ?]).
  cbv beta iota zeta.
  destruct (run_simulation outparam (files w)) as [fs|e]; [|reflexivity].
  cbn [files sim_log].
  destruct (fs !! out) as [csvread|]; [|reflexivity]. cbn [of_option].
  destruct (read_monthly_help_output csvread); reflexivity.
Qed.

(** X7.  [run_help_singlecell] calls the simulator when, and only when,
    the output file named by element 5 of the tuple is not there, once
    and with the tuple of the cell.  A tuple with no element 5 raises
    [IndexError] before anything is done, and a simulator that returns
    without having written the file leaves the parser with
    [FileNotFoundError]. *)
Theorem singlecell_simulates_when_missing
  (w : world) (cellname : string) (outparam : list string) :
  (outparam !! 5%nat = None ->
   run_help_singlecell (cellname, outparam) w = (w, Raise IndexError))
  /\ (forall out, outparam !! 5%nat = Some out ->
      sim_log (run_help_singlecell (cellname, outparam) w).1
      = (if bool_decide (is_Some (files w !! out)) then sim_log w
         else sim_log w ++ [outparam]))
  /\ (forall out fs, outparam !! 5%nat = Some out -> files w !! out = None ->
      run_simulation outparam (files w) = Ok fs -> fs !! out = None ->
      run_help_singlecell (cellname, outparam) w
      = ({| files := fs; sim_log := sim_log w ++ [outparam] |},
         Raise FileNotFoundError)).
Proof.
  split; [|split].
  - intros Hout. unfold run_help_singlecell, io_bind, io_lift.
    by rewrite Hout.
  - intros out Hout. destruct (files w !! out) as [csvread|] eqn:Hfile.
    + rewrite bool_decide_eq_true_2 by eauto.
      rewrite (run_help_singlecell_exists w cellname outparam out csvread)
        by assumption.
      by destruct (read_monthly_help_output csvread).
    + rewrite bool_decide_eq_false_2 by (by intros [? ?]).
      rewrite (run_help_singlecell_missing w cellname outparam out) by assumption.
      destruct (run_simulation outparam (files w)) as [fs|e]; [|reflexivity].
      destruct (fs !! out) as [csvread|]; [|reflexivity].
      by destruct (read_monthly_help_output csvread).
  - intros out fs Hout Hfile Hsim Hnone.
    rewrite (run_help_singlecell_missing w cellname outparam out) by assumption.
    by rewrite Hsim, Hnone.
Qed.

(** X8.  A run of [run_help_singlecell] that returns has removed the
    output file: the result carries the name of the cell, the file named
    by element 5 of the tuple is not there any more, and a later run of
    any cell with that output path calls the simulator. *)
Theorem singlecell_success_consumes_output
  (w w' : world) (cellname : string) (outparam : list string)
  (res : string * monthly) :
  run_help_singlecell (cellname, outparam) w = (w', Ok res) ->
  res.1 = cellname
  /\ exists out, outparam !! 5%nat = Some out /\ files w' !! out = None
     /\ forall cell2 outparam2, outparam2 !! 5%nat = Some out ->
        sim_log (run_help_singlecell (cell2, outparam2) w').1
        = sim_log w' ++ [outparam2].
Proof.
  intros H.
  destruct (outparam !! 5%nat) as [out|] eqn:Hout.
  2:{ unfold run_help_singlecell, io_bind, io_lift in H. rewrite Hout in H.
      discriminate. }
  assert (Hres : res.1 = cellname /\ files w' !! out = None).
  { destruct (files w !! out) as [csvread|] eqn:Hfile.
    - rewrite (run_help_singlecell_exists w cellname outparam out csvread) in H
        by assumption.
      destruct (read_monthly_help_output csvread); [|discriminate].
      injection H as <- <-. split; [reflexivity|]. apply lookup_delete_eq.
    - rewrite (run_help_singlecell_missing w cellname outparam out) in H
        by assumption.
      destruct (run_simulation outparam (files w)) as [fs|e]; [|discriminate].
      destruct (fs !! out) as [csvread|]; [|discriminate].
      destruct (read_monthly_help_output csvread); [|discriminate].
      injection H as <- <-. split; [reflexivity|]. apply lookup_delete_eq. }
  destruct Hres as [Hname Hgone]. split; [exact Hname|].
  exists out. split; [reflexivity|]. split; [exact Hgone|].
  intros cell2 outparam2 Hout2.
  rewrite (run_help_singlecell_missing w' cell2 outparam2 out) by assumption.
  destruct (run_simulation outparam2 (files w')) as [fs|e]; [|reflexivity].
  destruct (fs !! out) as [csvread|]; [|reflexivity].
  by destruct (read_monthly_help_output csvread).
Qed.

(** *** The pool *)

(** The task is past the point where it may call the simulator. *)
Definition past_sim (p : pc) : bool :=
  match p with
  | PStart | PSim => false
  | _ => true
  end.

Lemma task_step_log (outparam : list string) (p p' : pc) (w w' : world) :
  task_step outparam p w = Some (p', w') ->
  (p = PSim /\ sim_log w' = sim_log w ++ [outparam] /\ past_sim p' = true)
  \/ (p <> PSim /\ sim_log w' = sim_log w /\
      (past_sim p = true -> past_sim p' = true)).
Proof.
  unfold task_step. intros H. destruct p.
  - right. split; [discriminate|].
    destruct (outparam !! 5%nat); [|injection H as <- <-; done].
    destruct (bool_decide _); injection H as <- <-; done.
  - left. split; [reflexivity|]. unfold call_simulator in H.
    destruct (run_simulation outparam (files w)); injection H as <- <-; done.
  - right. split; [discriminate|].
    destruct (outparam !! 5%nat) as [out|]; [|injection H as <- <-; done].
    destruct (files w !! out) as [csvread|]; [|injection H as <- <-; done].
    destruct (read_monthly_help_output csvread); injection H as <- <-; done.
  - right. split; [discriminate|].
    destruct (outparam !! 5%nat) as [out|]; [|injection H as <- <-; done].
    unfold os_remove in H.
    destruct (files w !! out); injection H as <- <-; done.
  - discriminate.
  - discriminate.
  - discriminate.
Qed.

(** The cells that called the simulator, in the order of their calls,
    with the tuples the calls were made with. *)
Definition simulated (cellparams : gmap string (list string))
  (cells : list string) (calls : list (list string)) : Prop :=
  NoDup cells /\ Forall2 (fun c prm => cellparams !! c = Some prm) cells calls.

Record sim_inv (cellparams : gmap string (list string)) (w0 : world) (P : pool)
  : Prop := {
  si_items : (fun t : task => (t_cell t, t_param t)) <$> p_tasks P
             = map_to_list cellparams;
  si_log : exists cells calls,
             simulated cellparams cells calls /\
             sim_log (p_world P) = sim_log w0 ++ calls /\
             forall i t, p_tasks P !! i = Some t -> t_cell t ∈ cells ->
                         past_sim (t_pc t) = true;
  si_out : forall c, is_Some (p_output P !! c) -> is_Some (cellparams !! c)
}.

Lemma task_of_dict cellparams (P : pool) i t :
  (fun t : task => (t_cell t, t_param t)) <$> p_tasks P = map_to_list cellparams ->
  p_tasks P !! i = Some t -> cellparams !! t_cell t = Some (t_param t).
Proof.
  intros Hit Hi. apply elem_of_map_to_list.
  eapply list_elem_of_lookup_2. by apply (item_at _ P i t).
Qed.

Lemma sim_inv_initial cellparams w : sim_inv cellparams w (initial_pool cellparams w).
Proof.
  split; cbn.
  - rewrite <- list_fmap_compose.
    rewrite <- (list_fmap_id (map_to_list cellparams)) at 2.
    apply list_fmap_ext. intros i [c prm] _. reflexivity.
  - exists [], []. split; [split; constructor|]. split; [by rewrite app_nil_r|].
    intros i t _ Hin. by apply elem_of_nil in Hin.
  - intros c [r Hr]. rewrite lookup_empty in Hr. discriminate.
Qed.

Lemma sim_inv_step cellparams w0 (P Q : pool) :
  sim_inv cellparams w0 P -> pool_step P Q -> sim_inv cellparams w0 Q.
Proof.
  intros [Hit (cells & calls & [Hnd Hcalls] & Hlog & Hpast) Hout] Hstep.
  pose proof (dict_cells_NoDup cellparams) as Hnc.
  destruct Hstep as [i t p' w' P Hi Hs | i t r P Hi Hpc].
  - pose proof (task_of_dict cellparams P i t Hit Hi) as Hprm.
    split; cbn.
    + rewrite items_insert; assumption.
    + apply task_step_log in Hs as [(Hsim & Hlog' & Hp')|(Hsim & Hlog' & Hp')].
      * exists (cells ++ [t_cell t]), (calls ++ [t_param t]).
        assert (Hnew : t_cell t ∉ cells).
        { intros Hin. specialize (Hpast i t Hi Hin). by rewrite Hsim in Hpast. }
        split; [split|].
        -- apply NoDup_app. split; [exact Hnd|]. split; [|apply NoDup_singleton].
           intros c Hc Hc'. apply list_elem_of_singleton in Hc'. by subst.
        -- apply Forall2_app; [exact Hcalls|]. by repeat constructor.
        -- split; [by rewrite Hlog', Hlog, <- app_assoc|].
           intros j u Hj Hin.
           apply list_lookup_insert_Some in Hj as [(-> & <- & _)|[Hne Hj]];
             [exact Hp'|].
           apply elem_of_app in Hin as [Hin|Hin]; [by eapply Hpast|].
           apply list_elem_of_singleton in Hin. exfalso. apply Hne.
           symmetry. by eapply (same_cell _ P j i u t).
      * exists cells, calls. split; [done|]. split; [by rewrite Hlog'|].
        intros j u Hj Hin.
        apply list_lookup_insert_Some in Hj as [(-> & <- & _)|[Hne Hj]].
        -- cbn in Hin |- *. apply Hp'. by eapply Hpast.
        -- by eapply Hpast.
    + exact Hout.
  - pose proof (task_of_dict cellparams P i t Hit Hi) as Hprm.
    split; cbn.
    + rewrite items_insert; assumption.
    + exists cells, calls. split; [done|]. split; [exact Hlog|].
      intros j u Hj Hin.
      apply list_lookup_insert_Some in Hj as [(-> & <- & _)|[Hne Hj]];
        [reflexivity | by eapply Hpast].
    + intros c [r' Hc].
      apply lookup_insert_Some in Hc as [[<- _]|[_ Hc]]; eauto.
Qed.

Lemma sim_inv_steps cellparams w0 (P Q : pool) :
  sim_inv cellparams w0 P -> pool_steps P Q -> sim_inv cellparams w0 Q.
Proof.
  intros HI Hsteps. induction Hsteps; [assumption|].
  eapply sim_inv_step; [by apply IHHsteps | eassumption].
Qed.

(** X9.  Whatever the files and the order in which the workers proceed,
    the pool calls the simulator at most once per cell, with the tuple
    of that cell: the calls logged since the start are those of
    pairwise distinct cells of the dict, and the output never has a key
    that is not a cell of the dict. *)
Theorem pool_simulates_at_most_once_per_cell
  (cellparams : gmap string (list string)) (w : world) (P : pool) :
  pool_steps (initial_pool cellparams w) P ->
  (exists cells calls,
      simulated cellparams cells calls /\
      sim_log (p_world P) = sim_log w ++ calls /\
      (length calls <= size cellparams)%nat)
  /\ dom (p_output P) ⊆ dom cellparams.
Proof.
  intros Hsteps.
  assert (HI : sim_inv cellparams w P).
  { eapply sim_inv_steps; [apply sim_inv_initial | exact Hsteps]. }
  destruct HI as [_ (cells & calls & [Hnd Hcalls] & Hlog & _) Hout]. split.
  - exists cells, calls. split; [done|]. split; [exact Hlog|].
    rewrite <- (Forall2_length _ _ _ Hcalls).
    rewrite <- size_dom, <- (size_list_to_set (C := gset string) cells) by exact Hnd.
    apply subseteq_size. intros c Hc. apply elem_of_list_to_set in Hc.
    apply elem_of_dom.
    apply list_elem_of_lookup_1 in Hc as [k Hk].
    destruct (Forall2_lookup_l _ _ _ _ _ Hcalls Hk) as (prm & _ & Hprm). eauto.
  - intros c Hc. apply elem_of_dom in Hc. apply elem_of_dom. by apply Hout.
Qed.

End Batch.

End BatchSafety.

(** ** The datasets of the CWEEDS reader and of the merge *)

Module CweedsFacts.
Import Weather WeatherFacts HelpFacts.

Section Cweeds.
Context {float : Type} {B : Builtins float}.

Local Abbreviation dataset := (Weather.dataset float).
Local Abbreviation header := (Weather.header float).
Local Abbreviation hour_row := (Weather.hour_row float).
Local Abbreviation columns := (Weather.columns float).

(** *** read_cweeds_file *)

Lemma read_hours_Ok filename reader (h : option header) (hours : list hour_row) :
  read_hours filename reader = Ok (h, hours) ->
  (ext_of filename = "WY2" \/ ext_of filename = "WY3") /\
  (is_Some h <-> ext_of filename = "WY3") /\
  length hours = length (data_rows filename reader).
Proof.
  intros H. pose proof (read_hours_length filename reader h hours H) as Hlen.
  split; [|split; [|exact Hlen]]; unfold read_hours in H.
  - destruct (String.eqb_spec (ext_of filename) "WY2"); [by left|].
    destruct (String.eqb_spec (ext_of filename) "WY3"); [by right | discriminate].
  - destruct (String.eqb_spec (ext_of filename) "WY2") as [E2|_];
      destruct (String.eqb_spec (ext_of filename) "WY3") as [E3|N3];
      cbn [orb negb] in H; try discriminate.
    + congruence.
    + cbn [rbind] in H. apply rbind_Ok in H as (hs & _ & H). injection H as <- _.
      split; [by intros [? ?] | congruence].
    + destruct reader as [|header_list reader']; [discriminate|].
      destruct (read_header header_list) as [h0|]; [|discriminate].
      cbn [rbind] in H. apply rbind_Ok in H as (hs & _ & H). injection H as <- _.
      split; [done | eauto].
Qed.

(** The time format a call asks for. *)
Definition format_name (format_to_daily : bool) : string :=
  if format_to_daily then "daily" else "hourly".

(** What an accepted file is read as. *)
Lemma read_cweeds_file_Ok
  (filename : string) (reader : list row) (format_to_daily : bool) (d : dataset) :
  read_cweeds_file filename reader format_to_daily = Ok d ->
  aligned d
  /\ cweeds_format d = ext_of filename
  /\ time_format d = format_name format_to_daily
  /\ (is_Some (hdr d) <-> ext_of filename = "WY3").
Proof.
  rewrite read_cweeds_file_eq. intros H.
  apply rbind_Ok in H as ([h hours] & Hh & H). cbn [fst snd] in H.
  apply read_hours_Ok in Hh as (Hext & Hhdr & Hlen).
  destruct format_to_daily.
  - unfold to_daily in H. rewrite length_map in H.
    destruct (Nat.eqb_spec (length hours mod 24) 0) as [Hmod|]; [|discriminate].
    injection H as <-. cbn.
    assert (Hle : (length hours / 24 * 24 <= length hours)%nat).
    { rewrite Nat.mul_comm. apply Nat.Div0.mul_div_le. }
    unfold aligned. cbn.
    rewrite !column0_length by (rewrite ?length_map; (lia || assumption)).
    rewrite repeat_length, !length_map, reshape_length. done.
  - injection H as <-. unfold aligned. cbn. rewrite !length_map. done.
Qed.

(** X10.  Every dict [read_cweeds_file] returns has its arrays 'Years',
    'Months', 'Days', 'Hours' and 'Irradiance' of the length of 'Time':
    one entry per data row, or per 24 data rows with the daily
    aggregation.  Its 'CWEEDS Format' is the extension of the file, WY2
    or WY3, its 'Time Format' is the one asked for, and it has the header
    keys exactly when the file is a WY3 file. *)
Theorem read_cweeds_file_shape
  (filename : string) (reader : list row) (format_to_daily : bool) (d : dataset) :
  read_cweeds_file filename reader format_to_daily = Ok d ->
  aligned d
  /\ length (Time d)
     = (if format_to_daily then (length (data_rows filename reader) / 24)%nat
        else length (data_rows filename reader))
  /\ cweeds_format d = ext_of filename
  /\ (cweeds_format d = "WY2" \/ cweeds_format d = "WY3")
  /\ time_format d = format_name format_to_daily
  /\ (is_Some (hdr d) <-> cweeds_format d = "WY3").
Proof.
  intros H.
  destruct (read_cweeds_file_Ok filename reader format_to_daily d H)
    as (Hal & Hfmt & Htf & Hhdr).
  split; [exact Hal|]. rewrite Hfmt.
  rewrite read_cweeds_file_eq in H.
  apply rbind_Ok in H as ([h hours] & Hh & H). cbn [fst snd] in H.
  apply read_hours_Ok in Hh as (Hext & _ & Hlen).
  split; [|done]. clear Hal Hfmt Htf Hhdr.
  destruct format_to_daily.
  - unfold to_daily in H. rewrite length_map in H.
    destruct (length hours mod 24 =? 0)%nat eqn:Hmod; [|discriminate].
    injection H as <-. cbn [Time]. rewrite <- Hlen. apply column0_length; [lia|].
    rewrite length_map, Nat.mul_comm. apply Nat.Div0.mul_div_le.
  - injection H as <-. unfold hourly_of. cbn [Time]. by rewrite length_map.
Qed.

(** X25.  [read_cweeds_file] gives no partial result.  An extension
    other than WY2 and WY3 (in capitals) raises [ValueError] whatever
    the file holds, a WY3 file without any row raises [IndexError], and
    the first data row of a WY2 file that cannot be read ends the call
    with the exception of that row, whatever rows follow it. *)
Theorem read_cweeds_file_rejects
  (filename : string) (reader : list row) (format_to_daily : bool) :
  (ext_of filename <> "WY2" -> ext_of filename <> "WY3" ->
   read_cweeds_file filename reader format_to_daily = Raise ValueError)
  /\ (ext_of filename = "WY3" -> reader = [] ->
      read_cweeds_file filename reader format_to_daily = Raise IndexError)
  /\ (forall pre bad post hours e,
        ext_of filename = "WY2" ->
        reader = pre ++ bad :: post ->
        mapM (read_hour 0) pre = Ok hours ->
        read_hour 0 bad = Raise e ->
        read_cweeds_file filename reader format_to_daily = Raise e).
Proof.
  split; [|split].
  - intros N2 N3. unfold read_cweeds_file. fold (ext_of filename).
    destruct (String.eqb_spec (ext_of filename) "WY2"); [contradiction|].
    destruct (String.eqb_spec (ext_of filename) "WY3"); [contradiction|].
    reflexivity.
  - intros E3 ->. unfold read_cweeds_file. fold (ext_of filename).
    rewrite E3. reflexivity.
  - intros pre bad post hours e E2 -> Hpre Hbad.
    unfold read_cweeds_file. fold (ext_of filename). rewrite E2.
    cbn [String.eqb Ascii.eqb Bool.eqb orb negb rbind fst snd].
    rewrite mapM_app, Hpre. cbn [rbind mapM]. by rewrite Hbad.
Qed.

(** *** join_daily_cweeds_wy2_and_wy3 *)

Lemma scatter_loop_length {A} (indexes : list nat) (arr values arr' : list A) :
  scatter_loop arr indexes values = Ok arr' -> length arr' = length arr.
Proof.
  revert arr values. induction indexes as [|i indexes IH]; intros arr values H.
  { cbn in H. by injection H as <-. }
  destruct values as [|v values]; [cbn in H; by injection H as <-|].
  cbn [scatter_loop] in H. apply rbind_Ok in H as (arr1 & H1 & H).
  unfold set_item in H1. destruct (i <? length arr)%nat; [|discriminate].
  injection H1 as <-. rewrite (IH _ _ H). apply length_insert.
Qed.

Lemma scatter_length {A} (indexes : list nat) (arr values arr' : list A) :
  scatter arr indexes values = Ok arr' -> length arr' = length arr.
Proof.
  unfold scatter. destruct (length values =? length indexes)%nat.
  - apply scatter_loop_length.
  - destruct values as [|v [|? ?]]; try discriminate. apply scatter_loop_length.
Qed.

Lemma scatter_dataset_length bins (cols cols' : columns) (ds : dataset) n :
  scatter_dataset bins cols ds = Ok cols' ->
  cols_length cols n -> cols_length cols' n.
Proof.
  unfold scatter_dataset. intros H (L1 & L2 & L3 & L4 & L5).
  apply rbind_Ok in H as (ys & E1 & H). apply rbind_Ok in H as (ms & E2 & H).
  apply rbind_Ok in H as (dd & E3 & H). apply rbind_Ok in H as (hs & E4 & H).
  apply rbind_Ok in H as (ir & E5 & H). injection H as <-.
  apply scatter_length in E1, E2, E3, E4, E5.
  unfold cols_length. cbn. lia.
Qed.

Lemma insert_unique_length (x : Z) (l : list Z) :
  (length (insert_unique x l) <= Datatypes.S (length l))%nat.
Proof.
  induction l as [|y l IH]; cbn; [lia|].
  destruct (x <? y); [cbn; lia|]. destruct (x =? y); cbn; lia.
Qed.

Lemma np_unique_length (l : list Z) : (length (np_unique l) <= length l)%nat.
Proof.
  induction l as [|x l IH]; [reflexivity|].
  change (np_unique (x :: l)) with (insert_unique x (np_unique l)).
  pose proof (insert_unique_length x (np_unique l)). cbn [length]. lia.
Qed.

(** X11.  Whenever [join_daily_cweeds_wy2_and_wy3] returns, its
    arguments were a WY2 and a WY3 dataset of one time format, the
    second with the header keys; the merge has its five data arrays of
    the length of its 'Time', which is strictly increasing and no longer
    than the two 'Time' arrays together; and, its format being
    'WY2+WY3', the merge is itself refused as either argument of a
    further merge. *)
Theorem join_result_shape
  (junk : string -> nat -> Z) (fjunk : nat -> float) (wy2_df wy3_df m : dataset) :
  join_daily_cweeds_wy2_and_wy3 junk fjunk wy2_df wy3_df = Ok m ->
  (cweeds_format wy2_df = "WY2" /\ cweeds_format wy3_df = "WY3" /\
   time_format wy2_df = time_format wy3_df /\ hdr m = hdr wy3_df /\
   is_Some (hdr wy3_df))
  /\ aligned m
  /\ StronglySorted Z.lt (Time m)
  /\ (length (Time m) <= length (Time wy2_df) + length (Time wy3_df))%nat
  /\ (forall junk' fjunk' (x : dataset),
        join_daily_cweeds_wy2_and_wy3 junk' fjunk' m x = Raise AssertionError /\
        join_daily_cweeds_wy2_and_wy3 junk' fjunk' x m = Raise AssertionError).
Proof.
  unfold join_daily_cweeds_wy2_and_wy3 at 1. intros H.
  destruct (String.eqb_spec (cweeds_format wy2_df) "WY2") as [F2|]; [|discriminate].
  destruct (String.eqb_spec (cweeds_format wy3_df) "WY3") as [F3|]; [|discriminate].
  destruct (String.eqb_spec (time_format wy2_df) (time_format wy3_df)) as [Ftf|];
    [|discriminate].
  cbn [negb] in H.
  pose proof (np_unique_sorted (Time wy2_df ++ Time wy3_df)) as Hs.
  rewrite (np_sort_sorted _ Hs) in H.
  apply rbind_Ok in H as (h & Hh & H). apply of_option_Ok in Hh.
  apply rbind_Ok in H as (cols1 & E1 & H). apply rbind_Ok in H as (cols2 & E2 & H).
  injection H as <-.
  assert (L2 : cols_length cols2 (length (np_unique (Time wy2_df ++ Time wy3_df)))).
  { eapply scatter_dataset_length; [exact E2|].
    eapply scatter_dataset_length; [exact E1|].
    unfold cols_length. cbn. by rewrite !np_empty_length. }
  split; [rewrite Hh; eauto 6|]. split; [exact L2|]. split; [exact Hs|]. split.
  - cbn. pose proof (np_unique_length (Time wy2_df ++ Time wy3_df)) as Hle.
    by rewrite length_app in Hle.
  - intros junk' fjunk' x. unfold join_daily_cweeds_wy2_and_wy3. cbn. split.
    + reflexivity.
    + destruct (negb (String.eqb (cweeds_format x) "WY2")); reflexivity.
Qed.

(** X12.  The dicts [read_cweeds_file] returns for a WY2 file and for a
    WY3 file, read with the same [format_to_daily], can always be
    merged: the merge returns, with the header of the WY3 file, the time
    format of the two reads and the time coordinates of both files,
    each once. *)
Theorem cweeds_read_then_join
  (junk : string -> nat -> Z) (fjunk : nat -> float)
  (file2 file3 : string) (reader2 reader3 : list row) (format_to_daily : bool)
  (d2 d3 : dataset) :
  ext_of file2 = "WY2" ->
  ext_of file3 = "WY3" ->
  read_cweeds_file file2 reader2 format_to_daily = Ok d2 ->
  read_cweeds_file file3 reader3 format_to_daily = Ok d3 ->
  exists (m : dataset) (h : header),
    join_daily_cweeds_wy2_and_wy3 junk fjunk d2 d3 = Ok m /\
    hdr d3 = Some h /\ hdr m = Some h /\
    time_format m = format_name format_to_daily /\
    NoDup (Time m) /\
    (forall t, t ∈ Time m <-> t ∈ Time d2 \/ t ∈ Time d3).
Proof.
  intros E2 E3 H2 H3.
  apply read_cweeds_file_Ok in H2 as (Al2 & F2 & T2 & _).
  apply read_cweeds_file_Ok in H3 as (Al3 & F3 & T3 & Hh).
  rewrite E2 in F2. rewrite E3 in F3.
  destruct (proj2 Hh E3) as [h Hhdr].
  destruct (join_spec junk fjunk d2 d3 h F2 F3) as (m & E & HT & Hm & Htf & _);
    try assumption.
  { by rewrite T2, T3. }
  exists m, h. split; [exact E|]. split; [exact Hhdr|]. split; [exact Hm|].
  split; [by rewrite Htf|]. rewrite HT. split.
  - apply increasing_NoDup, sorted_increasing, np_unique_sorted.
  - intros t. unfold merged_time. by rewrite np_unique_elem, elem_of_app.
Qed.

End Cweeds.

End CweedsFacts.

(** ** The files of the HELP writer *)

Module WriterFacts.
Import Weather WeatherFacts HelpFacts.

Section Writer.
Context {float : Type} {B : Builtins float}.

(** *** The checks made before the data are read *)

(** X13.  [save_data_to_HELP_format] looks at the extension before it
    looks at the data: with an extension other than D4, D7 and D13, or
    with D13 and no latitude, it raises [ValueError] and writes nothing,
    whatever [years] and [data] are. *)
Theorem save_data_rejects_bad_config
  (filename : string) (years : list Z) (data : list float) (city : string)
  (lat : option float) (w : world) :
  (ext_of filename <> "D4" /\ ext_of filename <> "D7" /\ ext_of filename <> "D13")
  \/ (ext_of filename = "D13" /\ lat = None) ->
  save_data_to_HELP_format filename years data city lat w = (w, Raise ValueError).
Proof.
  intros H. unfold save_data_to_HELP_format, io_bind, io_lift.
  fold (ext_of filename). unfold formats_of_ext.
  destruct H as [(N4 & N7 & N13)|[E13 ->]].
  - destruct (String.eqb_spec (ext_of filename) "D4"); [contradiction|].
    destruct (String.eqb_spec (ext_of filename) "D7"); [contradiction|].
    destruct (String.eqb_spec (ext_of filename) "D13"); [contradiction|].
    reflexivity.
  - rewrite E13. reflexivity.
Qed.

(** *** The file written *)


(** X14.  With a valid extension, every year of [years] complete and
    [data] as long as [years], [save_data_to_HELP_format] returns and
    changes one file only, [filename]: it holds the four header rows,
    then the 37 lines of each distinct year, in increasing order of the
    years. *)
Theorem save_data_file_layout
  (filename : string) (years : list Z) (data : list float) (city : string)
  (lat : option float) (fmt : formats) (w : world) :
  formats_of_ext (ext_of filename) lat = Ok fmt ->
  Forall (complete years) years ->
  (length years <= length data)%nat ->
  let fcontent := help_header (ext_of filename) city lat
                  ++ concat (map (block fmt years data) (np_unique years)) in
  save_data_to_HELP_format filename years data city lat w
  = ({| files := <[filename := fcontent]> (files w); sim_log := sim_log w |}, Ok tt)
  /\ length fcontent = (4 + 37 * length (np_unique years))%nat.
Proof.
  intros Hfmt Hc Hlen fcontent. split.
  - unfold save_data_to_HELP_format, io_bind, io_lift, save_content_to_csv.
    fold (ext_of filename). rewrite Hfmt.
    rewrite format_years_blocks; [reflexivity | | exact Hlen].
    apply Forall_forall. intros y Hin. rewrite np_unique_elem in Hin.
    rewrite Forall_forall in Hc. by apply Hc.
  - unfold fcontent. rewrite length_app, blocks_length by exact Hlen. reflexivity.
Qed.

(** *** The extension of a completed file name *)


















(** *** The header *)

Lemma spaces_length (n : nat) : String.length (Py.spaces n) = n.
Proof.
  unfold Py.spaces. induction n as [|n IH]; [reflexivity|].
  cbn [repeat string_of_list_ascii String.length]. by rewrite IH.
Qed.

Lemma substring_0_length (n : nat) (s : string) :
  (n <= String.length s)%nat -> String.length (String.substring 0 n s) = n.
Proof.
  revert n. induction s as [|c s IH]; intros [|n] H; cbn in *;
    rewrite ?IH by lia; lia.
Qed.

Lemma substring_0_all (s : string) : String.substring 0 (String.length s) s = s.
Proof. induction s as [|c s IH]; cbn; [reflexivity | by rewrite IH]. Qed.

(** The line of the city in a header. *)
Definition city_line (city : string) : string := Py.ljust 40 (Py.slice_to 40 city).

(** X16.  The header of a HELP weather file has four rows: the codes 3
    and 2, right-aligned on two characters, the city on exactly 40
    characters (cut after its 40th character, or filled with blanks),
    and the row of the latitude, which is empty when there is none.
    [save_data_to_HELP_format] builds the same rows, with the latitude
    in a D13 file only. *)
Theorem header_city_on_forty_characters (city : string) (lat : option float) :
  format_weather_header_for_HELP 3 2 city lat
  = [[" 3"]; [" 2"]; [city_line city];
     match lat with Some l => [format_f 6 2 l] | None => [] end]
  /\ String.length (city_line city) = 40%nat
  /\ ((String.length city <= 40)%nat ->
      city_line city = city +:+ Py.spaces (40 - String.length city))
  /\ ((40 <= String.length city)%nat -> city_line city = String.substring 0 40 city)
  /\ (forall ext,
        help_header ext city lat
        = if String.eqb ext "D13" then format_weather_header_for_HELP 3 2 city lat
          else format_weather_header_for_HELP 3 2 city None).
Proof.
  assert (Hcut : String.length (Py.slice_to 40 city)
                 = Nat.min 40 (String.length city)).
  { unfold Py.slice_to. apply substring_0_length. lia. }
  split; [reflexivity|]. split; [|split; [|split]].
  - unfold city_line, Py.ljust. rewrite str_length_app, spaces_length, Hcut. lia.
  - intros Hle. unfold city_line, Py.ljust. rewrite Hcut.
    unfold Py.slice_to. rewrite Nat.min_r by exact Hle.
    by rewrite substring_0_all.
  - intros Hge. unfold city_line, Py.ljust. rewrite Hcut.
    unfold Py.slice_to. rewrite Nat.min_l by exact Hge.
    replace (40 - 40)%nat with 0%nat by lia.
    apply str_app_nil_r.
  - intros ext. unfold help_header, format_weather_header_for_HELP.
    by destruct (String.eqb ext "D13").
Qed.

(** *** The lines of the data block *)

Lemma joined_length (g : float -> string) (width : nat) (vals : list float) :
  Forall (fun v => String.length (g v) = width) vals ->
  String.length (joined (map g vals)) = (length vals * width)%nat.
Proof.
  induction 1 as [|v vals Hv _ IH]; [reflexivity|].
  cbn [map joined fold_right length]. fold (joined (map g vals)).
  rewrite str_length_app, Hv, IH. lia.
Qed.

(** The year and every value are printed on the width of their
    field. *)
Definition year_fits (fmt : formats) (year : Z) : Prop :=
  String.length (Py.format_int (year_width fmt) year) = year_width fmt.

Definition value_fits (fmt : formats) (v : float) : Prop :=
  String.length (format_f (data_width fmt) (data_prec fmt) v) = data_width fmt.

(** A row of one field, of [n] characters. *)
Definition line_of_length (n : nat) (r : row) : Prop :=
  exists line, r = [line] /\ String.length line = n.

Lemma format_line_length fmt year (vals : list float) :
  year_fits fmt year -> Forall (value_fits fmt) vals ->
  line_of_length (year_width fmt + length vals * data_width fmt)
                 (format_line fmt year vals).
Proof.
  intros Hy Hv. unfold format_line. eexists. split; [reflexivity|].
  rewrite fold_left_joined, str_length_app, Hy.
  by rewrite (joined_length _ (data_width fmt)).
Qed.

Lemma block_lines fmt years (data : list float) year :
  complete years year -> (length years <= length data)%nat ->
  year_fits fmt year -> Forall (value_fits fmt) (fzero :: data) ->
  Forall (line_of_length (year_width fmt + 10 * data_width fmt))
         (block fmt years data year).
Proof.
  intros Hc Hlen Hy Hv. unfold block.
  pose proof (padded_length year years data Hc Hlen) as Hp.
  assert (Hpad : Forall (value_fits fmt) (padded year years data)).
  { apply Forall_cons in Hv as [Hz Hd]. unfold padded.
    apply Forall_app. split; [by apply values_of_Forall|].
    apply Forall_forall. intros v Hin. apply list_elem_of_In, repeat_spec in Hin.
    by subst. }
  assert (Hg : Forall (fun r => length r = 10%nat /\ Forall (value_fits fmt) r)
                      (reshape 37 10 (padded year years data))).
  { apply reshape_Forall; [lia | exact Hpad]. }
  rewrite Forall_forall in Hg. apply Forall_forall.
  intros r Hr. apply list_elem_of_fmap in Hr as (vals & -> & Hin).
  destruct (Hg vals Hin) as [Hl Hvals]. rewrite <- Hl.
  by apply format_line_length.
Qed.

(** X17.  When every year and every value (and the zero that fills the
    last line) is printed on the width of its field, every row of the
    data block is one line of the same length: the width of the year
    plus ten times the width of a value. *)
Theorem data_lines_of_one_length
  (fmt : formats) (years : list Z) (data : list float) :
  (length years <= length data)%nat ->
  Forall (complete years) years ->
  Forall (year_fits fmt) years ->
  Forall (value_fits fmt) (fzero :: data) ->
  exists fdata,
    format_timeseries_for_HELP years data fmt = Ok fdata /\
    Forall (line_of_length (year_width fmt + 10 * data_width fmt)) fdata.
Proof.
  intros Hlen Hc Hy Hv.
  assert (Hsub : forall P : Z -> Prop, Forall P years -> Forall P (np_unique years)).
  { intros P HP. apply Forall_forall. intros y Hin.
    rewrite np_unique_elem in Hin. rewrite Forall_forall in HP. by apply HP. }
  exists (concat (map (block fmt years data) (np_unique years))). split.
  - unfold format_timeseries_for_HELP.
    by rewrite (format_years_blocks fmt years data (np_unique years) []
                  (Hsub _ Hc) Hlen).
  - apply Forall_concat, Forall_fmap, Forall_forall. intros y Hin. cbn.
    rewrite np_unique_elem in Hin. rewrite Forall_forall in Hc, Hy.
    apply block_lines; auto.
Qed.

(** *** The lengths of [years] and [data] *)

Lemma take_indexes_app (data extra : list float) (indexes : list nat) :
  Forall (fun k => (k < length data)%nat) indexes ->
  take_indexes (data ++ extra) indexes = take_indexes data indexes.
Proof.
  unfold take_indexes. induction 1 as [|k indexes Hk _ IH]; [reflexivity|].
  cbn [mapM]. rewrite IH, lookup_app_l by exact Hk. reflexivity.
Qed.

Lemma format_year_app fmt years (data extra : list float) year :
  (length years <= length data)%nat ->
  format_year fmt years (data ++ extra) year = format_year fmt years data year.
Proof.
  intros Hlen. unfold format_year.
  destruct (negb _); [reflexivity|].
  rewrite take_indexes_app; [reflexivity|].
  eapply Forall_impl; [apply where_eq_bound|]. cbv beta. intros. lia.
Qed.

Lemma format_years_app fmt years (data extra : list float) todo fdata :
  (length years <= length data)%nat ->
  format_years fmt years (data ++ extra) todo fdata
  = format_years fmt years data todo fdata.
Proof.
  intros Hlen. revert fdata. induction todo as [|year todo IH]; intros fdata;
    [reflexivity|].
  cbn [format_years]. rewrite format_year_app by exact Hlen.
  destruct (format_year fmt years data year); cbn [rbind]; [apply IH | reflexivity].
Qed.

(** X18.  The values of [data] beyond the length of [years] are never
    read: with or without them the data block is the same, or the same
    exception is raised, and [save_data_to_HELP_format] does the
    same. *)
Theorem data_beyond_years_ignored
  (fmt : formats) (years : list Z) (data extra : list float) :
  (length years <= length data)%nat ->
  format_timeseries_for_HELP years (data ++ extra) fmt
  = format_timeseries_for_HELP years data fmt
  /\ (forall filename city lat w,
        save_data_to_HELP_format filename years (data ++ extra) city lat w
        = save_data_to_HELP_format filename years data city lat w).
Proof.
  intros Hlen. split.
  - by apply format_years_app.
  - intros filename city lat w.
    unfold save_data_to_HELP_format, io_bind, io_lift.
    destruct (formats_of_ext _ lat); [|reflexivity].
    by rewrite format_years_app.
Qed.

Lemma where_eq_elem (year : Z) (years : list Z) (i k : nat) :
  years !! k = Some year -> (i + k)%nat ∈ where_eq year years i.
Proof.
  revert i k. induction years as [|y years IH]; intros i [|k] H; try discriminate.
  - cbn in H. injection H as ->. cbn. rewrite Z.eqb_refl, Nat.add_0_r.
    apply list_elem_of_here.
  - cbn in H. cbn [where_eq].
    replace (i + Datatypes.S k)%nat with (Datatypes.S i + k)%nat by lia.
    destruct (y =? year); [apply list_elem_of_further|]; by apply IH.
Qed.

Lemma take_indexes_out_of_range (data : list float) (indexes : list nat) (k : nat) :
  k ∈ indexes -> (length data <= k)%nat ->
  take_indexes data indexes = Raise IndexError.
Proof.
  unfold take_indexes. intros Hin Hk.
  induction indexes as [|i indexes IH]; [by apply elem_of_nil in Hin|].
  cbn [mapM]. destruct (data !! i) as [v|] eqn:Ei; [|reflexivity].
  cbn [of_option rbind]. apply elem_of_cons in Hin as [->|Hin].
  - apply lookup_lt_Some in Ei. lia.
  - by rewrite IH.
Qed.

Lemma take_indexes_result (data : list float) (indexes : list nat) :
  (exists vs, take_indexes data indexes = Ok vs /\ length vs = length indexes)
  \/ take_indexes data indexes = Raise IndexError.
Proof.
  unfold take_indexes. induction indexes as [|i indexes IH]; [left; by exists []|].
  cbn [mapM]. destruct (data !! i) as [v|]; [|by right].
  cbn [of_option rbind]. destruct IH as [(vs & -> & L)| ->]; [|by right].
  left. exists (v :: vs). cbn. by rewrite L.
Qed.

(** A complete year is written, unless [data] is too short for it. *)
Lemma format_year_result fmt years (data : list float) year :
  complete years year ->
  (exists lines, format_year fmt years data year = Ok lines)
  \/ format_year fmt years data year = Raise IndexError.
Proof.
  intros Hc. unfold format_year. rewrite where_eq_length.
  unfold complete in Hc. rewrite Hc, Z.eqb_refl. cbn [negb].
  destruct (take_indexes_result data (where_eq year years 0)) as [(vs & -> & L)| ->];
    [|by right].
  left. cbn [rbind]. rewrite where_eq_length in L.
  unfold reshape_37_10. rewrite length_app, repeat_length, L.
  assert (Hd : values_of_year year years = 365%nat \/ values_of_year year years = 366%nat).
  { unfold Py.days_in_year in Hc. destruct (Py.isleap year); lia. }
  destruct Hd as [-> | ->]; cbn; eauto.
Qed.

Lemma format_years_short fmt years (data : list float) todo fdata bad :
  Forall (complete years) todo ->
  bad ∈ todo ->
  format_year fmt years data bad = Raise IndexError ->
  format_years fmt years data todo fdata = Raise IndexError.
Proof.
  intros Hc Hin Hbad. revert fdata.
  induction Hc as [|year todo Hy _ IH]; intros fdata;
    [by apply elem_of_nil in Hin|].
  cbn [format_years].
  destruct (format_year_result fmt years data year Hy) as [[lines E]|E];
    rewrite E; cbn [rbind]; [|reflexivity].
  apply elem_of_cons in Hin as [->|Hin]; [congruence | by apply IH].
Qed.

(** X19.  When [data] is shorter than [years] and every year of
    [years] is complete, the writer raises [IndexError], and
    [save_data_to_HELP_format] writes nothing. *)
Theorem data_shorter_than_years_raises
  (fmt : formats) (years : list Z) (data : list float) :
  (length data < length years)%nat ->
  Forall (complete years) years ->
  format_timeseries_for_HELP years data fmt = Raise IndexError
  /\ (forall filename city lat w,
        formats_of_ext (ext_of filename) lat = Ok fmt ->
        save_data_to_HELP_format filename years data city lat w
        = (w, Raise IndexError)).
Proof.
  intros Hlen Hc.
  destruct (lookup_lt_is_Some_2 years (length data) Hlen) as [bad Hbad].
  assert (Hin : bad ∈ years) by (by eapply list_elem_of_lookup_2).
  assert (E : forall fdata,
    format_years fmt years data (np_unique years) fdata = Raise IndexError).
  { intros fdata. apply (format_years_short fmt years data _ fdata bad).
    - apply Forall_forall. intros y Hy. rewrite np_unique_elem in Hy.
      rewrite Forall_forall in Hc. by apply Hc.
    - by apply np_unique_elem.
    - unfold format_year. rewrite where_eq_length.
      rewrite Forall_forall in Hc. specialize (Hc bad Hin). unfold complete in Hc.
      rewrite Hc, Z.eqb_refl. cbn [negb].
      rewrite (take_indexes_out_of_range data _ (length data)); [reflexivity| |lia].
      apply (where_eq_elem bad years 0 (length data) Hbad). }
  split; [apply E|].
  intros filename city lat w Hfmt.
  unfold save_data_to_HELP_format, io_bind, io_lift.
  fold (ext_of filename). by rewrite Hfmt, E.
Qed.

End Writer.

End WriterFacts.

(** ** Monthly and yearly values *)

Module DownscalingFacts.
Import Weather WeatherFacts HelpFacts WriterFacts.

Lemma mapM_total {A C} (f : A -> result C) (g : A -> C) (l : list A) :
  (forall a, a ∈ l -> f a = Ok (g a)) -> mapM f l = Ok (map g l).
Proof.
  induction l as [|a l IH]; intros H; [reflexivity|].
  cbn [mapM map]. rewrite H by apply list_elem_of_here. cbn [rbind].
  rewrite IH; [reflexivity|]. intros b Hb. apply H. by apply list_elem_of_further.
Qed.

Lemma mapM_raises {A C} (f : A -> result C) (e : exn) (l : list A) (bad : A) :
  (forall a, a ∈ l -> (exists c, f a = Ok c) \/ f a = Raise e) ->
  bad ∈ l -> f bad = Raise e ->
  mapM f l = Raise e.
Proof.
  intros Hall Hin Hbad. induction l as [|a l IH]; [by apply elem_of_nil in Hin|].
  cbn [mapM].
  destruct (Hall a) as [[c Hc]|Hc]; [apply list_elem_of_here| |by rewrite Hc].
  rewrite Hc. cbn [rbind]. apply elem_of_cons in Hin as [->|Hin]; [congruence|].
  rewrite IH; [reflexivity| |exact Hin].
  intros b Hb. apply Hall. by apply list_elem_of_further.
Qed.

Section Downscaling.
Context {float : Type} {B : Builtins float}.
Variable np_mean : list float -> float.
Variable flt : float -> float -> bool.
Variable isnan : float -> bool.
Variable monthrange : Z -> Z -> result Z.

(** *** calc_yearly *)

(** The value of a year: [func] of its daily values, in their order. *)
Definition year_value (func : list float -> float) (yy_dly : list Z)
  (x_dly : list float) (year : Z) : float :=
  func (values_of year yy_dly x_dly).

(** X20.  [calc_yearly] returns the distinct years in increasing order
    and, for each, [func] of the daily values of that year, taken in
    their order, when [x_dly] is as long as [yy_dly]; the values beyond
    the length of [yy_dly] are not read.  When [x_dly] is shorter it
    raises [IndexError].  [calc_yearly_sum] and [calc_yearly_mean] are
    the same with [np.sum] and [np.mean]. *)
Theorem calc_yearly_by_year
  (yy_dly : list Z) (x_dly : list float) (func : list float -> float) :
  ((length yy_dly <= length x_dly)%nat ->
   calc_yearly yy_dly x_dly func
   = Ok (np_unique yy_dly, map (year_value func yy_dly x_dly) (np_unique yy_dly)))
  /\ ((length x_dly < length yy_dly)%nat ->
      calc_yearly yy_dly x_dly func = Raise IndexError)
  /\ StronglySorted Z.lt (np_unique yy_dly)
  /\ (forall y, y ∈ np_unique yy_dly <-> y ∈ yy_dly)
  /\ calc_yearly_sum yy_dly x_dly = calc_yearly yy_dly x_dly np_sum
  /\ calc_yearly_mean np_mean yy_dly x_dly = calc_yearly yy_dly x_dly np_mean.
Proof.
  split; [|split; [|split; [|split; [|split]]]].
  - intros Hlen. unfold calc_yearly.
    rewrite (mapM_total _ (year_value func yy_dly x_dly)); [reflexivity|].
    intros y _. pose proof (take_indexes_where y yy_dly x_dly [] Hlen) as E.
    cbn [app length] in E. by rewrite E.
  - intros Hlen. unfold calc_yearly.
    destruct (lookup_lt_is_Some_2 yy_dly (length x_dly) Hlen) as [bad Hbad].
    rewrite (mapM_raises _ IndexError _ bad); [reflexivity| | |].
    + intros y _.
      destruct (take_indexes_result x_dly (where_eq y yy_dly 0)) as [(vs & -> & _)| ->];
        [left; eauto | by right].
    + apply np_unique_elem. by eapply list_elem_of_lookup_2.
    + rewrite (take_indexes_out_of_range x_dly _ (length x_dly)); [reflexivity| |lia].
      apply (where_eq_elem bad yy_dly 0 (length x_dly) Hbad).
  - apply np_unique_sorted.
  - intros y. apply np_unique_elem.
  - reflexivity.
  - reflexivity.
Qed.

(** *** calcul_rain_from_ptot *)

(** The rain of a day: none when the day is colder than [Tcrit]. *)
Definition rain_of_day (Tcrit : float) (t : option float) (p : float) : float :=
  match t with
  | Some t => if flt t Tcrit then fzero else p
  | None => p
  end.

Fixpoint rain_of (Tcrit : float) (Tavg Ptot : list float) : list float :=
  match Tavg, Ptot with
  | t :: Tavg', p :: Ptot' =>
      rain_of_day Tcrit (Some t) p :: rain_of Tcrit Tavg' Ptot'
  | _, _ => Ptot
  end.

Lemma rain_of_length Tcrit Tavg Ptot :
  length (rain_of Tcrit Tavg Ptot) = length Ptot.
Proof.
  revert Ptot. induction Tavg as [|t Tavg IH]; intros [|p Ptot]; cbn; auto.
Qed.

Lemma rain_of_lookup Tcrit Tavg Ptot i :
  rain_of Tcrit Tavg Ptot !! i = rain_of_day Tcrit (Tavg !! i) <$> Ptot !! i.
Proof.
  revert Ptot i. induction Tavg as [|t Tavg IH]; intros [|p Ptot] [|i]; cbn;
    try reflexivity.
  - by destruct (Ptot !! i).
  - apply IH.
Qed.

Lemma scatter_zeros Tcrit Tavg Ptot (pre : list float) :
  (length Tavg <= length Ptot)%nat ->
  scatter_loop (pre ++ Ptot) (where_lt flt Tavg Tcrit (length pre))
    (repeat fzero (length (where_lt flt Tavg Tcrit (length pre))))
  = Ok (pre ++ rain_of Tcrit Tavg Ptot).
Proof.
  revert Ptot pre. induction Tavg as [|t Tavg IH]; intros Ptot pre Hlen.
  { by destruct Ptot. }
  destruct Ptot as [|p Ptot]; [cbn in Hlen; lia|]. cbn in Hlen.
  specialize (IH Ptot (pre ++ [rain_of_day Tcrit (Some t) p])).
  rewrite <- !app_assoc, length_app, Nat.add_1_r in IH. cbn [app] in IH.
  cbn [where_lt rain_of]. unfold rain_of_day in *. destruct (flt t Tcrit).
  - cbn [length repeat scatter_loop]. unfold set_item.
    rewrite length_app. cbn [length].
    destruct (Nat.ltb_spec (length pre) (length pre + Datatypes.S (length Ptot)));
      [|lia].
    cbn [rbind]. rewrite insert_app_r_alt, Nat.sub_diag by lia. cbn [insert list_insert].
    apply IH. lia.
  - apply IH. lia.
Qed.

(** X21.  [calcul_rain_from_ptot] returns a copy of [Ptot] in which
    the days colder than [Tcrit] have no rain and the other days, and
    the days beyond the length of [Tavg], keep the value of [Ptot],
    when [Tavg] is no longer than [Ptot]; applied to its own result it
    changes nothing.  A cold day beyond the length of [Ptot] raises
    [IndexError]. *)
Theorem rain_is_ptot_of_warm_days (Tavg Ptot : list float) (Tcrit : float) :
  ((length Tavg <= length Ptot)%nat ->
   exists rain,
     calcul_rain_from_ptot flt Tavg Ptot Tcrit = Ok rain /\
     length rain = length Ptot /\
     (forall i, rain !! i = rain_of_day Tcrit (Tavg !! i) <$> Ptot !! i) /\
     calcul_rain_from_ptot flt Tavg rain Tcrit = Ok rain)
  /\ (forall i t, Tavg !! i = Some t -> flt t Tcrit = true ->
      (length Ptot <= i)%nat ->
      calcul_rain_from_ptot flt Tavg Ptot Tcrit = Raise IndexError).
Proof.
  split.
  - intros Hlen. exists (rain_of Tcrit Tavg Ptot).
    assert (E : forall P, (length Tavg <= length P)%nat ->
              calcul_rain_from_ptot flt Tavg P Tcrit = Ok (rain_of Tcrit Tavg P)).
    { intros P HP. exact (scatter_zeros Tcrit Tavg P [] HP). }
    split; [by apply E|]. split; [apply rain_of_length|].
    split; [apply rain_of_lookup|].
    rewrite E by (by rewrite rain_of_length). f_equal.
    apply list_eq. intros i. rewrite !rain_of_lookup.
    destruct (Ptot !! i) as [p|]; [|reflexivity]. cbn.
    destruct (Tavg !! i) as [t|]; [|reflexivity]. cbn.
    by destruct (flt t Tcrit) eqn:Et; rewrite ?Et.
  - intros i t Hi Hcold Hout. unfold calcul_rain_from_ptot.
    assert (G : forall T (P : list float) k j,
              T !! j = Some t -> (length P <= k + j)%nat ->
              scatter_loop P (where_lt flt T Tcrit k)
                (repeat fzero (length (where_lt flt T Tcrit k)))
              = Raise IndexError).
    { clear Hi Hout. induction T as [|x T IH]; intros P k [|j] Hj Hk;
        try discriminate.
      - cbn in Hj. injection Hj as ->. cbn [where_lt]. rewrite Hcold.
        cbn [length repeat scatter_loop]. unfold set_item.
        destruct (Nat.ltb_spec k (length P)); [lia | reflexivity].
      - cbn in Hj. cbn [where_lt]. destruct (flt x Tcrit).
        + cbn [length repeat scatter_loop]. unfold set_item.
          destruct (Nat.ltb_spec k (length P)); [|reflexivity].
          cbn [rbind]. apply (IH _ _ j Hj). rewrite length_insert. lia.
        + apply (IH _ _ j Hj). lia. }
    by apply (G Tavg Ptot 0%nat i).
Qed.

(** *** calc_monthly *)

(** The values of [x] at the positions of a mask. *)
Fixpoint masked (mask : list bool) (x : list float) : list float :=
  match mask, x with
  | b :: mask', v :: x' => if b then v :: masked mask' x' else masked mask' x'
  | _, _ => []
  end.

Lemma take_indexes_mask (mask : list bool) (x pre : list float) :
  (length mask <= length x)%nat ->
  take_indexes (pre ++ x) (where_true mask (length pre)) = Ok (masked mask x).
Proof.
  revert x pre. induction mask as [|b mask IH]; intros x pre Hlen.
  - by destruct x.
  - destruct x as [|v x]; [cbn in Hlen; lia|]. cbn in Hlen.
    specialize (IH x (pre ++ [v])).
    rewrite <- app_assoc, length_app, Nat.add_1_r in IH. cbn [app] in IH.
    cbn [where_true masked]. destruct b.
    + unfold take_indexes in *. cbn [mapM].
      rewrite list_lookup_middle by reflexivity. cbn [of_option rbind].
      rewrite IH by lia. reflexivity.
    + apply IH. lia.
Qed.

Lemma where_true_length (mask : list bool) (x : list float) (i : nat) :
  (length mask <= length x)%nat ->
  length (where_true mask i) = length (masked mask x).
Proof.
  revert x i. induction mask as [|b mask IH]; intros x i Hlen; [by destruct x|].
  destruct x as [|v x]; [cbn in Hlen; lia|]. cbn in Hlen.
  cbn [where_true masked]. destruct b; cbn [length]; rewrite (IH x) by lia;
    reflexivity.
Qed.

Lemma np_and_same (a b : list bool) :
  length a = length b -> np_and a b = Ok (zip_with andb a b).
Proof. intros H. unfold np_and. by rewrite H, Nat.eqb_refl. Qed.

(** The daily values of a month of a year, in their order. *)
Definition month_values (yy_dly mm_dly : list Z) (x_dly : list float)
  (ym : Z * Z) : list float :=
  masked (zip_with andb (eq_mask ym.1 yy_dly) (eq_mask ym.2 mm_dly)) x_dly.

(** The monthly value: [nan] when the month has fewer daily values than
    days. *)
Definition month_cell (ndays : Z -> Z -> Z) (func : list float -> float)
  (yy_dly mm_dly : list Z) (x_dly : list float) (ym : Z * Z) : float :=
  let vals := month_values yy_dly mm_dly x_dly ym in
  if Z.of_nat (length vals) <? ndays ym.1 ym.2 then fnan else func vals.

(** The months of the distinct years, in the order of the calendar. *)
Definition year_months (yy_dly : list Z) : list (Z * Z) :=
  flat_map (fun y => map (pair y) months12) (np_unique yy_dly).

Lemma repeat_years (l : list Z) :
  flat_map (fun y => repeat y (length months12)) l
  = map fst (flat_map (fun y => map (pair y) months12) l).
Proof.
  induction l as [|y l IH]; [reflexivity|].
  cbn [flat_map]. rewrite map_app, IH. reflexivity.
Qed.

Lemma tile_months (l : list Z) :
  concat (repeat months12 (length l))
  = map snd (flat_map (fun y : Z => map (pair y) months12) l).
Proof.
  induction l as [|y l IH]; [reflexivity|].
  cbn [length repeat concat flat_map]. rewrite map_app, IH. reflexivity.
Qed.

Lemma zip_map_fst_snd {A C} (l : list (A * C)) : zip (map fst l) (map snd l) = l.
Proof. induction l as [|[a c] l IH]; cbn; [reflexivity | by rewrite IH]. Qed.

Lemma year_months_elem (yy_dly : list Z) (y m : Z) :
  (y, m) ∈ year_months yy_dly -> y ∈ yy_dly /\ m ∈ months12.
Proof.
  unfold year_months. intros H. apply list_elem_of_In, in_flat_map in H.
  destruct H as (y0 & Hy0 & H). apply in_map_iff in H as (m0 & [= <- <-] & Hm).
  split; [by apply np_unique_elem, list_elem_of_In | by apply list_elem_of_In].
Qed.

Lemma year_months_length (yy_dly : list Z) :
  length (year_months yy_dly) = (12 * length (np_unique yy_dly))%nat.
Proof.
  unfold year_months. induction (np_unique yy_dly) as [|y l IH]; [reflexivity|].
  cbn [flat_map]. rewrite length_app, IH. cbn [length map months12]. cbn. lia.
Qed.

(** X22.  On daily arrays of years and months of one length, with
    values for each of their positions, [calc_monthly] returns twelve
    entries per distinct year, for the months 1 to 12 of each year in
    increasing order of the years: [nan] for a month that has fewer
    daily values than [calendar.monthrange] gives it days, and [func] of
    the daily values of the month, in their order, otherwise.
    [calc_monthly_sum] and [calc_monthly_mean] are the same with
    [np.sum] and [np.mean]. *)
Theorem calc_monthly_by_month
  (yy_dly mm_dly : list Z) (x_dly : list float) (func : list float -> float)
  (ndays : Z -> Z -> Z) :
  length mm_dly = length yy_dly ->
  (length yy_dly <= length x_dly)%nat ->
  (forall y m, y ∈ yy_dly -> m ∈ months12 -> monthrange y m = Ok (ndays y m)) ->
  let pairs := year_months yy_dly in
  calc_monthly monthrange yy_dly mm_dly x_dly func
  = Ok (map fst pairs, map snd pairs,
        map (month_cell ndays func yy_dly mm_dly x_dly) pairs)
  /\ length pairs = (12 * length (np_unique yy_dly))%nat
  /\ calc_monthly_sum monthrange yy_dly mm_dly x_dly
     = calc_monthly monthrange yy_dly mm_dly x_dly np_sum
  /\ calc_monthly_mean np_mean monthrange yy_dly mm_dly x_dly
     = calc_monthly monthrange yy_dly mm_dly x_dly np_mean.
Proof.
  intros Hmm Hlen Hdays pairs.
  split; [|split; [apply year_months_length | split; reflexivity]].
  unfold calc_monthly. rewrite repeat_years, tile_months.
  fold (year_months yy_dly). fold pairs. rewrite zip_map_fst_snd.
  rewrite (mapM_total _ (month_cell ndays func yy_dly mm_dly x_dly));
    [reflexivity|].
  intros [y m] Hin. apply year_months_elem in Hin as [Hy Hm].
  unfold month_value, month_cell, month_values. cbn [fst snd].
  assert (Hmask : (length (zip_with andb (eq_mask y yy_dly) (eq_mask m mm_dly))
                   <= length x_dly)%nat).
  { rewrite length_zip_with. unfold eq_mask. rewrite !length_map. lia. }
  rewrite np_and_same by (unfold eq_mask; by rewrite !length_map).
  cbn [rbind]. rewrite (Hdays y m Hy Hm). cbn [rbind].
  rewrite (where_true_length _ x_dly 0 Hmask).
  destruct (Z.of_nat _ <? ndays y m); [reflexivity|].
  pose proof (take_indexes_mask _ x_dly [] Hmask) as E. cbn [app length] in E.
  by rewrite E.
Qed.

(** *** calcul_monthly_normals *)

Lemma fold_min_le (l : list Z) (x : Z) :
  fold_left Z.min l x <= x /\ Forall (fun m => fold_left Z.min l x <= m) l.
Proof.
  revert x. induction l as [|a l IH]; intros x; cbn [fold_left].
  - split; [lia | constructor].
  - destruct (IH (Z.min x a)) as [H1 H2]. split; [lia|].
    constructor; [lia | exact H2].
Qed.

Lemma fold_max_ge (l : list Z) (x : Z) :
  x <= fold_left Z.max l x /\ Forall (fun m => m <= fold_left Z.max l x) l.
Proof.
  revert x. induction l as [|a l IH]; intros x; cbn [fold_left].
  - split; [lia | constructor].
  - destruct (IH (Z.max x a)) as [H1 H2]. split; [lia|].
    constructor; [lia | exact H2].
Qed.

Lemma fold_min_bound (lo : Z) (l : list Z) (x : Z) :
  lo <= x -> Forall (fun m => lo <= m) l -> lo <= fold_left Z.min l x.
Proof.
  intros Hx Hl. revert x Hx. induction Hl as [|a l Ha _ IH]; intros x Hx;
    cbn [fold_left]; [exact Hx|]. apply IH. lia.
Qed.

Lemma fold_max_bound (hi : Z) (l : list Z) (x : Z) :
  x <= hi -> Forall (fun m => m <= hi) l -> fold_left Z.max l x <= hi.
Proof.
  intros Hx Hl. revert x Hx. induction Hl as [|a l Ha _ IH]; intros x Hx;
    cbn [fold_left]; [exact Hx|]. apply IH. lia.
Qed.

(** X23.  [calcul_monthly_normals] raises [ValueError] when [months]
    is empty, when some month is not between 1 and 12, and when the
    length of [months] is neither that of [years] nor that of
    [x_mly]. *)
Theorem monthly_normals_rejects
  (years months : list Z) (x_mly : list float) (yearmin yearmax : option Z) :
  (months = [] ->
   calcul_monthly_normals np_mean isnan years months x_mly yearmin yearmax
   = Raise ValueError)
  /\ ((exists m, m ∈ months /\ (m < 1 \/ 12 < m)) ->
      calcul_monthly_normals np_mean isnan years months x_mly yearmin yearmax
      = Raise ValueError)
  /\ (length years <> length months -> length months <> length x_mly ->
      calcul_monthly_normals np_mean isnan years months x_mly yearmin yearmax
      = Raise ValueError).
Proof.
  split; [|split].
  - intros ->. unfold calcul_monthly_normals.
    by destruct (negb _ && negb _).
  - intros (m & Hin & Hm). unfold calcul_monthly_normals.
    destruct (negb _ && negb _); [reflexivity|].
    destruct months as [|m0 months]; [by apply elem_of_nil in Hin|].
    cbn [np_min np_max rbind].
    destruct (fold_min_le months m0) as [L0 L]. destruct (fold_max_ge months m0) as [U0 U].
    rewrite Forall_forall in L, U.
    destruct (Z.ltb_spec (fold_left Z.min months m0) 1) as [|Hlo]; [reflexivity|].
    cbn [rbind].
    destruct (Z.ltb_spec 12 (fold_left Z.max months m0)) as [|Hhi]; [reflexivity|].
    exfalso. apply elem_of_cons in Hin as [->|Hin].
    + lia.
    + specialize (L m Hin). specialize (U m Hin). lia.
  - intros H1 H2. unfold calcul_monthly_normals.
    destruct (Nat.eqb_spec (length years) (length months)); [contradiction|].
    destruct (Nat.eqb_spec (length months) (length x_mly)); [contradiction|].
    reflexivity.
Qed.

(** The year is outside of the range of the normals. *)
Definition outside (yearmin yearmax : option Z) (y : Z) : bool :=
  match yearmin with Some lo => y <? lo | None => false end
  || match yearmax with Some hi => hi <? y | None => false end.

(** The monthly values a normal is the mean of: those of the month, of
    a year in the range, that are not [nan]. *)
Fixpoint kept (yearmin yearmax : option Z) (mm : Z) (years months : list Z)
  (x_mly : list float) : list float :=
  match years, months, x_mly with
  | y :: years', m :: months', v :: x_mly' =>
      if (m =? mm) && negb (outside yearmin yearmax y) && negb (isnan v)
      then v :: kept yearmin yearmax mm years' months' x_mly'
      else kept yearmin yearmax mm years' months' x_mly'
  | _, _, _ => []
  end.

Definition normal (yearmin yearmax : option Z) (years months : list Z)
  (x_mly : list float) (mm : Z) : float :=
  match kept yearmin yearmax mm years months x_mly with
  | [] => fnan
  | vals => np_mean vals
  end.

(** The monthly values after those of the years outside of the range
    are set to [nan]. *)
Definition clip (yearmin yearmax : option Z) (years : list Z) (x_mly : list float)
  : list float :=
  zip_with (fun y v => if outside yearmin yearmax y then fnan else v) years x_mly.

Lemma clip_length yearmin yearmax years (x_mly : list float) :
  length years = length x_mly ->
  length (clip yearmin yearmax years x_mly) = length x_mly.
Proof. intros H. unfold clip. rewrite length_zip_with. lia. Qed.

Lemma set_where_mask (f : Z -> bool) (years : list Z) (x : list float) :
  length years = length x ->
  set_where x (map f years) fnan
  = Ok (zip_with (fun y v => if f y then fnan else v) years x).
Proof.
  intros Hlen. unfold set_where. rewrite length_map, Hlen, Nat.eqb_refl. f_equal.
  clear Hlen. revert x. induction years as [|y years IH]; intros [|v x];
    cbn; try reflexivity. by rewrite IH.
Qed.

Lemma zip_with_twice (f g : Z -> bool) (years : list Z) (x : list float) :
  zip_with (fun y v => if g y then fnan else v) years
    (zip_with (fun y v => if f y then fnan else v) years x)
  = zip_with (fun y v => if f y || g y then fnan else v) years x.
Proof.
  revert x. induction years as [|y years IH]; intros [|v x]; cbn; try reflexivity.
  rewrite IH. by destruct (f y), (g y).
Qed.

Lemma zip_with_same (h h' : Z -> float -> float) (years : list Z) (x : list float) :
  (forall y v, h y v = h' y v) -> zip_with h years x = zip_with h' years x.
Proof.
  intros H. revert x. induction years as [|y years IH]; intros [|v x]; cbn;
    try reflexivity. by rewrite H, IH.
Qed.

Lemma set_where_clip yearmin yearmax years (x_mly : list float) :
  length years = length x_mly ->
  (do x1 <- match yearmin with
            | None => Ok x_mly
            | Some y => set_where x_mly (map (fun v => v <? y) years) fnan
            end;
   match yearmax with
   | None => Ok x1
   | Some y => set_where x1 (map (fun v => y <? v) years) fnan
   end) = Ok (clip yearmin yearmax years x_mly).
Proof.
  intros Hlen. unfold clip, outside. destruct yearmin as [lo|], yearmax as [hi|].
  - rewrite set_where_mask by exact Hlen. cbn [rbind].
    rewrite set_where_mask by (rewrite length_zip_with; lia).
    by rewrite zip_with_twice.
  - rewrite set_where_mask by exact Hlen. cbn [rbind]. f_equal.
    apply zip_with_same. intros y v. by rewrite orb_false_r.
  - cbn [rbind]. rewrite set_where_mask by exact Hlen. reflexivity.
  - cbn [rbind]. f_equal. revert x_mly Hlen.
    induction years as [|y years IH]; intros [|v x] Hlen; cbn in *;
      try reflexivity; try lia.
    rewrite <- IH by lia. reflexivity.
Qed.

Lemma masked_kept yearmin yearmax mm years months (x_mly : list float) :
  isnan fnan = true ->
  length years = length months -> length months = length x_mly ->
  masked (zip_with andb (eq_mask mm months)
            (map (fun v => negb (isnan v)) (clip yearmin yearmax years x_mly)))
         (clip yearmin yearmax years x_mly)
  = kept yearmin yearmax mm years months x_mly.
Proof.
  intros Hnan. unfold clip, eq_mask. revert months x_mly.
  induction years as [|y years IH]; intros [|m months] [|v x] H1 H2;
    cbn [length] in H1, H2; try lia; try reflexivity.
  cbn [zip_with map masked kept]. rewrite IH by lia.
  destruct (m =? mm), (outside yearmin yearmax y); cbn; rewrite ?Hnan; cbn;
    try reflexivity; by destruct (isnan v).
Qed.

(** X24.  On arrays of one length, with at least one month and the
    months between 1 and 12, [calcul_monthly_normals] returns twelve
    values: for each month, the [np.mean] of the monthly values of that
    month that are not [nan] and whose year is not before [yearmin] or
    after [yearmax], in their order, or [nan] when there is none. *)
Theorem monthly_normals_by_month
  (years months : list Z) (x_mly : list float) (yearmin yearmax : option Z) :
  isnan fnan = true ->
  length years = length months ->
  length months = length x_mly ->
  months <> [] ->
  Forall (fun m => 1 <= m <= 12) months ->
  calcul_monthly_normals np_mean isnan years months x_mly yearmin yearmax
  = Ok (map (normal yearmin yearmax years months x_mly) months12)
  /\ length (map (normal yearmin yearmax years months x_mly) months12) = 12%nat.
Proof.
  intros Hnan H1 H2 Hne Hrange. split; [|reflexivity].
  unfold calcul_monthly_normals. rewrite H1, Nat.eqb_refl. cbn [negb andb].
  destruct months as [|m0 months]; [contradiction|].
  apply Forall_cons in Hrange as [Hm0 Hrange].
  cbn [np_min np_max rbind].
  pose proof (fold_min_bound 1 months m0 (proj1 Hm0)
                (Forall_impl _ _ _ Hrange (fun m H => proj1 H))) as Hlo.
  pose proof (fold_max_bound 12 months m0 (proj2 Hm0)
                (Forall_impl _ _ _ Hrange (fun m H => proj2 H))) as Hhi.
  destruct (Z.ltb_spec (fold_left Z.min months m0) 1); [lia|]. cbn [rbind].
  destruct (Z.ltb_spec 12 (fold_left Z.max months m0)); [lia|].
  assert (Hyx : length years = length x_mly) by congruence.
  pose proof (set_where_clip yearmin yearmax years x_mly Hyx) as Hclip.
  destruct (match yearmin with
            | None => Ok x_mly
            | Some y => set_where x_mly (map (fun v => v <? y) years) fnan
            end) as [x1|e]; [|discriminate]. cbn [rbind] in Hclip |- *.
  rewrite Hclip. cbn [rbind].
  apply mapM_total. intros mm _. unfold month_normal, normal.
  pose proof (clip_length yearmin yearmax years x_mly Hyx) as Hcl.
  assert (Hmask : (length (zip_with andb (eq_mask mm (m0 :: months))
                     (map (fun v => negb (isnan v)) (clip yearmin yearmax years x_mly)))
                   <= length (clip yearmin yearmax years x_mly))%nat).
  { rewrite length_zip_with, length_map. lia. }
  rewrite np_and_same by (unfold eq_mask; rewrite !length_map; congruence).
  cbn [rbind]. rewrite (where_true_length _ _ 0 Hmask).
  pose proof (take_indexes_mask _ _ [] Hmask) as E. cbn [app length] in E.
  rewrite E, masked_kept by assumption.
  by destruct (kept yearmin yearmax mm years (m0 :: months) x_mly).
Qed.

End Downscaling.

End DownscalingFacts.
Module ParserExamples.
Import Processing ProcessingFacts ProcessingExamples ParserFacts.

Lemma monthly_without_title_raises_witness :
  let B := Concrete.builtins in
  outer_loop init_mstate init_locals Samples.monthly_tail = Ok init_mstate
  /\ read_monthly_help_output Samples.monthly_tail = Raise ValueError.
Proof.
  intros B. apply (monthly_without_title_raises (B := B) Samples.monthly_tail).
  cbn [removelast Samples.monthly_tail]. forall_compute.
Defined.

Lemma monthly_unterminated_block_raises_witness :
  let B := Concrete.builtins in
  let file := [[]] ++ Samples.monthly_title :: Samples.monthly_body in
  (forall (st : mstate Concrete.xfloat) loc, outer_loop st loc file = Raise IndexError)
  /\ read_monthly_help_output file = Raise IndexError.
Proof.
  intros B file.
  apply (monthly_unterminated_block_raises (B := B) [[]]
           "  MONTHLY TOTALS (IN INCHES) FOR YEAR 2001" [] 2001 Samples.monthly_body).
  - forall_compute.
  - exact sample_title.
  - discriminate.
  - exact sample_body.
Defined.

Lemma sample_body_dry : Forall not_separator Samples.monthly_body_dry.
Proof. cbn [Samples.monthly_body_dry Samples.monthly_body drop]. forall_compute. Defined.

Lemma monthly_rain_carried_over_witness :
  let B := Concrete.builtins in
  let st := init_mstate in
  let loc := init_locals in
  let body := Samples.monthly_body_dry in
  let sep := Samples.monthly_separator in
  let block := Samples.monthly_title :: body ++ sep :: Samples.monthly_tail in
  let loc' := block_locals loc body sep in
  precip loc' = precip loc
  /\ (precip loc = None -> outer_loop st loc block = Raise UnboundLocalError)
  /\ (forall st', close_block (open_block_state st 2001) loc' = Ok st' ->
      exists toks v,
        precip loc = Some toks /\ astype_f32 (Some toks) = Ok v /\
        vstack_precip st' = vstack_precip st ++ [v])
  /\ read_monthly_help_output block = Raise UnboundLocalError.
Proof.
  intros B st loc body sep block loc'.
  apply (monthly_rain_carried_over (B := B) st loc
           "  MONTHLY TOTALS (IN INCHES) FOR YEAR 2001" [] 2001 body
           " *******************************************************************"
           [] Samples.monthly_tail).
  - exact sample_title.
  - exact sample_body_dry.
  - vm_compute. reflexivity.
  - vm_compute. forall_compute.
Defined.

(** The years 2001 and 2002 of a daily report. *)
Definition section_2001 : year_section :=
  {| s_mline := "          DAILY OUTPUT FOR YEAR 2001"; s_mfields := [];
     s_year := 2001; s_rows := Samples.daily_year_rows |}.

Definition section_2002 : year_section :=
  {| s_mline := "          DAILY OUTPUT FOR YEAR 2002"; s_mfields := [];
     s_year := 2002; s_rows := Samples.daily_year_rows |}.

(** The first hundred days of 2001. *)
Definition section_2001_cut : year_section :=
  {| s_mline := "          DAILY OUTPUT FOR YEAR 2001"; s_mfields := [];
     s_year := 2001; s_rows := take 102 Samples.daily_year_rows |}.

Lemma daily_years_in_sequence_witness :
  let B := Concrete.builtins in
  read_daily_help_output
    (Samples.daily_head ++ flat_map section_rows [section_2001; section_2002])
  = Ok (table_of (flat_map section_entries [section_2001; section_2002])).
Proof.
  intros B.
  apply (daily_years_in_sequence (B := B) Samples.daily_head [section_2001; section_2002]).
  - vm_compute. reflexivity.
  - repeat (apply List.Forall_cons || apply List.Forall_nil);
      (split; [repeat split|]); vm_compute; reflexivity.
Defined.

Lemma daily_truncated_year_kept_witness :
  let B := Concrete.builtins in
  read_daily_help_output (Samples.daily_head ++ section_rows section_2001_cut)
  = Ok (table_of (section_entries section_2001_cut)).
Proof.
  intros B.
  apply (daily_truncated_year_kept (B := B) Samples.daily_head section_2001_cut).
  - vm_compute. reflexivity.
  - split; [repeat split; vm_compute; reflexivity|].
    apply List.Forall_forall. intros d Hd.
    apply list_elem_of_In in Hd.
    change (omap parsed (s_rows section_2001_cut)) with
      (omap parsed (take 102 Samples.daily_year_rows)) in Hd.
    assert (E : omap (parsed (B := B)) (take 102 Samples.daily_year_rows)
                = map Samples.daily_values (seq 1 100)).
    { vm_compute. reflexivity. }
    rewrite E in Hd. apply list_elem_of_In, in_map_iff in Hd as (k & <- & Hk).
    apply in_seq in Hk. cbn [Samples.daily_values r_day].
    change (Py.days_in_year (s_year section_2001_cut)) with 365. lia.
Defined.

Lemma daily_unreadable_label_raises_witness :
  let B := Concrete.builtins in
  read_daily_help_output
    (Samples.daily_head ++ [" TOTAL NUMBER OF LAYERS = three"] :: Samples.daily_trailing)
  = Raise ValueError.
Proof.
  intros B.
  apply (daily_unreadable_label_raises (B := B) Samples.daily_head
           {| nlay := Some 3; nsub := Some 1; year := None; days_in_year := None;
              arr_dyears := []; arr_days := []; arr_rain := []; arr_ru := [];
              arr_et := []; arr_ezone := []; arr_headfirst := [];
              arr_drainfirst := []; arr_leakfirst := []; arr_leaklast := [] |}
           " TOTAL NUMBER OF LAYERS = three" [] "three" Samples.daily_trailing);
    vm_compute; reflexivity.
Defined.

Lemma monthly_last_pair_of_a_label_wins_witness :
  let B := Concrete.builtins in
  let st := init_mstate in
  let loc := init_locals in
  let body := Samples.monthly_body in
  let sep := Samples.monthly_separator in
  let pairs := block_pairs body sep in
  let loc' := block_locals loc body sep in
  precip loc' = last_or is_precip pairs (precip loc)
  /\ runoff loc' = last_or is_runoff pairs (runoff loc)
  /\ evapo loc' = last_or is_evapo pairs (evapo loc)
  /\ forall st',
       outer_loop st loc (Samples.monthly_title :: body ++ [sep]) = Ok st' ->
       arr_years st' = arr_years st ++ [2001] /\
       exists p r e,
         astype_f32 (last_or is_precip pairs (precip loc)) = Ok p /\
         astype_f32 (last_or is_runoff pairs (runoff loc)) = Ok r /\
         astype_f32 (last_or is_evapo pairs (evapo loc)) = Ok e /\
         vstack_precip st' = vstack_precip st ++ [p] /\
         vstack_runoff st' = vstack_runoff st ++ [r] /\
         vstack_evapo st' = vstack_evapo st ++ [e].
Proof.
  intros B st loc body sep pairs loc'.
  apply (monthly_last_pair_of_a_label_wins (B := B) st loc
           "  MONTHLY TOTALS (IN INCHES) FOR YEAR 2001" [] 2001 body
           " *******************************************************************"
           []).
  - exact sample_title.
  - exact sample_body.
  - vm_compute. reflexivity.
Defined.

Lemma monthly_stops_at_final_water_storage_witness :
  let B := Concrete.builtins in
  let fws := " FINAL WATER STORAGE AT END OF YEAR 2001" in
  (forall (st : mstate Concrete.xfloat) loc,
      outer_loop st loc ([[]] ++ [fws] :: [[]]) = Ok st)
  /\ read_monthly_help_output
       (Samples.monthly_title :: Samples.monthly_body ++ Samples.monthly_separator
          :: [[]] ++ [fws] :: [[]])
     = read_monthly_help_output
         (Samples.monthly_title :: Samples.monthly_body ++ Samples.monthly_separator
            :: [[]] ++ [fws] :: Samples.monthly_file).
Proof.
  intros B fws.
  destruct (monthly_stops_at_final_water_storage (B := B) [[]] fws [] [[]])
    as [H1 H2].
  - forall_compute.
  - vm_compute. reflexivity.
  - vm_compute. reflexivity.
  - discriminate.
  - split; [exact H1|].
    apply (H2 "  MONTHLY TOTALS (IN INCHES) FOR YEAR 2001" [] 2001 Samples.monthly_body
              " *******************************************************************"
              [] Samples.monthly_file).
    + exact sample_title.
    + exact sample_body.
    + vm_compute. reflexivity.
    + discriminate.
Defined.
End ParserExamples.
Module BatchExamples.
Import Processing BatchFacts BatchSafety.

(** The world after the cell "cell_a" has run. *)
Definition world_a : world :=
  {| files := delete "out/a.OUT" (files Samples.world0); sim_log := [] |}.

Lemma singlecell_simulates_when_missing_witness :
  let B := Concrete.builtins in
  let S := Concrete.idle_simulator in
  run_help_singlecell ("cell_c", ["c.D10"; "c.D11"]) Samples.world0
    = (Samples.world0, Raise IndexError)
  /\ sim_log (run_help_singlecell ("cell_a", Samples.outparam_a) Samples.world0).1
     = sim_log Samples.world0
  /\ sim_log (run_help_singlecell ("cell_c", Samples.outparam_c) Samples.world0).1
     = sim_log Samples.world0 ++ [Samples.outparam_c]
  /\ run_help_singlecell ("cell_c", Samples.outparam_c) Samples.world0
     = ({| files := files Samples.world0;
           sim_log := sim_log Samples.world0 ++ [Samples.outparam_c] |},
        Raise FileNotFoundError).
Proof.
  intros B S. split; [|split; [|split]].
  - apply (proj1 (singlecell_simulates_when_missing (B := B) (S := S)
                    Samples.world0 "cell_c" ["c.D10"; "c.D11"])).
    reflexivity.
  - apply (proj1 (proj2 (singlecell_simulates_when_missing (B := B) (S := S)
                           Samples.world0 "cell_a" Samples.outparam_a))
             "out/a.OUT").
    reflexivity.
  - apply (proj1 (proj2 (singlecell_simulates_when_missing (B := B) (S := S)
                           Samples.world0 "cell_c" Samples.outparam_c))
             "out/c.OUT").
    reflexivity.
  - apply (proj2 (proj2 (singlecell_simulates_when_missing (B := B) (S := S)
                           Samples.world0 "cell_c" Samples.outparam_c))
             "out/c.OUT" (files Samples.world0)); reflexivity.
Defined.

Lemma singlecell_success_consumes_output_witness :
  let B := Concrete.builtins in
  let S := Concrete.idle_simulator in
  ("cell_a", Samples.monthly_expected).1 = "cell_a"
  /\ exists out, Samples.outparam_a !! 5%nat = Some out /\ files world_a !! out = None
     /\ forall cell2 outparam2, outparam2 !! 5%nat = Some out ->
        sim_log (run_help_singlecell (cell2, outparam2) world_a).1
        = sim_log world_a ++ [outparam2].
Proof.
  intros B S.
  apply (singlecell_success_consumes_output (B := B) (S := S) Samples.world0 world_a
           "cell_a" Samples.outparam_a ("cell_a", Samples.monthly_expected)).
  rewrite (run_help_singlecell_exists Samples.world0 "cell_a" Samples.outparam_a
             "out/a.OUT" Samples.monthly_file); [|reflexivity|reflexivity].
  replace (read_monthly_help_output Samples.monthly_file)
    with (Ok Samples.monthly_expected : result (monthly Concrete.xfloat))
    by (vm_compute; reflexivity).
  reflexivity.
Defined.

(** A batch of one cell, whose output file is not there: the pool after
    the worker has called the simulator. *)
Definition cell_c : gmap string (list string) := {["cell_c" := Samples.outparam_c]}.

Lemma pool_simulates_at_most_once_per_cell_witness :
  let B := Concrete.builtins in
  let S := Concrete.idle_simulator in
  let P : pool Concrete.xfloat :=
    {| p_world := {| files := files Samples.world0; sim_log := [Samples.outparam_c] |};
       p_tasks := [{| t_cell := "cell_c"; t_param := Samples.outparam_c; t_pc := PRead |}];
       p_output := ∅ |} in
  (exists cells calls,
      simulated cell_c cells calls /\
      sim_log (p_world P) = sim_log Samples.world0 ++ calls /\
      (length calls <= size cell_c)%nat)
  /\ dom (p_output P) ⊆ dom cell_c.
Proof.
  intros B S P.
  apply (pool_simulates_at_most_once_per_cell (B := B) (S := S) cell_c Samples.world0 P).
  pose (t0 := {| t_cell := "cell_c"; t_param := Samples.outparam_c;
                 t_pc := PStart |} : task Concrete.xfloat).
  pose (t1 := {| t_cell := "cell_c"; t_param := Samples.outparam_c;
                 t_pc := PSim |} : task Concrete.xfloat).
  pose (P0 := initial_pool cell_c Samples.world0 : pool Concrete.xfloat).
  pose (P1 := {| p_world := Samples.world0; p_tasks := [t1]; p_output := ∅ |}
              : pool Concrete.xfloat).
  assert (H01 : pool_step P0 P1).
  { exact (step_worker 0 t0 PSim Samples.world0 P0 eq_refl eq_refl). }
  assert (H12 : pool_step P1 P).
  { exact (step_worker 0 t1 PRead (p_world P) P1 eq_refl eq_refl). }
  exact (steps_step P0 P1 P (steps_step P0 P0 P1 (steps_refl P0) H01) H12).
Defined.

End BatchExamples.
Module CweedsExamples.
Import Weather WeatherFacts WeatherExamples CweedsFacts.

Lemma sample_hourly_reads :
  read_cweeds_file (B := Concrete.builtins) "station.WY2" Samples.cweeds_day false
    = Ok Samples.cweeds_hourly
  /\ read_cweeds_file (B := Concrete.builtins) "station.WY3" Samples.cweeds_wy3_file false
    = Ok Samples.cweeds_hourly_wy3.
Proof. split; vm_compute; reflexivity. Defined.

Lemma read_cweeds_file_shape_witness :
  let B := Concrete.builtins in
  let d := Samples.cweeds_hourly_wy3 in
  aligned d
  /\ length (Time d) = length (data_rows "station.WY3" Samples.cweeds_wy3_file)
  /\ cweeds_format d = ext_of "station.WY3"
  /\ (cweeds_format d = "WY2" \/ cweeds_format d = "WY3")
  /\ time_format d = format_name false
  /\ (is_Some (hdr d) <-> cweeds_format d = "WY3").
Proof.
  intros B d.
  apply (read_cweeds_file_shape (B := B) "station.WY3" Samples.cweeds_wy3_file false d).
  exact (proj2 sample_hourly_reads).
Defined.

Lemma join_result_shape_witness :
  let B := Concrete.builtins in
  let m := Samples.wy23_df in
  (cweeds_format Samples.wy2_df = "WY2" /\ cweeds_format Samples.wy3_df = "WY3" /\
   time_format Samples.wy2_df = time_format Samples.wy3_df /\
   hdr m = hdr Samples.wy3_df /\ is_Some (hdr Samples.wy3_df))
  /\ aligned m
  /\ StronglySorted Z.lt (Time m)
  /\ (length (Time m) <= length (Time Samples.wy2_df) + length (Time Samples.wy3_df))%nat
  /\ (forall junk' fjunk' (x : dataset Concrete.xfloat),
        join_daily_cweeds_wy2_and_wy3 junk' fjunk' m x = Raise AssertionError /\
        join_daily_cweeds_wy2_and_wy3 junk' fjunk' x m = Raise AssertionError).
Proof.
  intros B m.
  apply (join_result_shape Samples.junk Samples.fjunk
           Samples.wy2_df Samples.wy3_df m).
  vm_compute. reflexivity.
Defined.

Lemma cweeds_read_then_join_witness :
  let B := Concrete.builtins in
  let d2 := Samples.cweeds_hourly in
  let d3 := Samples.cweeds_hourly_wy3 in
  exists (m : dataset Concrete.xfloat) (h : header Concrete.xfloat),
    join_daily_cweeds_wy2_and_wy3 Samples.junk Samples.fjunk d2 d3 = Ok m /\
    hdr d3 = Some h /\ hdr m = Some h /\
    time_format m = format_name false /\
    NoDup (Time m) /\
    (forall t, t ∈ Time m <-> t ∈ Time d2 \/ t ∈ Time d3).
Proof.
  intros B d2 d3.
  apply (cweeds_read_then_join (B := B) Samples.junk Samples.fjunk
           "station.WY2" "station.WY3" Samples.cweeds_day Samples.cweeds_wy3_file
           false d2 d3).
  - reflexivity.
  - reflexivity.
  - exact (proj1 sample_hourly_reads).
  - exact (proj2 sample_hourly_reads).
Defined.

Lemma read_cweeds_file_rejects_witness :
  let B := Concrete.builtins in
  read_cweeds_file "station.wy2" Samples.cweeds_day true = Raise ValueError
  /\ read_cweeds_file "station.WY3" [] true = Raise IndexError
  /\ read_cweeds_file "station.WY2"
       (take 2 Samples.cweeds_day ++ ["7170002001061503"] :: drop 3 Samples.cweeds_day)
       true
     = Raise ValueError.
Proof.
  intros B. split; [|split].
  - apply (proj1 (read_cweeds_file_rejects (B := B) "station.wy2"
                    Samples.cweeds_day true)); vm_compute; discriminate.
  - apply (proj1 (proj2 (read_cweeds_file_rejects (B := B) "station.WY3" [] true)));
      reflexivity.
  - apply (proj2 (proj2 (read_cweeds_file_rejects (B := B) "station.WY2"
                           (take 2 Samples.cweeds_day
                              ++ ["7170002001061503"] :: drop 3 Samples.cweeds_day)
                           true))
             (take 2 Samples.cweeds_day) ["7170002001061503"]
             (drop 3 Samples.cweeds_day)
             [ {| h_year := 2001; h_month := 6; h_day := 15; h_hour := 0;
                  h_irradiance := Concrete.Fin 100 1000; h_time := 24 * 37057 |};
               {| h_year := 2001; h_month := 6; h_day := 15; h_hour := 1;
                  h_irradiance := Concrete.Fin 200 1000; h_time := 24 * 37057 + 1 |} ]
             ValueError).
    + reflexivity.
    + reflexivity.
    + vm_compute. reflexivity.
    + vm_compute. reflexivity.
Defined.
End CweedsExamples.
Module WriterExamples.
Import Weather WeatherFacts HelpFacts HelpExamples WriterFacts.

Lemma sample_year_complete :
  Forall (complete Samples.year_2001) Samples.year_2001.
Proof.
  apply List.Forall_forall. intros y Hy. apply repeat_spec in Hy. subst y.
  unfold complete. vm_compute. reflexivity.
Defined.

Lemma sample_values_fit :
  Forall (value_fits (B := Concrete.builtins) D4_formats)
         (Concrete.Fin 0 1 :: Samples.tenths_of_year).
Proof.
  assert (Hfits : forallb (Concrete.fits 5 1)
                    (Concrete.Fin 0 1 :: Samples.tenths_of_year) = true)
    by (vm_compute; reflexivity).
  apply List.Forall_forall. intros v Hv.
  exact (proj1 (fits_value_ok D4_formats v (proj1 (forallb_forall _ _) Hfits v Hv))).
Defined.

Lemma save_data_rejects_bad_config_witness :
  let B := Concrete.builtins in
  save_data_to_HELP_format "rain.txt" Samples.year_2001 Samples.tenths_of_year
    "MONTREAL" None Samples.world0
  = (Samples.world0, Raise ValueError)
  /\ save_data_to_HELP_format "sun.D13" Samples.year_2001 Samples.tenths_of_year
       "MONTREAL" None Samples.world0
     = (Samples.world0, Raise ValueError).
Proof.
  intros B. split.
  - apply (save_data_rejects_bad_config (B := B) "rain.txt").
    left. repeat split; vm_compute; discriminate.
  - apply (save_data_rejects_bad_config (B := B) "sun.D13").
    right. split; reflexivity.
Defined.

Lemma save_data_file_layout_witness :
  let B := Concrete.builtins in
  let fcontent := help_header (ext_of "rain.D4") "MONTREAL" None
                  ++ concat (map (block D4_formats Samples.year_2001
                                    Samples.tenths_of_year)
                               (np_unique Samples.year_2001)) in
  save_data_to_HELP_format "rain.D4" Samples.year_2001 Samples.tenths_of_year
    "MONTREAL" None Samples.world0
  = ({| files := <["rain.D4" := fcontent]> (files Samples.world0);
        sim_log := sim_log Samples.world0 |}, Ok tt)
  /\ length fcontent = (4 + 37 * length (np_unique Samples.year_2001))%nat.
Proof.
  intros B.
  apply (save_data_file_layout (B := B) "rain.D4" Samples.year_2001
           Samples.tenths_of_year "MONTREAL" None D4_formats Samples.world0).
  - reflexivity.
  - exact sample_year_complete.
  - vm_compute. lia.
Defined.

Lemma header_city_on_forty_characters_witness :
  let B := Concrete.builtins in
  let city := "MONTREAL" in
  let lat := Some (Concrete.Fin 4547 100) in
  format_weather_header_for_HELP 3 2 city lat
  = [[" 3"]; [" 2"]; [city_line city]; [format_f 6 2 (Concrete.Fin 4547 100)]]
  /\ String.length (city_line city) = 40%nat
  /\ city_line city = city +:+ Py.spaces (40 - String.length city)
  /\ (forall ext,
        help_header ext city lat
        = if String.eqb ext "D13" then format_weather_header_for_HELP 3 2 city lat
          else format_weather_header_for_HELP 3 2 city None).
Proof.
  intros B city lat.
  destruct (header_city_on_forty_characters (B := B) city lat)
    as (H1 & H2 & H3 & _ & H5).
  split; [exact H1|]. split; [exact H2|]. split; [|exact H5].
  apply H3. vm_compute. lia.
Defined.

Lemma data_lines_of_one_length_witness :
  let B := Concrete.builtins in
  exists fdata,
    format_timeseries_for_HELP Samples.year_2001 Samples.tenths_of_year D4_formats
      = Ok fdata /\
    Forall (line_of_length (year_width D4_formats + 10 * data_width D4_formats)) fdata.
Proof.
  intros B.
  apply (data_lines_of_one_length (B := B) D4_formats Samples.year_2001
           Samples.tenths_of_year).
  - vm_compute. lia.
  - exact sample_year_complete.
  - apply List.Forall_forall. intros y Hy. apply repeat_spec in Hy. subst y.
    vm_compute. reflexivity.
  - exact sample_values_fit.
Defined.

Lemma data_beyond_years_ignored_witness :
  let B := Concrete.builtins in
  let years := Samples.year_2001 in
  let data := Samples.tenths_of_year in
  let extra := [Concrete.NaN; Concrete.Fin 1000 1] in
  format_timeseries_for_HELP years (data ++ extra) D4_formats
  = format_timeseries_for_HELP years data D4_formats
  /\ (forall filename city lat w,
        save_data_to_HELP_format filename years (data ++ extra) city lat w
        = save_data_to_HELP_format filename years data city lat w).
Proof.
  intros B years data extra.
  apply (data_beyond_years_ignored (B := B) D4_formats years data extra).
  vm_compute. lia.
Defined.

Lemma data_shorter_than_years_raises_witness :
  let B := Concrete.builtins in
  let years := Samples.year_2001 in
  let data := take 364 Samples.tenths_of_year in
  format_timeseries_for_HELP years data D4_formats = Raise IndexError
  /\ (forall filename city lat w,
        formats_of_ext (ext_of filename) lat = Ok D4_formats ->
        save_data_to_HELP_format filename years data city lat w
        = (w, Raise IndexError)).
Proof.
  intros B years data.
  apply (data_shorter_than_years_raises (B := B) D4_formats years data).
  - vm_compute. lia.
  - exact sample_year_complete.
Defined.

End WriterExamples.
Module DownscalingExamples.
Import Weather WeatherFacts HelpFacts DownscalingFacts.

Lemma calc_yearly_by_year_witness :
  let B := Concrete.builtins in
  let yy := [2002; 2001; 2002; 2001; 2003] in
  let x := map (fun n => Concrete.Fin n 1) [1; 2; 3; 4; 5; 6] in
  calc_yearly yy x np_sum
  = Ok (np_unique yy, map (year_value np_sum yy x) (np_unique yy))
  /\ calc_yearly yy (take 4 x) np_sum = Raise IndexError.
Proof.
  intros B yy x. split.
  - apply (proj1 (calc_yearly_by_year (B := B) Concrete.xmean yy x np_sum)).
    vm_compute. lia.
  - apply (proj1 (proj2 (calc_yearly_by_year (B := B) Concrete.xmean yy (take 4 x)
                           np_sum))).
    vm_compute. lia.
Defined.

Lemma rain_is_ptot_of_warm_days_witness :
  let B := Concrete.builtins in
  let zero := Concrete.Fin 0 1 in
  (exists rain,
     calcul_rain_from_ptot Concrete.xlt Samples.tavg Samples.ptot zero = Ok rain /\
     length rain = length Samples.ptot /\
     (forall i, rain !! i
                = rain_of_day Concrete.xlt zero (Samples.tavg !! i) <$> Samples.ptot !! i) /\
     calcul_rain_from_ptot Concrete.xlt Samples.tavg rain zero = Ok rain)
  /\ calcul_rain_from_ptot Concrete.xlt Samples.tavg (take 2 Samples.ptot) zero
     = Raise IndexError.
Proof.
  intros B zero. split.
  - apply (proj1 (rain_is_ptot_of_warm_days (B := B) Concrete.xlt
                    Samples.tavg Samples.ptot zero)).
    vm_compute. lia.
  - apply (proj2 (rain_is_ptot_of_warm_days (B := B) Concrete.xlt
                    Samples.tavg (take 2 Samples.ptot) zero)
             2%nat (Concrete.Fin (-1) 2)).
    + reflexivity.
    + reflexivity.
    + vm_compute. lia.
Defined.

Lemma calc_monthly_by_month_witness :
  let B := Concrete.builtins in
  let yy := Samples.winter_years in
  let mm := Samples.winter_months in
  let x := Samples.winter_values in
  let pairs := year_months yy in
  calc_monthly Concrete.monthrange yy mm x np_sum
  = Ok (map fst pairs, map snd pairs,
        map (month_cell Concrete.days_in_month np_sum yy mm x) pairs)
  /\ length pairs = (12 * length (np_unique yy))%nat
  /\ calc_monthly_sum Concrete.monthrange yy mm x
     = calc_monthly Concrete.monthrange yy mm x np_sum
  /\ calc_monthly_mean Concrete.xmean Concrete.monthrange yy mm x
     = calc_monthly Concrete.monthrange yy mm x Concrete.xmean.
Proof.
  intros B yy mm x.
  apply (calc_monthly_by_month (B := B) Concrete.xmean Concrete.monthrange
           yy mm x np_sum Concrete.days_in_month).
  - reflexivity.
  - vm_compute. lia.
  - intros y m Hy Hm. apply list_elem_of_In, repeat_spec in Hy. subst y.
    apply list_elem_of_In in Hm. unfold months12 in Hm. cbn in Hm.
    repeat (destruct Hm as [<-|Hm]; [reflexivity|]). contradiction.
Defined.

Lemma monthly_normals_rejects_witness :
  let B := Concrete.builtins in
  calcul_monthly_normals Concrete.xmean Concrete.xisnan [] [] [] None None
    = Raise ValueError
  /\ calcul_monthly_normals Concrete.xmean Concrete.xisnan
       [2000; 2001] [12; 13] [Concrete.Fin 1 1; Concrete.Fin 2 1] None None
     = Raise ValueError
  /\ calcul_monthly_normals Concrete.xmean Concrete.xisnan
       [2000] [1; 2] [Concrete.Fin 1 1; Concrete.Fin 2 1; Concrete.Fin 3 1] None None
     = Raise ValueError.
Proof.
  intros B. split; [|split].
  - apply (proj1 (monthly_normals_rejects (B := B) Concrete.xmean Concrete.xisnan
                    [] [] [] None None)).
    reflexivity.
  - apply (proj1 (proj2 (monthly_normals_rejects (B := B) Concrete.xmean Concrete.xisnan
                           [2000; 2001] [12; 13]
                           [Concrete.Fin 1 1; Concrete.Fin 2 1] None None))).
    exists 13. split; [|lia]. apply list_elem_of_In. cbn. tauto.
  - apply (proj2 (proj2 (monthly_normals_rejects (B := B) Concrete.xmean Concrete.xisnan
                           [2000] [1; 2]
                           [Concrete.Fin 1 1; Concrete.Fin 2 1; Concrete.Fin 3 1]
                           None None))); cbn; lia.
Defined.

Lemma monthly_normals_by_month_witness :
  let B := Concrete.builtins in
  let years := Samples.normal_years in
  let months := Samples.normal_months in
  let x := Samples.normal_values in
  calcul_monthly_normals Concrete.xmean Concrete.xisnan years months x None (Some 2001)
  = Ok (map (normal Concrete.xmean Concrete.xisnan None (Some 2001) years months x)
            months12)
  /\ length (map (normal Concrete.xmean Concrete.xisnan None (Some 2001) years months x)
               months12) = 12%nat.
Proof.
  intros B years months x.
  apply (monthly_normals_by_month (B := B) Concrete.xmean Concrete.xisnan
           years months x None (Some 2001)).
  - reflexivity.
  - reflexivity.
  - reflexivity.
  - discriminate.
  - unfold months, Samples.normal_months.
    repeat (apply List.Forall_cons; [lia|]). apply List.Forall_nil.
Defined.

End DownscalingExamples.
